(** * Quick codes interpreter ([quickcodes.py]): a shallow embedding

    Definitions, following the Python source top to bottom:
    - [Py]         the Python primitives the code relies on (indexing,
                   slicing and slice assignment on [bytearray],
                   [str.split]);
    - [Codec]      the fixed-width integers of [utils.type_helpers];
    - [QuickCodes] the class itself: constructor, the two searches, the
                   interpreter loop [apply_code] with one handler per
                   opcode;
    - [Spec]       the notions the specification is worded with.

    Results:
    - [Termination]  every loop of [apply_code] ends;
    - [Persistence]  the file is written only after a complete run;
    - [Scenarios]    runs on concrete programs;
    - [Decoding]     the constructor;
    - [Skipping]     opcode D;
    - [Searching]    [search_data] and [reverse_search_data];
    - [CountField]   the count field of opcodes 8, B and C;
    - [Arithmetic]   opcode 3;
    - [Bounds]       addresses out of range.

    Strings are [string]s whose characters stand for code points below 256;
    the byte buffer is a [list Byte.byte]; Python integers are [Z]; the
    index into the program, which only grows from 0, is a [nat]. *)

From Stdlib Require Import ZArith String Ascii List Lia Bool Arith.
From Stdlib Require Strings.Byte.
Import ListNotations.

Local Open Scope Z_scope.

Abbreviation byte := Byte.byte.

(* ================================================================= *)
(** ** Python primitives *)

Module Py.

(** The exceptions the interpreter can meet.  [apply_code] catches
    [ValueError], [IOError] and [IndexError]. *)
Inductive exn : Type :=
| ValueError
| IndexError
| IOError.

Section Sequences.
Context {A : Type}.

Definition len (l : list A) : Z := Z.of_nat (length l).

(** Clamping of one slice bound, as [slice.indices] does for step 1. *)
Definition clamp (n i : Z) : Z :=
  if i <? 0 then Z.max 0 (i + n) else Z.min i n.

(** [l[a:b]]; never raises. *)
Definition slice (l : list A) (a b : Z) : list A :=
  let lo := clamp (len l) a in
  let hi := clamp (len l) b in
  firstn (Z.to_nat (hi - lo)) (skipn (Z.to_nat lo) l).

(** [l[a:]] *)
Definition slice_from (l : list A) (a : Z) : list A :=
  skipn (Z.to_nat (clamp (len l) a)) l.

(** [l[a:b] = v]: the clamped range is replaced by [v], whatever the
    length of [v]; an empty or inverted range inserts at its start. *)
Definition set_slice (l : list A) (a b : Z) (v : list A) : list A :=
  let lo := clamp (len l) a in
  let hi := Z.max lo (clamp (len l) b) in
  firstn (Z.to_nat lo) l ++ v ++ skipn (Z.to_nat hi) l.

(** Resolution of an integer index: negative indices count from the end;
    [None] is [IndexError]. *)
Definition index (l : list A) (i : Z) : option nat :=
  let j := if i <? 0 then i + len l else i in
  if (0 <=? j) && (j <? len l) then Some (Z.to_nat j) else None.

(** [l[i]] *)
Definition get (l : list A) (i : Z) : option A :=
  match index l i with
  | Some j => nth_error l j
  | None => None
  end.

Fixpoint update (l : list A) (j : nat) (x : A) : list A :=
  match l, j with
  | [], _ => []
  | _ :: t, O => x :: t
  | h :: t, S j' => h :: update t j' x
  end.
End Sequences.

(** Characters [str.split()] treats as separators, among code points
    below 256. *)
Definition isspace (c : ascii) : bool :=
  let n := nat_of_ascii c in
  ((9 <=? n) && (n <=? 13) || (28 <=? n) && (n <=? 32)
   || (n =? 133) || (n =? 160))%nat.

(** [s.split()]: maximal runs of non-separators.  [cur] is the token being
    read, reversed. *)
Fixpoint split_aux (s : string) (cur : list ascii) : list string :=
  let flush (rest : list string) :=
    match cur with
    | [] => rest
    | _ => string_of_list_ascii (rev cur) :: rest
    end in
  match s with
  | EmptyString => flush []
  | String c s' =>
      if isspace c then flush (split_aux s' []) else split_aux s' (c :: cur)
  end.

Definition split (s : string) : list string := split_aux s [].

End Py.

(* ================================================================= *)
(** ** Fixed-width integers *)

Module Codec.

Definition b2z (b : byte) : Z := Z.of_N (Byte.to_N b).

(** The byte whose value is [z mod 256]. *)
Definition z2b (z : Z) : byte :=
  match Byte.of_N (Z.to_N (z mod 256)) with
  | Some b => b
  | None => Byte.x00
  end.

Fixpoint bytes_eqb (a b : list byte) : bool :=
  match a, b with
  | [], [] => true
  | x :: a', y :: b' => Byte.eqb x y && bytes_eqb a' b'
  | _, _ => false
  end.

Definition hex_digit (c : ascii) : option Z :=
  let n := Z.of_nat (nat_of_ascii c) in
  if (48 <=? n) && (n <=? 57) then Some (n - 48)
  else if (65 <=? n) && (n <=? 70) then Some (n - 55)
  else if (97 <=? n) && (n <=? 102) then Some (n - 87)
  else None.

Definition is_hex (c : ascii) : bool :=
  match hex_digit c with Some _ => true | None => false end.

Fixpoint hex_acc (s : string) (acc : Z) : option Z :=
  match s with
  | EmptyString => Some acc
  | String c s' =>
      match hex_digit c with
      | Some d => hex_acc s' (16 * acc + d)
      | None => None
      end
  end.

(** Modelled from the spec: [utils.type_helpers] is not part of the sources
    at hand.  The spec describes it as a codec that decodes a substring of
    hexadecimal characters to an unsigned or signed integer of 8/16/32/64
    bits and encodes such an integer to its bytes in a selected order.
    A string of hexadecimal digits denotes its base-16 value; anything else
    (the empty string included) is a [ValueError]. *)
Definition of_hex (s : string) : option Z :=
  match s with
  | EmptyString => None
  | _ => hex_acc s 0
  end.

(** Modelled from the spec: the value of an unsigned integer of [bits] bits
    wraps around modulo [2^bits] (the spec words arithmetic on these
    integers as wraparound at the field's width). *)
Definition uint (bits v : Z) : Z := v mod 2 ^ bits.

(** Modelled from the spec: a signed integer of [bits] bits, in two's
    complement. *)
Definition sint (bits v : Z) : Z :=
  (v + 2 ^ (bits - 1)) mod 2 ^ bits - 2 ^ (bits - 1).

Definition uint8 := uint 8.
Definition uint16 := uint 16.
Definition uint32 := uint 32.
Definition uint64 := uint 64.
Definition int32 := sint 32.
Definition int64 := sint 64.

Inductive byteorder : Type := little | big.

Fixpoint le_bytes (n : nat) (v : Z) : list byte :=
  match n with
  | O => []
  | S n' => z2b v :: le_bytes n' (v / 256)
  end.

(** Modelled from the spec: [.as_bytes], the [n] bytes of the value in the
    order chosen at construction. *)
Definition as_bytes (o : byteorder) (n : nat) (v : Z) : list byte :=
  match o with
  | little => le_bytes n v
  | big => rev (le_bytes n v)
  end.

Fixpoint le_value (bs : list byte) : Z :=
  match bs with
  | [] => 0
  | b :: bs' => b2z b + 256 * le_value bs'
  end.

(** Modelled from the spec: construction from a byte string reads the bytes
    given, in the chosen order, as an unsigned number (fewer bytes than the
    width give a smaller number, as [int.from_bytes] does). *)
Definition from_bytes (o : byteorder) (bs : list byte) : Z :=
  match o with
  | little => le_value bs
  | big => le_value (rev bs)
  end.

End Codec.

(* ================================================================= *)
(** ** The class [QuickCodes] *)

Module QuickCodes.
Import Py Codec.

(** What a raising computation raises: a Python exception, or the error of
    the class, with its message. *)
Inductive error : Type :=
| Exn (e : exn)
| QuickCodesError (message : string).

(** [Timeout] is not Python: it is the model's loops running out of fuel.
    [apply_code_terminates] shows it never comes out of a run. *)
Inductive res (A : Type) : Type :=
| Ok (a : A)
| Raise (e : error)
| Timeout.
Arguments Ok {A} a.
Arguments Raise {A} e.
Arguments Timeout {A}.

(** The mutable part of a run: [self.data] and the three registers
    [pointer] (int64), [end_pointer] (uint64) and [ptr] (uint32). *)
Record state : Type := mkState {
  data : list byte;
  pointer : Z;
  end_pointer : Z;
  ptr : Z
}.

(** Computations mutate the state and may raise; the state survives a
    raise, as the Python object does. *)
Definition M (A : Type) : Type := state -> res A * state.

Definition ret {A} (a : A) : M A := fun st => (Ok a, st).

Definition bind {A B} (c : M A) (k : A -> M B) : M B :=
  fun st =>
    match c st with
    | (Ok a, st') => k a st'
    | (Raise e, st') => (Raise e, st')
    | (Timeout, st') => (Timeout, st')
    end.

Definition raise {A} (e : exn) : M A := fun st => (Raise (Exn e), st).
Definition timeout {A} : M A := fun st => (Timeout, st).

Declare Scope qc_scope.
Delimit Scope qc_scope with qc.
Notation "x <- c ;; k" := (bind c (fun x => k))
  (at level 61, c at next level, right associativity) : qc_scope.
Notation "' pat <- c ;; k" := (bind c (fun x => match x with pat => k end))
  (at level 61, pat pattern, c at next level, right associativity) : qc_scope.
Notation "c ;; k" := (bind c (fun _ => k))
  (at level 61, right associativity) : qc_scope.
Local Open Scope qc_scope.

Definition lift {A} (e : exn) (o : option A) : M A :=
  match o with
  | Some a => ret a
  | None => raise e
  end.

Definition get_data : M (list byte) := fun st => (Ok (data st), st).
Definition get_pointer : M Z := fun st => (Ok (pointer st), st).
Definition get_end_pointer : M Z := fun st => (Ok (end_pointer st), st).
Definition get_ptr : M Z := fun st => (Ok (ptr st), st).

Definition put_data (d : list byte) : M unit :=
  fun st => (Ok tt, mkState d (pointer st) (end_pointer st) (ptr st)).
(** [pointer.value = v] *)
Definition set_pointer (v : Z) : M unit :=
  fun st => (Ok tt, mkState (data st) (int64 v) (end_pointer st) (ptr st)).
(** [end_pointer.value = v] *)
Definition set_end_pointer (v : Z) : M unit :=
  fun st => (Ok tt, mkState (data st) (pointer st) (uint64 v) (ptr st)).
(** [ptr.value = v] *)
Definition set_ptr (v : Z) : M unit :=
  fun st => (Ok tt, mkState (data st) (pointer st) (end_pointer st) (uint32 v)).

(** [self.data[i]] *)
Definition data_get (i : Z) : M Z :=
  d <- get_data ;; lift IndexError (option_map b2z (Py.get d i)).

(** [self.data[i] = v], [v] a Python integer: the index is checked first,
    then the value must be in [range(0, 256)]. *)
Definition data_set (i v : Z) : M unit :=
  d <- get_data ;;
  j <- lift IndexError (Py.index d i) ;;
  if (0 <=? v) && (v <? 256) then put_data (Py.update d j (z2b v))
  else raise ValueError.

(** [self.data[a:b]] *)
Definition data_slice (a b : Z) : M (list byte) :=
  d <- get_data ;; ret (Py.slice d a b).

(** [self.data[a:b] = v] *)
Definition data_set_slice (a b : Z) (v : list byte) : M unit :=
  d <- get_data ;; put_data (Py.set_slice d a b v).

(** [line[i]] *)
Definition char_at (line : string) (i : nat) : M ascii :=
  lift IndexError (String.get i line).

(** [line[a:b]] for constants [0 <= a <= b]. *)
Definition str_slice (line : string) (a b : nat) : string :=
  substring a (b - a) line.

(** The integer a field of the line denotes; the callers wrap it to the
    width of the type they construct. *)
Definition hex (s : string) : M Z := lift ValueError (of_hex s).

(** [self.lines[i]] *)
Definition fetch (lines : list string) (i : nat) : M string :=
  lift IndexError (nth_error lines i).

(** [t in [...]] for a one-character [t]. *)
Definition among (t : ascii) (cs : list ascii) : bool :=
  existsb (Ascii.eqb t) cs.

Definition ord (c : ascii) : Z := Z.of_nat (nat_of_ascii c).

(** [bytearray(n)] *)
Definition zeros (n : Z) : list byte := repeat Byte.x00 (Z.to_nat n).

(** The number of values of [range(a, b, 8)]. *)
Definition range8 (a b : Z) : nat := Z.to_nat ((b - a + 7) / 8).

(* ----------------------------------------------------------------- *)
(** *** The constructor *)

(** [QC_RE.fullmatch(line)]: eight hexadecimal digits, a space, eight
    hexadecimal digits, and nothing else. *)
Definition validate_code (line : string) : bool :=
  let cs := list_ascii_of_string line in
  (length cs =? 17)%nat
  && forallb is_hex (firstn 8 cs)
  && match nth_error cs 8 with
     | Some c => Ascii.eqb c " "%char
     | None => false
     end
  && forallb is_hex (skipn 9 cs).

(** The list comprehension of [__init__]: [parts[i] + " " + parts[i+1]]
    for [i] in [range(0, len(parts), 2)]; [None] is the [IndexError] of a
    last token without a partner. *)
Fixpoint pair_up (parts : list string) : option (list string) :=
  match parts with
  | [] => Some []
  | [_] => None
  | a :: b :: rest =>
      match pair_up rest with
      | Some ls => Some ((a ++ " " ++ b)%string :: ls)
      | None => None
      end
  end.

(** The first line [validate_code] refuses, if any. *)
Definition first_invalid (ls : list string) : option string :=
  find (fun l => negb (validate_code l)) ls.

Record t : Type := mkQC {
  filePath : string;
  codes : string;
  self_data : list byte;
  lines : list string
}.

(** [QuickCodes(filePath, codes)] *)
Definition init (filePath codes : string) : res t :=
  match pair_up (Py.split codes) with
  | None => Raise (QuickCodesError "Invalid code!")
  | Some ls =>
      match first_invalid ls with
      | Some l => Raise (QuickCodesError ("Invalid code: " ++ l ++ "!"))
      | None => Ok (mkQC filePath codes [] ls)
      end
  end.

(* ----------------------------------------------------------------- *)
(** *** The two searches *)

(** The loop of [search_data]: [n] offsets remain, [i] is the next one,
    [k] the number of the next match. *)
Fixpoint search_loop (d s : list byte) (length count : Z)
                     (n : nat) (i k : Z) : Z :=
  match n with
  | O => -1
  | S n' =>
      if bytes_eqb (Py.slice d i (i + length)) s then
        if k =? count then i
        else search_loop d s length count n' (i + 1) (k + 1)
      else search_loop d s length count n' (i + 1) k
  end.

Definition search_data (d : list byte) (size start : Z)
                       (search : list byte) (length count : Z) : Z :=
  let s := Py.slice search 0 length in
  search_loop d s length count (Z.to_nat (size - length + 1 - start)) start 1.

(** The loop of [reverse_search_data], over [range(start, -1, -1)]. *)
Fixpoint reverse_search_loop (d s : list byte) (size length count : Z)
                             (n : nat) (i k : Z) : Z :=
  match n with
  | O => -1
  | S n' =>
      let hit := (i + length <=? size)
                 && bytes_eqb (Py.slice d i (i + length)) s in
      if hit && (k =? count) then i
      else if hit then
        reverse_search_loop d s size length count n' (i - 1) (k + 1)
      else reverse_search_loop d s size length count n' (i - 1) k
  end.

Definition reverse_search_data (d : list byte) (size start : Z)
                               (search : list byte) (length count : Z) : Z :=
  let s := Py.slice search 0 length in
  reverse_search_loop d s size length count (Z.to_nat (start + 1)) start 1.

(* ----------------------------------------------------------------- *)
(** *** Operand decoding shared by the handlers *)

Local Open Scope char_scope.

(** [off = int32(line[2:8]); if line[1] in rel: off.value += pointer.value]
    and then [off.value]. *)
Definition resolve (line : string) (t : ascii) (rel : list ascii) : M Z :=
  off <- hex (str_slice line 2 8) ;;
  p <- get_pointer ;;
  ret (if among t rel then int32 (int32 off + p) else int32 off).

(** [uintN(self.data[w:w+n], "little")] *)
Definition load (bits : Z) (n : Z) (w : Z) : M Z :=
  bs <- data_slice w (w + n) ;; ret (uint bits (from_bytes little bs)).

(** [self.data[w:w+n] = x.as_bytes] for a little-endian [x] of [n] bytes. *)
Definition store (n : nat) (w : Z) (v : Z) : M unit :=
  data_set_slice w (w + Z.of_nat n) (as_bytes little n v).

(* ----------------------------------------------------------------- *)
(** *** Opcodes 0, 1, 2: write *)

Definition op_write (line : string) : M unit :=
  c0 <- char_at line 0 ;;
  let bytes_ := uint8 (Z.shiftl 1 (ord c0 - 48)) in
  off <- hex (str_slice line 2 8) ;;
  t <- char_at line 1 ;;
  p <- get_pointer ;;
  let off := if Ascii.eqb t "8" then int32 (int32 off + p) else int32 off in
  v <- hex (str_slice line 9 17) ;;
  let val := uint32 v in
  data_set_slice off (off + bytes_)
    (Py.slice (as_bytes little 4 val) (4 - bytes_) (4 - bytes_ + bytes_)).

(* ----------------------------------------------------------------- *)
(** *** Opcode 3: increase / decrease *)

Definition op_incdec (line : string) : M unit :=
  t <- char_at line 1 ;;
  write <- resolve line t ["8"; "9"; "A"; "C"; "D"; "E"] ;;
  v <- hex (str_slice line 9 17) ;;
  let val := uint32 v in
  if among t ["0"; "8"] then
    wv8 <- data_get write ;;
    data_set write (wv8 + Z.land val 255)
  else if among t ["1"; "9"] then
    wv16 <- load 16 2 write ;;
    store 2 write (uint16 (wv16 + Z.land val 65535))
  else if among t ["2"; "A"] then
    wv32 <- load 32 4 write ;;
    store 4 write (uint32 (wv32 + val))
  else if among t ["3"; "B"] then
    wv64 <- load 64 8 write ;;
    store 8 write (uint64 (wv64 + val))
  else if among t ["4"; "C"] then
    wv8 <- data_get write ;;
    data_set write (wv8 - Z.land val 255)
  else if among t ["5"; "D"] then
    wv16 <- load 16 2 write ;;
    store 2 write (uint16 (wv16 - Z.land val 65535))
  else if among t ["6"; "E"] then
    wv32 <- load 32 4 write ;;
    store 4 write (uint32 (wv32 - val))
  else if among t ["7"; "F"] then
    wv64 <- load 64 8 write ;;
    store 8 write (uint64 (wv64 - val))
  else ret tt.

(* ----------------------------------------------------------------- *)
(** *** Opcode 4: multi write *)

(** [for i in range(n)]: [n] iterations remain, [i] is the current one,
    [val] the running value (a uint32). *)
Fixpoint fill_loop (t : ascii) (off incoff incval : Z)
                   (n : nat) (i val : Z) : M unit :=
  match n with
  | O => ret tt
  | S n' =>
      let write := off + incoff * i in
      (if among t ["0"; "8"; "4"; "C"] then data_set write (uint8 val)
       else if among t ["1"; "9"; "5"; "D"] then store 2 write (uint16 val)
       else if among t ["2"; "A"; "6"; "E"] then store 4 write val
       else ret tt) ;;
      fill_loop t off incoff incval n' (i + 1) (uint32 (val + incval))
  end.

Definition op_fill (lines : list string) (line_index : nat)
                   (line : string) : M nat :=
  t <- char_at line 1 ;;
  off <- resolve line t ["8"; "9"; "A"; "C"; "D"; "E"] ;;
  v <- hex (str_slice line 9 17) ;;
  let val := uint32 v in
  line <- fetch lines (line_index + 1) ;;
  let line_index := (line_index + 1)%nat in
  n <- (if among t ["4"; "5"; "6"; "C"; "D"; "E"]
        then hex (str_slice line 0 4)
        else hex (str_slice line 1 4)) ;;
  incoff <- hex (str_slice line 4 8) ;;
  incval <- hex (str_slice line 9 17) ;;
  fill_loop t off (int32 incoff) (uint32 incval) (Z.to_nat (int32 n)) 0 val ;;
  ret line_index.

(* ----------------------------------------------------------------- *)
(** *** Opcode 5: copy bytes *)

Definition op_copy (lines : list string) (line_index : nat)
                   (line : string) : M nat :=
  off_src <- hex (str_slice line 2 8) ;;
  v <- hex (str_slice line 9 17) ;;
  let val := uint32 v in
  t <- char_at line 1 ;;
  p <- get_pointer ;;
  let src := if Ascii.eqb t "8" then int32 off_src + p else int32 off_src in
  line <- fetch lines (line_index + 1) ;;
  let line_index := (line_index + 1)%nat in
  off_dst <- hex (str_slice line 2 8) ;;
  t <- char_at line 1 ;;
  p <- get_pointer ;;
  let dst := if Ascii.eqb t "8" then int32 off_dst + p else int32 off_dst in
  bs <- data_slice src (src + val) ;;
  data_set_slice dst (dst + val) bs ;;
  ret line_index.

(* ----------------------------------------------------------------- *)
(** *** Opcode 6: pointer codes *)

(** The new value of [r] under [r.value += v], [-=] or [*=], selected by
    [x]; [None] when [x] is none of the three and nothing is assigned. *)
Definition arith (x : ascii) (r v : Z) : option Z :=
  if Ascii.eqb x "0" then Some (r + v)
  else if Ascii.eqb x "1" then Some (r - v)
  else if Ascii.eqb x "2" then Some (r * v)
  else None.

Definition op_mega (line : string) : M unit :=
  t <- char_at line 1 ;;
  w <- char_at line 2 ;;
  x <- char_at line 3 ;;
  y <- char_at line 5 ;;
  z <- char_at line 7 ;;
  v <- hex (str_slice line 9 17) ;;
  let val := uint32 v in
  p <- get_pointer ;;
  let off := if among t ["8"; "9"; "A"] then 0 + p else 0 in
  if Ascii.eqb w "0" then
    r <- get_ptr ;;
    let val := if Ascii.eqb x "1" then uint32 (val + r) else val in
    let write := 0 + (val + off) in
    (if Ascii.eqb y "1" then set_pointer val else ret tt) ;;
    if among t ["0"; "8"] then
      wv8 <- data_get write ;; set_ptr wv8
    else if among t ["1"; "9"] then
      wv16 <- load 16 2 write ;; set_ptr wv16
    else if among t ["2"; "A"] then
      wv32 <- load 32 4 write ;; set_ptr wv32
    else ret tt
  else if Ascii.eqb w "1" then
    r <- get_ptr ;;
    match arith x r val with
    | Some r' => set_ptr r'
    | None => ret tt
    end ;;
    (if Ascii.eqb z "1" then
       r <- get_ptr ;; p <- get_pointer ;; set_ptr (r + p)
     else ret tt) ;;
    r <- get_ptr ;;
    set_pointer r
  else if Ascii.eqb w "2" then
    p <- get_pointer ;;
    match arith x p val with
    | Some p' => set_pointer p'
    | None => ret tt
    end ;;
    if Ascii.eqb y "1" then
      p <- get_pointer ;; set_ptr p
    else ret tt
  else if Ascii.eqb w "4" then
    p <- get_pointer ;;
    let write := 0 + p in
    (** Modelled from the spec: for the 8-bit width the source assigns the
        [uint8] object itself to [self.data[write]]; what a [bytearray]
        makes of that object depends on [utils.type_helpers], which is not
        part of the sources at hand.  The spec has this opcode write the
        byte, so the object stands for its value. *)
    if among t ["0"; "8"] then data_set write (uint8 val)
    else if among t ["1"; "9"] then store 2 write (uint16 val)
    else if among t ["2"; "A"] then store 4 write val
    else ret tt
  else ret tt.

(* ----------------------------------------------------------------- *)
(** *** Opcode 7: no less than / no more than *)

Definition op_clamp (line : string) : M unit :=
  t <- char_at line 1 ;;
  write <- resolve line t ["8"; "9"; "A"; "C"; "D"; "E"] ;;
  v <- hex (str_slice line 9 17) ;;
  let val := uint32 v in
  if among t ["0"; "8"] then
    let val := Z.land val 255 in
    wv8 <- data_get write ;;
    data_set write (if (wv8 <? val)%Z then val else wv8)
  else if among t ["1"; "9"] then
    let val := Z.land val 65535 in
    wv16 <- load 16 2 write ;;
    store 2 write (if (wv16 <? val)%Z then uint16 val else wv16)
  else if among t ["2"; "A"] then
    wv32 <- load 32 4 write ;;
    store 4 write (if (wv32 <? val)%Z then uint32 val else wv32)
  else if among t ["4"; "C"] then
    let val := Z.land val 255 in
    wv8 <- data_get write ;;
    data_set write (if (val <? wv8)%Z then val else wv8)
  else if among t ["5"; "D"] then
    let val := Z.land val 65535 in
    wv16 <- load 16 2 write ;;
    store 2 write (if (val <? wv16)%Z then uint16 val else wv16)
  else if among t ["6"; "E"] then
    wv32 <- load 32 4 write ;;
    store 4 write (if (val <? wv32)%Z then uint32 val else wv32)
  else ret tt.

(* ----------------------------------------------------------------- *)
(** *** Continuation words (opcodes 8, A and B) *)

(** [for i in range(first, limit, 8)]: each round takes the next line and
    lays its two words, most significant byte first, at [i] and, when
    [i + 4 < limit], at [i + 4].  [n] rounds remain.  The result carries
    the last line read and the index reached, which the caller goes on
    with. *)
Fixpoint words_loop (lines : list string) (limit : Z) (n : nat) (i : Z)
                    (buf : list byte) (line : string) (line_index : nat)
  : M (list byte * string * nat) :=
  match n with
  | O => ret (buf, line, line_index)
  | S n' =>
      line <- fetch lines (line_index + 1) ;;
      let line_index := (line_index + 1)%nat in
      v <- hex (str_slice line 0 8) ;;
      let buf := Py.set_slice buf i (i + 4) (as_bytes big 4 (uint32 v)) in
      v <- hex (str_slice line 9 17) ;;
      let buf :=
        if (i + 4 <? limit)%Z
        then Py.set_slice buf (i + 4) (i + 4 + 4) (as_bytes big 4 (uint32 v))
        else buf in
      words_loop lines limit n' (i + 8) buf line line_index
  end.

(* ----------------------------------------------------------------- *)
(** *** After a search that found nothing (opcodes 8, B and C) *)

(** [line and ((line[0] not in ["8", "B", "C"]) or line[1] == "8")] *)
Definition skip_cond (line : string) : M bool :=
  match line with
  | EmptyString => ret false
  | _ =>
      c0 <- char_at line 0 ;;
      if negb (among c0 ["8"; "B"; "C"]) then ret true
      else c1 <- char_at line 1 ;; ret (Ascii.eqb c1 "8")
  end.

(** The inner [while]. *)
Fixpoint skip_inner (fuel : nat) (lines : list string)
                    (line : string) (line_index : nat) : M (string * nat) :=
  match fuel with
  | O => timeout
  | S fuel' =>
      c <- skip_cond line ;;
      if c then
        if (length lines <=? line_index)%nat then ret (line, line_index)
        else
          line <- fetch lines line_index ;;
          skip_inner fuel' lines line (line_index + 1)%nat
      else ret (line, line_index)
  end.

(** The outer [while line_index < len(self.lines)]. *)
Fixpoint skip_outer (fuel : nat) (lines : list string)
                    (line : string) (line_index : nat) : M nat :=
  match fuel with
  | O => timeout
  | S fuel' =>
      if (line_index <? length lines)%nat then
        '(line, line_index) <-
          skip_inner (S (length lines)) lines line (line_index + 1)%nat ;;
        skip_outer fuel' lines line line_index
      else ret line_index
  end.

(** [if pointer.value < 0: ...; pointer.value = 0] *)
Definition not_found (lines : list string) (line : string)
                     (line_index : nat) : M nat :=
  p <- get_pointer ;;
  if (p <? 0)%Z then
    line_index <- skip_outer (S (length lines)) lines line line_index ;;
    set_pointer 0 ;;
    ret line_index
  else ret line_index.

(** [if not cnt: cnt = 1] *)
Definition default_count (cnt : Z) : Z := if (cnt =? 0)%Z then 1 else cnt.

(** The pattern of opcodes 8 and B: [(length + 3) & ~3] zero bytes, the
    word of the first line, then the continuation words. *)
Definition build_pattern (lines : list string) (line : string)
                         (line_index : nat) (length : Z)
  : M (list byte * string * nat) :=
  v <- hex (str_slice line 9 17) ;;
  let val := uint32 v in
  let find := zeros (Z.land (length + 3) (Z.lnot 3)) in
  let find := Py.set_slice find 0 4 (as_bytes big 4 val) in
  words_loop lines length (range8 4 length) 4 find line line_index.

(* ----------------------------------------------------------------- *)
(** *** Opcode 8: search *)

Definition op_search (lines : list string) (line_index : nat)
                     (line : string) : M nat :=
  t <- char_at line 1 ;;
  cnt <- hex (str_slice line 2 4) ;;
  length <- hex (str_slice line 4 8) ;;
  let length := int32 length in
  let cnt := default_count (int32 cnt) in
  '(find, line, line_index) <- build_pattern lines line line_index length ;;
  d <- get_data ;;
  p <- get_pointer ;;
  set_pointer (search_data d (Py.len d) (if Ascii.eqb t "8" then p else 0)
                           find length cnt) ;;
  not_found lines line line_index.

(* ----------------------------------------------------------------- *)
(** *** Opcode 9: pointer manipulator *)

Definition op_pointer (line : string) : M unit :=
  v <- hex (str_slice line 9 17) ;;
  let off := uint32 v in
  t <- char_at line 1 ;;
  if Ascii.eqb t "0" then
    bs <- data_slice off (off + 4) ;;
    set_pointer (uint32 (from_bytes big bs))
  else if Ascii.eqb t "1" then
    bs <- data_slice off (off + 4) ;;
    set_pointer (uint32 (from_bytes little bs))
  else if Ascii.eqb t "2" then
    p <- get_pointer ;; set_pointer (p + off)
  else if Ascii.eqb t "3" then
    p <- get_pointer ;; set_pointer (p - off)
  else if Ascii.eqb t "4" then
    d <- get_data ;; set_pointer (Py.len d - off)
  else if Ascii.eqb t "5" then
    set_pointer off
  else if Ascii.eqb t "D" then
    set_end_pointer off
  else if Ascii.eqb t "E" then
    p <- get_pointer ;; set_end_pointer (p + off)
  else ret tt.

(* ----------------------------------------------------------------- *)
(** *** Opcode A: multi-write *)

Definition op_raw (lines : list string) (line_index : nat)
                  (line : string) : M nat :=
  t <- char_at line 1 ;;
  off <- resolve line t ["8"] ;;
  v <- hex (str_slice line 9 17) ;;
  let size := uint32 v in
  let write := zeros (Z.land (size + 3) (Z.lnot 3)) in
  '(write, _, line_index) <-
    words_loop lines size (range8 0 size) 0 write line line_index ;;
  data_set_slice off (off + size) (Py.slice write 0 size) ;;
  ret line_index.

(* ----------------------------------------------------------------- *)
(** *** Opcode B: backward search *)

Definition op_rsearch (lines : list string) (line_index : nat)
                      (line : string) : M nat :=
  t <- char_at line 1 ;;
  cnt <- hex (str_slice line 2 4) ;;
  length <- hex (str_slice line 4 8) ;;
  let length := int32 length in
  let cnt := default_count (int32 cnt) in
  v <- hex (str_slice line 9 17) ;;
  e <- get_end_pointer ;;
  d <- get_data ;;
  (if (e =? 0)%Z then set_end_pointer (Py.len d - 1) else ret tt) ;;
  '(find, line, line_index) <- build_pattern lines line line_index length ;;
  d <- get_data ;;
  p <- get_pointer ;;
  e <- get_end_pointer ;;
  set_pointer (reverse_search_data d (Py.len d)
                 (if Ascii.eqb t "8" then p else e) find length cnt) ;;
  not_found lines line line_index.

(* ----------------------------------------------------------------- *)
(** *** Opcode C: address search *)

Definition op_asearch (lines : list string) (line_index : nat)
                      (line : string) : M nat :=
  t <- char_at line 1 ;;
  cnt <- hex (str_slice line 2 4) ;;
  length <- hex (str_slice line 4 8) ;;
  let length := int32 length in
  v <- hex (str_slice line 9 17) ;;
  p <- get_pointer ;;
  let addr := if among t ["8"; "C"] then uint32 (uint32 v + p) else uint32 v in
  d <- get_data ;;
  let find := Py.slice_from d addr in
  let cnt := default_count (int32 cnt) in
  set_pointer (if among t ["4"; "C"]
               then search_data d (addr + length) 0 find length cnt
               else search_data d (Py.len d) (addr + length) find length cnt) ;;
  not_found lines line line_index.

(* ----------------------------------------------------------------- *)
(** *** Opcode D: test and skip *)

(** [while l.value > 0: l.value -= 1; line = self.lines[line_index + 1];
    line_index += 1], [n] being the value of [l] on entry. *)
Fixpoint skip_lines (lines : list string) (n : nat) (line_index : nat)
  : M nat :=
  match n with
  | O => ret line_index
  | S n' =>
      _ <- fetch lines (line_index + 1) ;;
      skip_lines lines n' (line_index + 1)%nat
  end.

(** The truth value left in [off] by [match op]. *)
Definition test (op : ascii) (src val : Z) : bool :=
  if Ascii.eqb op "0" then (src =? val)%Z
  else if Ascii.eqb op "1" then negb (src =? val)%Z
  else if Ascii.eqb op "2" then (src >? val)%Z
  else if Ascii.eqb op "3" then (src <? val)%Z
  else true.

Definition op_test (lines : list string) (line_index : nat)
                   (line : string) : M nat :=
  t <- char_at line 1 ;;
  op <- char_at line 12 ;;
  bit <- char_at line 11 ;;
  off <- resolve line t ["8"] ;;
  l <- hex (str_slice line 9 11) ;;
  val <- hex (str_slice line 13 17) ;;
  let val := int32 val in
  src <- load 16 2 off ;;
  '(src, val) <- (if Ascii.eqb bit "1" then
                    src <- data_get off ;; ret (src, Z.land val 255)
                  else ret (src, val)) ;;
  if test op src val then ret line_index
  else skip_lines lines (Z.to_nat (int32 l)) line_index.

(* ----------------------------------------------------------------- *)
(** *** The interpreter loop *)

(** [match line[0]]: the handler of the line; the result is [line_index]
    as the handler leaves it.  A first character that is no opcode matches
    no case. *)
Definition exec_line (lines : list string) (line_index : nat)
                     (line : string) : M nat :=
  c <- char_at line 0 ;;
  if among c ["0"; "1"; "2"] then op_write line ;; ret line_index
  else if Ascii.eqb c "3" then op_incdec line ;; ret line_index
  else if Ascii.eqb c "4" then op_fill lines line_index line
  else if Ascii.eqb c "5" then op_copy lines line_index line
  else if Ascii.eqb c "6" then op_mega line ;; ret line_index
  else if Ascii.eqb c "7" then op_clamp line ;; ret line_index
  else if Ascii.eqb c "8" then op_search lines line_index line
  else if Ascii.eqb c "9" then op_pointer line ;; ret line_index
  else if Ascii.eqb c "A" then op_raw lines line_index line
  else if Ascii.eqb c "B" then op_rsearch lines line_index line
  else if Ascii.eqb c "C" then op_asearch lines line_index line
  else if Ascii.eqb c "D" then op_test lines line_index line
  else ret line_index.

(** [try: ... except (ValueError, IOError, IndexError): raise
    QuickCodesError("Invalid code!")] *)
Definition guarded {A} (c : M A) : M A :=
  fun st =>
    match c st with
    | (Raise (Exn _), st') => (Raise (QuickCodesError "Invalid code!"), st')
    | r => r
    end.

(** One round of [while line_index < len(self.lines)], the final
    [line_index += 1] included. *)
Definition step (lines : list string) (line_index : nat) : M nat :=
  line <- fetch lines line_index ;;
  line_index <- guarded (exec_line lines line_index line) ;;
  ret (line_index + 1)%nat.

Fixpoint run (fuel : nat) (lines : list string) (line_index : nat)
  : M unit :=
  match fuel with
  | O => timeout
  | S fuel' =>
      if (line_index <? length lines)%nat then
        line_index <- step lines line_index ;;
        run fuel' lines line_index
      else ret tt
  end.

(* ----------------------------------------------------------------- *)
(** *** [apply_code] and the file *)

Inductive event : Type :=
| Read
| Write (bs : list byte).

(** The outside of a run: what is stored under [filePath] ([None] when it
    cannot be opened) and the file operations performed so far. *)
Record world : Type := mkWorld {
  stored : option (list byte);
  log : list event
}.

(** [read_file]: [self.data.extend(...)], outside the [try]. *)
Definition read_file (self : t) (w : world) : res t * world :=
  match stored w with
  | Some bs =>
      (Ok (mkQC (filePath self) (codes self) (self_data self ++ bs)
                (lines self)),
       mkWorld (stored w) (log w ++ [Read]))
  | None => (Raise (Exn IOError), w)
  end.

(** [write_file]; the write itself is taken to succeed. *)
Definition write_file (self : t) (w : world) : world :=
  mkWorld (Some (self_data self)) (log w ++ [Write (self_data self)]).

Definition with_data (self : t) (d : list byte) : t :=
  mkQC (filePath self) (codes self) d (lines self).

(** [apply_code]: the outcome, the object and the outside afterwards. *)
Definition apply_code (self : t) (w : world) : res unit * t * world :=
  match read_file self w with
  | (Ok self, w) =>
      let st0 := mkState (self_data self) (int64 0) (uint64 0) (uint32 0) in
      match run (S (length (lines self))) (lines self) 0 st0 with
      | (Ok _, st) =>
          let self := with_data self (data st) in
          (Ok tt, self, write_file self w)
      | (Raise e, st) => (Raise e, with_data self (data st), w)
      | (Timeout, st) => (Timeout, with_data self (data st), w)
      end
  | (Raise e, w) => (Raise e, self, w)
  | (Timeout, w) => (Timeout, self, w)
  end.

Local Close Scope char_scope.

End QuickCodes.

(* ================================================================= *)
(** ** What the specification talks about *)

Module Spec.
Import Py Codec QuickCodes.

(** The pattern [pat] stands in [d] at offset [i]. *)
Definition occurs_at (d pat : list byte) (i : Z) : bool :=
  (0 <=? i) && (i + Py.len pat <=? Py.len d)
  && bytes_eqb (firstn (length pat) (skipn (Z.to_nat i) d)) pat.

(** The offsets [lo, lo + 1, ...], [n] of them. *)
Fixpoint upward (n : nat) (lo : Z) : list Z :=
  match n with
  | O => []
  | S n' => lo :: upward n' (lo + 1)
  end.

(** The offsets [hi, hi - 1, ...], [n] of them. *)
Fixpoint downward (n : nat) (hi : Z) : list Z :=
  match n with
  | O => []
  | S n' => hi :: downward n' (hi - 1)
  end.

(** The matches of [pat] in the first [size] bytes of [d], at the offsets
    [start .. size - len pat], in ascending order. *)
Definition occurrences_forward (d : list byte) (size start : Z)
                               (pat : list byte) : list Z :=
  filter (occurs_at d pat)
         (upward (Z.to_nat (size - Py.len pat + 1 - start)) start).

(** The matches of [pat] at the offsets [start .. 0], in descending
    order, among the offsets where the pattern fits below [size]. *)
Definition occurrences_backward (d : list byte) (size start : Z)
                                (pat : list byte) : list Z :=
  filter (fun i => (i + Py.len pat <=? size) && occurs_at d pat i)
         (downward (Z.to_nat (start + 1)) start).

(** The [i]-th element, counted from 1, or the not-found value. *)
Definition ith (i : Z) (l : list Z) : Z := nth (Z.to_nat (i - 1)) l (-1).

(** [data[i:i + L] == search[:L]]: what both searches test at the scan
    index [i]. *)
Definition window_matches (d search : list byte) (L i : Z) : bool :=
  bytes_eqb (Py.slice d i (i + L)) (Py.slice search 0 L).

(** The scan indexes of [range(start, size - L + 1)] where the window
    holds the pattern, in scan order. *)
Definition matches_forward (d : list byte) (size start : Z)
                           (search : list byte) (L : Z) : list Z :=
  filter (window_matches d search L)
         (upward (Z.to_nat (size - L + 1 - start)) start).

(** The scan indexes of [range(start, -1, -1)] where the window ends at
    or before [size] and holds the pattern, in scan order. *)
Definition matches_backward (d : list byte) (size start : Z)
                            (search : list byte) (L : Z) : list Z :=
  filter (fun i => (i + L <=? size) && window_matches d search L i)
         (downward (Z.to_nat (start + 1)) start).

(** The program [lines] with the line at index [i] replaced by [l]. *)
Definition with_line (lines : list string) (i : nat) (l : string)
  : list string :=
  firstn i lines ++ l :: skipn (S i) lines.

(** A round of the loop on a search instruction that has put [p] in the
    pointer, [line_index] being the last line it read: a pointer that is
    not negative stays and the next line is executed; a negative one is
    reset to 0 and every remaining line is skipped. *)
Definition search_outcome (lines : list string) (line_index : nat)
                          (d : list byte) (p e q : Z) : res nat * state :=
  if 0 <=? p then (Ok (line_index + 1)%nat, mkState d p e q)
  else (Ok (Nat.max line_index (length lines) + 1)%nat, mkState d 0 e q).

(** The instruction lines a token list stands for: consecutive pairs. *)
Fixpoint token_pairs (parts : list string) : list string :=
  match parts with
  | a :: b :: rest => (a ++ " " ++ b)%string :: token_pairs rest
  | _ => []
  end.

(** The lexical shape of an instruction line. *)
Definition well_shaped (line : string) : Prop :=
  exists a b : list ascii,
    line = string_of_list_ascii (a ++ " "%char :: b)
    /\ length a = 8%nat /\ length b = 8%nat
    /\ Forall (fun c => is_hex c = true) a
    /\ Forall (fun c => is_hex c = true) b.

(** The operands of an opcode-D line, [(src, val)], as they stand when
    [match op] is reached: the part of [op_test] that resolves the address
    and reads the buffer, on its own. *)
Definition operands (line : string) : M (Z * Z) :=
  (t <- char_at line 1 ;;
   bit <- char_at line 11 ;;
   off <- resolve line t ["8"%char] ;;
   val <- hex (str_slice line 13 17) ;;
   let val := int32 val in
   src <- load 16 2 off ;;
   if Ascii.eqb bit "1" then
     src <- data_get off ;; ret (src, Z.land val 255)
   else ret (src, val))%qc.

(** The subtypes of opcode 3 that go through a fixed-width integer:
    the number of bytes of the field, and whether the delta is
    subtracted. *)
Definition wide_subtype (t : ascii) : option (nat * bool) :=
  if among t ["1"; "9"]%char then Some (2%nat, false)
  else if among t ["2"; "A"]%char then Some (4%nat, false)
  else if among t ["3"; "B"]%char then Some (8%nat, false)
  else if among t ["5"; "D"]%char then Some (2%nat, true)
  else if among t ["6"; "E"]%char then Some (4%nat, true)
  else if among t ["7"; "F"]%char then Some (8%nat, true)
  else None.

(** The delta of opcode 3 for a field of [n] bytes: the 16-bit subtypes
    mask the value word. *)
Definition delta_of (n : nat) (val : Z) : Z :=
  if (n =? 2)%nat then Z.land val 65535 else val.

(** The characters [match line[0]] has a case for. *)
Definition opcodes : list ascii :=
  ["0"; "1"; "2"; "3"; "4"; "5"; "6"; "7"; "8"; "9"; "A"; "B"; "C"; "D"]%char.

(** The fields the handlers decode, as the bounds of [line[a:b]]. *)
Definition fields : list (nat * nat) :=
  [(2, 8); (9, 17); (0, 4); (1, 4); (4, 8); (2, 4); (0, 8); (9, 11);
   (13, 17)]%nat.

(** A program as the constructor leaves it: every line accepted by
    [validate_code]. *)
Definition valid_program (lines : list string) : Prop :=
  Forall (fun l => validate_code l = true) lines.

(** A line that is empty or has at least two characters: the test of the
    loop after a failed search reads it without raising. *)
Definition headed (l : string) : Prop :=
  match l with
  | String _ EmptyString => False
  | _ => True
  end.

(** The subtypes of opcode 7 that go through a fixed-width integer: the
    number of bytes of the field, and whether the literal is an upper
    bound ("no more than"). *)
Definition clamp_subtype (t : ascii) : option (nat * bool) :=
  if among t ["1"; "9"]%char then Some (2%nat, false)
  else if among t ["2"; "A"]%char then Some (4%nat, false)
  else if among t ["5"; "D"]%char then Some (2%nat, true)
  else if among t ["6"; "E"]%char then Some (4%nat, true)
  else None.

(** The registers and buffer a run starts from. *)
Definition initial (d : list byte) : state :=
  mkState d (int64 0) (uint64 0) (uint32 0).

(** [reaches lines i st j st']: from index [i] and state [st], executing
    instructions one after the other without error leads to index [j] and
    state [st']. *)
Inductive reaches (lines : list string) : nat -> state -> nat -> state -> Prop :=
| reaches_here : forall i st, reaches lines i st i st
| reaches_next : forall i st i' st' j st'',
    (i < length lines)%nat ->
    step lines i st = (Ok i', st') ->
    reaches lines i' st' j st'' ->
    reaches lines i st j st''.

(** A run on the program [codes] and the stored bytes [bs], from the
    constructor on. *)
Definition session (codes : string) (bs : list byte)
  : res unit * list byte * world :=
  match init "save" codes with
  | Ok self =>
      let '(r, self', w) := apply_code self (mkWorld (Some bs) []) in
      (r, self_data self', w)
  | Raise e => (Raise e, [], mkWorld (Some bs) [])
  | Timeout => (Timeout, [], mkWorld (Some bs) [])
  end.

(** Properties of computations used to reason about the loops. *)

(** [c] never runs out of fuel, and what it raises is a Python
    exception. *)
Definition live {A} (c : M A) : Prop :=
  forall st,
    match fst (c st) with
    | Ok _ | Raise (Exn _) => True
    | Raise (QuickCodesError _) | Timeout => False
    end.

(** [c] is [live], and the index it returns (read off its result by
    [proj]) is at least [i]. *)
Definition advances {A} (proj : A -> nat) (i : nat) (c : M A) : Prop :=
  forall st,
    match fst (c st) with
    | Ok a => (i <= proj a)%nat
    | Raise (Exn _) => True
    | Raise (QuickCodesError _) | Timeout => False
    end.

(** [c] only reads: it leaves the state as it found it. *)
Definition reads {A} (c : M A) : Prop :=
  forall st, snd (c st) = st.

(** Two lines the loop after a failed search cannot tell apart. *)
Definition same_head (l1 l2 : string) : Prop :=
  match l1, l2 with
  | EmptyString, EmptyString => True
  | String a (String b _), String a' (String b' _) => a = a' /\ b = b'
  | _, _ => l1 = l2
  end.

(** Two outcomes of the inner loop after a failed search that differ at
    most in the text of the line left in hand, and there only past its
    first two characters. *)
Definition same_outcome (r1 r2 : res (string * nat) * state) : Prop :=
  match r1, r2 with
  | (Ok (l1, j1), s1), (Ok (l2, j2), s2) =>
      same_head l1 l2 /\ j1 = j2 /\ s1 = s2
  | (Raise e1, s1), (Raise e2, s2) => e1 = e2 /\ s1 = s2
  | (Timeout, s1), (Timeout, s2) => s1 = s2
  | _, _ => False
  end.

End Spec.

(* ================================================================= *)
(** ** Facts about the Python primitives *)

Module PyFacts.
Import Py.

Section Sequences.
Context {A : Type}.
Implicit Types l v : list A.

Lemma clamp_range n i : 0 <= n -> 0 <= clamp n i <= n.
Proof. unfold clamp; destruct (i <? 0) eqn:E; lia. Qed.

Lemma len_nonneg l : 0 <= len l.
Proof. unfold len; lia. Qed.

(** In range, a slice is the window one expects. *)
Lemma slice_window l a n :
  0 <= a -> 0 <= n -> a + n <= len l ->
  slice l a (a + n) = firstn (Z.to_nat n) (skipn (Z.to_nat a) l).
Proof.
  intros Ha Hn Hl. unfold slice, clamp.
  destruct (a <? 0) eqn:E1; [lia|].
  destruct (a + n <? 0) eqn:E2; [lia|].
  rewrite !Z.min_l by lia. f_equal. lia.
Qed.

Lemma slice_prefix l n :
  0 <= n -> n <= len l -> slice l 0 n = firstn (Z.to_nat n) l.
Proof.
  intros. replace n with (0 + n) at 1 by lia.
  rewrite slice_window by lia. reflexivity.
Qed.

(** Slice assignment never raises; the new length is the old one, less
    the range replaced, plus what is put in. *)
Lemma set_slice_length l a b v :
  len (set_slice l a b v)
  = len l - (Z.max (clamp (len l) a) (clamp (len l) b) - clamp (len l) a)
    + len v.
Proof.
  unfold set_slice, len.
  pose proof (clamp_range (len l) a (len_nonneg l)) as Ha.
  pose proof (clamp_range (len l) b (len_nonneg l)) as Hb.
  unfold len in *.
  rewrite !length_app, length_firstn, length_skipn. lia.
Qed.

(** A write of [n] bytes over a range of [n] bytes inside the buffer
    keeps the length. *)
Lemma set_slice_in_range_length l a v :
  0 <= a -> a + len v <= len l ->
  len (set_slice l a (a + len v) v) = len l.
Proof.
  intros Ha Hl. rewrite set_slice_length.
  pose proof (len_nonneg v). unfold clamp.
  destruct (a <? 0) eqn:E1; [lia|].
  destruct (a + len v <? 0) eqn:E2; [lia|]. lia.
Qed.

(** Past the end, a slice assignment appends. *)
Lemma set_slice_past_end l a b v :
  len l <= a -> a <= b -> set_slice l a b v = l ++ v.
Proof.
  intros Ha Hb. unfold set_slice, clamp.
  pose proof (len_nonneg l).
  destruct (a <? 0) eqn:E1; [lia|].
  destruct (b <? 0) eqn:E2; [lia|].
  rewrite !Z.min_r, Z.max_id by lia.
  unfold len. rewrite Nat2Z.id, firstn_all, skipn_all. now rewrite app_nil_r.
Qed.

Lemma update_length l j x : length (update l j x) = length l.
Proof.
  revert j; induction l as [|h t IH]; intros [|j]; simpl; auto.
Qed.

Lemma index_bound l i j : index l i = Some j -> (j < length l)%nat.
Proof.
  unfold index, len. intros H.
  destruct (i <? 0); 
    match type of H with
    | (if ?c then _ else _) = _ => destruct c eqn:E; [|discriminate]
    end; inversion H; subst; lia.
Qed.
End Sequences.

End PyFacts.

(* ================================================================= *)
(** ** Termination of the loops *)

Module Termination.
Import Py Codec QuickCodes Spec.
Local Open Scope qc_scope.

Lemma live_ret {A} (a : A) : live (ret a).
Proof. intros st; exact I. Qed.

Lemma live_raise {A} e : live (@raise A e).
Proof. intros st; exact I. Qed.

Lemma live_lift {A} e (o : option A) : live (lift e o).
Proof. destruct o; [apply live_ret | apply live_raise]. Qed.

Lemma live_bind {A B} (c : M A) (k : A -> M B) :
  live c -> (forall a, live (k a)) -> live (bind c k).
Proof.
  intros Hc Hk st. unfold bind. specialize (Hc st).
  destruct (c st) as [[a|[x|m]|] st']; simpl in *;
    [apply Hk | exact I | contradiction | contradiction].
Qed.

Lemma advances_ret {A} (proj : A -> nat) i (a : A) :
  (i <= proj a)%nat -> advances proj i (ret a).
Proof. intros H st; exact H. Qed.

Lemma advances_bind {A B} (proj : B -> nat) i (c : M A) (k : A -> M B) :
  live c -> (forall a, advances proj i (k a)) -> advances proj i (bind c k).
Proof.
  intros Hc Hk st. unfold bind. specialize (Hc st).
  destruct (c st) as [[a|[x|m]|] st']; simpl in *;
    [apply Hk | exact I | contradiction | contradiction].
Qed.

Lemma advances_live {A} (proj : A -> nat) i (c : M A) :
  advances proj i c -> live c.
Proof.
  intros H st. specialize (H st).
  destruct (fst (c st)) as [a|[x|m]|]; auto.
Qed.

Lemma advances_weaken {A} (proj : A -> nat) i j (c : M A) :
  (i <= j)%nat -> advances proj j c -> advances proj i c.
Proof.
  intros Hij H st. specialize (H st).
  destruct (fst (c st)) as [a|[x|m]|]; auto. lia.
Qed.

Lemma live_get_data : live get_data.
Proof. intros st; exact I. Qed.
Lemma live_get_pointer : live get_pointer.
Proof. intros st; exact I. Qed.
Lemma live_get_end_pointer : live get_end_pointer.
Proof. intros st; exact I. Qed.
Lemma live_get_ptr : live get_ptr.
Proof. intros st; exact I. Qed.
Lemma live_put_data d : live (put_data d).
Proof. intros st; exact I. Qed.
Lemma live_set_pointer v : live (set_pointer v).
Proof. intros st; exact I. Qed.
Lemma live_set_end_pointer v : live (set_end_pointer v).
Proof. intros st; exact I. Qed.
Lemma live_set_ptr v : live (set_ptr v).
Proof. intros st; exact I. Qed.

Create HintDb live discriminated.
#[local] Hint Resolve live_ret live_raise live_lift live_get_data
  live_get_pointer live_get_end_pointer live_get_ptr live_put_data
  live_set_pointer live_set_end_pointer live_set_ptr : live.

(** One step through a computation built from [bind], conditionals and
    the primitives. *)
Ltac live_step :=
  match goal with
  | |- live (bind _ _) => apply live_bind; [|intros]
  | |- advances _ _ (bind _ _) => apply advances_bind; [|intros]
  | |- advances _ _ (ret _) => apply advances_ret; simpl; lia
  | |- live (match ?x with _ => _ end) => destruct x
  | |- advances _ _ (match ?x with _ => _ end) => destruct x
  | |- live _ => solve [auto with live]
  end.
Ltac live := repeat live_step.

Lemma live_data_get i : live (data_get i).
Proof. unfold data_get; live. Qed.
Lemma live_data_set i v : live (data_set i v).
Proof. unfold data_set; live. Qed.
Lemma live_data_slice a b : live (data_slice a b).
Proof. unfold data_slice; live. Qed.
Lemma live_data_set_slice a b v : live (data_set_slice a b v).
Proof. unfold data_set_slice; live. Qed.
Lemma live_char_at line i : live (char_at line i).
Proof. unfold char_at; live. Qed.
Lemma live_hex s : live (hex s).
Proof. unfold hex; live. Qed.
Lemma live_fetch lines i : live (fetch lines i).
Proof. unfold fetch; live. Qed.
#[local] Hint Resolve live_data_get live_data_set live_data_slice
  live_data_set_slice live_char_at live_hex live_fetch : live.

Lemma live_resolve line t rel : live (resolve line t rel).
Proof. unfold resolve; live. Qed.
Lemma live_load bits n w : live (load bits n w).
Proof. unfold load; live. Qed.
Lemma live_store n w v : live (store n w v).
Proof. unfold store; live. Qed.
#[local] Hint Resolve live_resolve live_load live_store : live.

Lemma live_op_write line : live (op_write line).
Proof. unfold op_write; live. Qed.
Lemma live_op_incdec line : live (op_incdec line).
Proof. unfold op_incdec; live. Qed.
Lemma live_op_mega line : live (op_mega line).
Proof. unfold op_mega; live. Qed.
Lemma live_op_clamp line : live (op_clamp line).
Proof. unfold op_clamp; live. Qed.
Lemma live_op_pointer line : live (op_pointer line).
Proof. unfold op_pointer; live. Qed.
#[local] Hint Resolve live_op_write live_op_incdec live_op_mega
  live_op_clamp live_op_pointer : live.

Lemma live_fill_loop t off incoff incval n :
  forall i val, live (fill_loop t off incoff incval n i val).
Proof.
  induction n as [|n IH]; intros i val; simpl; live.
Qed.
#[local] Hint Resolve live_fill_loop : live.

Lemma advances_op_fill lines i line :
  advances (fun j => j) i (op_fill lines i line).
Proof. unfold op_fill; live. Qed.

Lemma advances_op_copy lines i line :
  advances (fun j => j) i (op_copy lines i line).
Proof. unfold op_copy; live. Qed.

Lemma advances_words_loop lines limit n :
  forall i buf line li,
    advances (fun r => snd r) li (words_loop lines limit n i buf line li).
Proof.
  induction n as [|n IH]; intros i buf line li; simpl.
  - apply advances_ret; simpl; lia.
  - live. eapply advances_weaken; [|apply IH]. lia.
Qed.

Lemma advances_skip_lines lines n :
  forall li, advances (fun j => j) li (skip_lines lines n li).
Proof.
  induction n as [|n IH]; intros li; simpl; live.
  eapply advances_weaken; [|apply IH]. lia.
Qed.

Lemma live_skip_cond line : live (skip_cond line).
Proof. unfold skip_cond; destruct line; live. Qed.
#[local] Hint Resolve live_skip_cond : live.

(** The inner loop needs one unit of fuel per line left, and one more. *)
Lemma advances_skip_inner lines fuel :
  forall line li,
    (length lines - li < fuel)%nat ->
    advances (fun r => snd r) li (skip_inner fuel lines line li).
Proof.
  induction fuel as [|fuel IH]; intros line li Hf; [lia|].
  simpl. apply advances_bind; [auto with live|]. intros c.
  destruct c; [|apply advances_ret; simpl; lia].
  destruct (length lines <=? li)%nat eqn:E.
  - apply advances_ret; simpl; lia.
  - apply Nat.leb_gt in E.
    apply advances_bind; [auto with live|]. intros l'.
    eapply advances_weaken; [|apply IH]; lia.
Qed.

Lemma advances_bind_from {A B} (pa : A -> nat) (proj : B -> nat) i j
      (c : M A) (k : A -> M B) :
  advances pa j c ->
  (forall a, (j <= pa a)%nat -> advances proj i (k a)) ->
  advances proj i (bind c k).
Proof.
  intros Hc Hk st. unfold bind. specialize (Hc st).
  destruct (c st) as [[a|[x|m]|] st']; simpl in *;
    [now apply Hk | exact I | contradiction | contradiction].
Qed.

Lemma skip_outer_S fuel lines line li :
  skip_outer (S fuel) lines line li
  = if (li <? length lines)%nat then
      bind (skip_inner (S (length lines)) lines line (li + 1)%nat)
           (fun r => let '(l, j) := r in skip_outer fuel lines l j)
    else ret li.
Proof. reflexivity. Qed.

Lemma advances_skip_outer lines fuel :
  forall line li,
    (length lines - li < fuel)%nat ->
    advances (fun j => j) li (skip_outer fuel lines line li).
Proof.
  induction fuel as [|fuel IH]; intros line li Hf; [lia|].
  rewrite skip_outer_S. destruct (li <? length lines)%nat eqn:E.
  - apply Nat.ltb_lt in E.
    eapply advances_bind_from.
    + apply advances_skip_inner. lia.
    + intros [l' li'] Hle; simpl in Hle.
      eapply advances_weaken; [|apply IH]; lia.
  - apply advances_ret; lia.
Qed.

Lemma advances_not_found lines line li :
  advances (fun j => j) li (not_found lines line li).
Proof.
  unfold not_found. apply advances_bind; [auto with live|]. intros p.
  destruct (p <? 0).
  - eapply advances_bind_from.
    + apply advances_skip_outer. lia.
    + intros j Hj. live.
  - apply advances_ret; lia.
Qed.

Lemma advances_build_pattern lines line li length :
  advances (fun r => snd r) li (build_pattern lines line li length).
Proof.
  unfold build_pattern. apply advances_bind; [auto with live|]. intros v.
  apply advances_words_loop.
Qed.

Lemma advances_op_search lines i line :
  advances (fun j => j) i (op_search lines i line).
Proof.
  unfold op_search. do 3 (apply advances_bind; [auto with live|]; intros).
  eapply advances_bind_from; [apply advances_build_pattern|].
  intros [[find l'] li'] Hle; simpl in Hle.
  do 3 (apply advances_bind; [auto with live|]; intros).
  eapply advances_weaken; [|apply advances_not_found]. lia.
Qed.

Lemma advances_op_rsearch lines i line :
  advances (fun j => j) i (op_rsearch lines i line).
Proof.
  unfold op_rsearch. do 7 (apply advances_bind; [live|]; intros).
  eapply advances_bind_from; [apply advances_build_pattern|].
  intros [[find l'] li'] Hle; simpl in Hle.
  do 4 (apply advances_bind; [auto with live|]; intros).
  eapply advances_weaken; [|apply advances_not_found]. lia.
Qed.

Lemma advances_op_asearch lines i line :
  advances (fun j => j) i (op_asearch lines i line).
Proof.
  unfold op_asearch. do 7 (apply advances_bind; [auto with live|]; intros).
  apply advances_not_found.
Qed.

Lemma advances_op_raw lines i line :
  advances (fun j => j) i (op_raw lines i line).
Proof.
  unfold op_raw. do 3 (apply advances_bind; [auto with live|]; intros).
  eapply advances_bind_from; [apply advances_words_loop|].
  intros [[w l'] li'] Hle; simpl in Hle. live.
Qed.

Lemma live_operands line : live (operands line).
Proof. unfold operands; live. Qed.

Lemma advances_op_test lines i line :
  advances (fun j => j) i (op_test lines i line).
Proof.
  unfold op_test. do 8 (apply advances_bind; [live|]; intros).
  match goal with |- advances _ _ (let '(_, _) := ?a in _) => destruct a end.
  destruct (test _ _ _); [apply advances_ret; lia|].
  apply advances_skip_lines.
Qed.

(** Every handler hands back an index no smaller than the one it got. *)
Lemma advances_exec_line lines i line :
  advances (fun j => j) i (exec_line lines i line).
Proof.
  unfold exec_line. apply advances_bind; [auto with live|]. intros c.
  repeat match goal with
         | |- advances _ _ (if ?b then _ else _) => destruct b
         end;
    first [ apply advances_op_fill | apply advances_op_copy
          | apply advances_op_search | apply advances_op_raw
          | apply advances_op_rsearch | apply advances_op_asearch
          | apply advances_op_test | live ].
Qed.

(** Under the [try], a handler advances or raises the error of the
    class. *)
Lemma guarded_exec_line lines i line st :
  match fst (guarded (exec_line lines i line) st) with
  | Ok j => (i <= j)%nat
  | Raise e => e = QuickCodesError "Invalid code!"
  | Timeout => False
  end.
Proof.
  pose proof (advances_exec_line lines i line st) as H. unfold guarded.
  destruct (exec_line lines i line st) as [[a|[x|m]|] st']; simpl in *;
    auto; contradiction.
Qed.

(** One round of the loop moves on by at least one line, or raises the
    error of the class. *)
Lemma step_advances lines i st :
  (i < length lines)%nat ->
  match fst (step lines i st) with
  | Ok j => (i < j)%nat
  | Raise e => e = QuickCodesError "Invalid code!"
  | Timeout => False
  end.
Proof.
  intros Hi. unfold step, fetch, bind.
  destruct (nth_error lines i) as [line|] eqn:E;
    [|apply nth_error_None in E; lia].
  simpl. pose proof (guarded_exec_line lines i line st) as H.
  destruct (guarded (exec_line lines i line) st) as [[j|e|] st'];
    simpl in *; auto. lia.
Qed.

Lemma run_S fuel lines i :
  run (S fuel) lines i
  = if (i <? length lines)%nat
    then bind (step lines i) (fun j => run fuel lines j)
    else ret tt.
Proof. reflexivity. Qed.

(** The interpreter loop needs one unit of fuel per line left, and one
    more. *)
Lemma run_live lines fuel :
  forall i st, (length lines - i < fuel)%nat ->
               fst (run fuel lines i st) <> Timeout.
Proof.
  induction fuel as [|fuel IH]; intros i st Hf; [lia|].
  rewrite run_S. destruct (i <? length lines)%nat eqn:E; [|discriminate].
  apply Nat.ltb_lt in E. unfold bind.
  pose proof (step_advances lines i st E) as Hs.
  destruct (step lines i st) as [[j| |] st']; simpl in *;
    [|discriminate|contradiction].
  apply IH. lia.
Qed.

(** [apply_code] returns or raises: the model's fuel is never used up. *)
Theorem apply_code_terminates self w :
  fst (fst (apply_code self w)) <> Timeout.
Proof.
  unfold apply_code, read_file.
  destruct (stored w) as [bs|]; cbn [fst snd lines self_data]; [|discriminate].
  match goal with
  | |- context [run ?f ?l ?i ?s] =>
      assert (H : fst (run f l i s) <> Timeout) by (apply run_live; lia);
      destruct (run f l i s) as [[u|e|] st']
  end; simpl in *; congruence.
Qed.

End Termination.

(* ================================================================= *)
(** ** Persistence *)

Module Persistence.
Import Py Codec QuickCodes Spec Termination.

(** What the loop returns, in terms of the instructions executed. *)
Lemma run_sound lines fuel :
  forall i st r st',
    run fuel lines i st = (r, st') ->
    match r with
    | Ok _ => exists j, reaches lines i st j st' /\ (length lines <= j)%nat
    | Raise e =>
        exists j st1, reaches lines i st j st1 /\ (j < length lines)%nat
                      /\ step lines j st1 = (Raise e, st')
    | Timeout => True
    end.
Proof.
  induction fuel as [|fuel IH]; intros i st r st' H.
  - inversion H; subst; exact I.
  - rewrite run_S in H. destruct (i <? length lines)%nat eqn:E.
    + apply Nat.ltb_lt in E. unfold bind in H.
      destruct (step lines i st) as [[j|e|] s1] eqn:Es.
      * apply IH in H. destruct r as [u|e|]; auto.
        -- destruct H as (k & Hr & Hk). exists k. split; auto.
           eapply reaches_next; eauto.
        -- destruct H as (k & s2 & Hr & Hk & Hs). exists k, s2.
           repeat split; auto. eapply reaches_next; eauto.
      * inversion H; subst. exists i, st. repeat split; auto. constructor.
      * inversion H; subst; exact I.
    + apply Nat.ltb_ge in E. inversion H; subst. exists i. split; auto.
      constructor.
Qed.

(** A run that comes to an instruction that raises, raises. *)
Lemma run_raises lines i st j st1 :
  reaches lines i st j st1 ->
  forall e st' fuel,
    (j < length lines)%nat ->
    step lines j st1 = (Raise e, st') ->
    (length lines - i < fuel)%nat ->
    run fuel lines i st = (Raise e, st').
Proof.
  induction 1 as [i st | i st i' s' j s'' Hi Hs Hr IH];
    intros e st' fuel Hj He Hf.
  - destruct fuel as [|fuel]; [lia|]. rewrite run_S.
    apply Nat.ltb_lt in Hj. rewrite Hj. unfold bind. now rewrite He.
  - destruct fuel as [|fuel]; [lia|]. rewrite run_S.
    pose proof (step_advances lines i st Hi) as Ha. rewrite Hs in Ha.
    simpl in Ha. rewrite (proj2 (Nat.ltb_lt _ _) Hi). unfold bind.
    rewrite Hs. apply IH; auto. lia.
Qed.

(** A run that executes every instruction without error, returns. *)
Lemma run_returns lines i st j st' :
  reaches lines i st j st' ->
  forall fuel,
    (length lines <= j)%nat ->
    (length lines - i < fuel)%nat ->
    run fuel lines i st = (Ok tt, st').
Proof.
  induction 1 as [i st | i st i' s' j s'' Hi Hs Hr IH]; intros fuel Hj Hf.
  - destruct fuel as [|fuel]; [lia|]. rewrite run_S.
    apply Nat.ltb_ge in Hj. now rewrite Hj.
  - destruct fuel as [|fuel]; [lia|]. rewrite run_S.
    pose proof (step_advances lines i st Hi) as Ha. rewrite Hs in Ha.
    simpl in Ha. rewrite (proj2 (Nat.ltb_lt _ _) Hi). unfold bind.
    rewrite Hs. apply IH; auto. lia.
Qed.

(** C2. The stored file is written only by a run in which every
    instruction executed without error.  (1) Whatever the program and
    the stored bytes, [apply_code] ends in one of two ways: it returns,
    having executed the instructions one after the other to the end of
    the program, and then the final buffer has been written, once, after
    the read; or it raises, and then what is stored is what was stored
    and no write was logged, whatever the buffer in memory has become.
    (2) If the run comes to an instruction that raises, [apply_code]
    raises that error and writes nothing. *)
Theorem persist_only_after_complete_run (self : t) (w : world) :
  (match apply_code self w with
   | (Ok _, self', w') =>
       exists bs j st,
         stored w = Some bs
         /\ reaches (lines self) 0 (initial (self_data self ++ bs)) j st
         /\ (length (lines self) <= j)%nat
         /\ self_data self' = data st
         /\ stored w' = Some (data st)
         /\ log w' = log w ++ [Read; Write (data st)]
   | (Raise e, self', w') =>
       stored w' = stored w
       /\ (log w' = log w \/ log w' = log w ++ [Read])
       /\ ((stored w = None /\ e = Exn IOError)
           \/ exists bs j st st',
                stored w = Some bs
                /\ reaches (lines self) 0
                           (initial (self_data self ++ bs)) j st
                /\ (j < length (lines self))%nat
                /\ step (lines self) j st = (Raise e, st')
                /\ e = QuickCodesError "Invalid code!"
                /\ self_data self' = data st')
   | (Timeout, _, _) => False
   end)
  /\ (forall bs j st e st',
        stored w = Some bs ->
        reaches (lines self) 0 (initial (self_data self ++ bs)) j st ->
        (j < length (lines self))%nat ->
        step (lines self) j st = (Raise e, st') ->
        apply_code self w
        = (Raise e, with_data self (data st'),
           mkWorld (stored w) (log w ++ [Read]))).
Proof.
  split.
  - pose proof (apply_code_terminates self w) as Hlive.
    unfold apply_code, read_file in *.
    destruct (stored w) as [bs|] eqn:Hst; cbn [fst snd lines self_data] in *.
    + match goal with
      | |- context [run ?f ?l ?i ?s] =>
          pose proof (run_sound l f i s) as Hsound;
          destruct (run f l i s) as [[u|e|] st'] eqn:Hrun
      end.
      * specialize (Hsound _ _ eq_refl). destruct Hsound as (j & Hr & Hj).
        exists bs, j, st'. simpl. rewrite <- app_assoc. auto 10.
      * specialize (Hsound _ _ eq_refl).
        destruct Hsound as (j & s1 & Hr & Hj & Hs).
        simpl. repeat split; auto. right. exists bs, j, s1, st'.
        pose proof (step_advances (lines self) j s1 Hj) as Ha.
        rewrite Hs in Ha. simpl in Ha. auto 10.
      * simpl in Hlive. congruence.
    + simpl. auto.
  - intros bs j st e st' Hst Hr Hj Hs.
    unfold apply_code, read_file. rewrite Hst. cbn [fst snd lines self_data].
    erewrite run_raises; eauto; [|lia].
    unfold with_data; simpl. reflexivity.
Qed.

End Persistence.

(* ================================================================= *)
(** ** Runs on concrete programs *)

Module Scenarios.
Import Py Codec QuickCodes Spec.
Import Byte.
Local Open Scope string_scope.
Local Open Scope list_scope.

(** C6. On sixteen zero bytes, the program ["20000000 0000002A"] returns,
    and the buffer, which is also what is written back, is [2A 00 00 00]
    followed by twelve zero bytes. *)
Theorem write32_scenario :
  session "20000000 0000002A" (zeros 16)
  = (Ok tt,
     [x2a; x00; x00; x00] ++ zeros 12,
     mkWorld (Some ([x2a; x00; x00; x00] ++ zeros 12))
             [Read; Write ([x2a; x00; x00; x00] ++ zeros 12)]).
Proof. vm_compute. reflexivity. Qed.

(** C1, at an input where it fails.  A 32-bit write at offset [0x64] of a
    buffer of sixteen bytes raises nothing: the four bytes are appended
    and the longer buffer is written back.  The same happens with an
    address below zero, reached through the pointer: the write of one
    byte at [pointer - 1] inserts a byte before the last one. *)
Theorem out_of_range_write_is_silent :
  session "20000064 0000002A" (zeros 16)
  = (Ok tt,
     zeros 16 ++ [x2a; x00; x00; x00],
     mkWorld (Some (zeros 16 ++ [x2a; x00; x00; x00]))
             [Read; Write (zeros 16 ++ [x2a; x00; x00; x00])])
  /\ session "93000000 00000001 08000000 AA000000" [x01; x02]
     = (Ok tt,
        [x01; xaa; x02],
        mkWorld (Some [x01; xaa; x02]) [Read; Write [x01; xaa; x02]]).
Proof. split; vm_compute; reflexivity. Qed.

(** C3, at inputs where it fails.  Copying eight bytes from offset 2 of a
    buffer of six leaves a buffer of four; a multi-write of four bytes at
    offset [0x10] of a buffer of sixteen leaves a buffer of twenty.  Both
    runs return. *)
Theorem copy_and_raw_write_resize :
  (let '(r, d, _) := session "50000002 00000008 50000000 00000000"
                             [x01; x02; x03; x04; x05; x06] in
   r = Ok tt /\ d = [x03; x04; x05; x06])
  /\ (let '(r, d, _) := session "A0000010 00000004 AABBCCDD 00000000"
                                (zeros 16) in
      r = Ok tt /\ d = zeros 16 ++ [xaa; xbb; xcc; xdd]).
Proof. split; vm_compute; split; reflexivity. Qed.

(** C5, at the input the claim names.  Adding [01] to the byte [FF] with
    the 8-bit subtype raises the error of the class, and nothing is
    written back; the same addition with the 16-, 32- and 64-bit subtypes
    wraps around to zero. *)
Theorem increment8_overflow_raises :
  session "30000000 00000001" [xff]
  = (Raise (QuickCodesError "Invalid code!"), [xff],
     mkWorld (Some [xff]) [Read])
  /\ (let '(r, d, _) := session "31000000 00000001" [xff; xff] in
      r = Ok tt /\ d = [x00; x00])
  /\ (let '(r, d, _) := session "32000000 00000001" [xff; xff; xff; xff] in
      r = Ok tt /\ d = zeros 4)
  /\ (let '(r, d, _) := session "33000000 00000001"
                                [xff; xff; xff; xff; xff; xff; xff; xff] in
      r = Ok tt /\ d = zeros 8).
Proof. repeat split; vm_compute; reflexivity. Qed.

(** The 8-bit subtraction has the same gap: [00 - 01] raises. *)
Lemma decrement8_underflow_raises :
  session "34000000 00000001" [x00]
  = (Raise (QuickCodesError "Invalid code!"), [x00],
     mkWorld (Some [x00]) [Read]).
Proof. vm_compute. reflexivity. Qed.

End Scenarios.

(* ================================================================= *)
(** ** The constructor *)

Module Decoding.
Import Py Codec QuickCodes Spec.
Local Open Scope string_scope.
Local Open Scope list_scope.
Local Open Scope nat_scope.

(** Induction two tokens at a time. *)
Lemma pair_ind (P : list string -> Prop) :
  P [] -> (forall a, P [a]) ->
  (forall a b l, P l -> P (a :: b :: l)) ->
  forall l, P l.
Proof.
  intros H0 H1 H2.
  assert (H : forall l, P l /\ forall a, P (a :: l)).
  { induction l as [|x l [IH1 IH2]]; split; auto. }
  intros l. apply H.
Qed.

Lemma pair_up_even parts :
  Nat.even (length parts) = true -> pair_up parts = Some (token_pairs parts).
Proof.
  induction parts as [|a|a b l IH] using pair_ind; simpl; intros H;
    try discriminate; auto.
  rewrite IH by exact H. reflexivity.
Qed.

Lemma pair_up_odd parts :
  Nat.odd (length parts) = true -> pair_up parts = None.
Proof.
  unfold Nat.odd.
  induction parts as [|a|a b l IH] using pair_ind; simpl; intros H;
    try discriminate; auto.
  rewrite IH by exact H. reflexivity.
Qed.

Lemma token_pairs_length parts :
  length (token_pairs parts) = Nat.div2 (length parts).
Proof.
  induction parts as [|a|a b l IH] using pair_ind; simpl; auto.
Qed.

(** The [i]-th line is made of the tokens [2i] and [2i + 1]. *)
Lemma token_pairs_nth parts :
  forall i a b,
    nth_error parts (2 * i) = Some a ->
    nth_error parts (2 * i + 1) = Some b ->
    nth_error (token_pairs parts) i = Some (a ++ " " ++ b)%string.
Proof.
  induction parts as [|x|x y l IH] using pair_ind; intros i a b Ha Hb.
  - destruct i; discriminate.
  - destruct i as [|i]; simpl in *; [discriminate|].
    replace (i + S (i + 0)) with (S (2 * i)) in Ha by lia.
    simpl in Ha. destruct (i + (i + 0)); discriminate.
  - destruct i as [|i].
    + simpl in *. now inversion Ha; inversion Hb; subst.
    + replace (2 * S i) with (S (S (2 * i))) in Ha by lia.
      replace (2 * S i + 1) with (S (S (2 * i + 1))) in Hb by lia.
      simpl in Ha, Hb. simpl. now apply IH.
Qed.

(** [validate_code] accepts exactly the lines of the lexical shape. *)
Lemma validate_code_shape line :
  validate_code line = true <-> well_shaped line.
Proof.
  unfold validate_code, well_shaped. split.
  - intros H. apply andb_prop in H as [H Hb]. apply andb_prop in H as [H Hs].
    apply andb_prop in H as [Hl Ha]. apply Nat.eqb_eq in Hl.
    destruct (nth_error (list_ascii_of_string line) 8) as [c|] eqn:E;
      [|discriminate].
    apply Ascii.eqb_eq in Hs; subst c.
    apply nth_error_split in E as (l1 & l2 & El & Hl1).
    rewrite El in *. rewrite length_app in Hl; simpl in Hl.
    rewrite firstn_app, Hl1, Nat.sub_diag, firstn_O, app_nil_r in Ha.
    rewrite <- Hl1, firstn_all in Ha.
    replace 9 with (1 + length l1) in Hb by lia.
    rewrite <- skipn_skipn, skipn_app, Nat.sub_diag, skipn_all in Hb.
    simpl in Hb.
    exists l1, l2. repeat split; try lia.
    + rewrite <- El. symmetry. apply string_of_list_ascii_of_string.
    + apply Forall_forall. now apply forallb_forall.
    + apply Forall_forall. now apply forallb_forall.
  - intros (a & b & El & Ha & Hb & Fa & Fb). subst line.
    rewrite list_ascii_of_string_of_list_ascii.
    set (cs := a ++ " "%char :: b).
    assert (H1 : firstn 8 cs = a).
    { unfold cs. rewrite <- Ha.
      now rewrite firstn_app, Nat.sub_diag, firstn_all, firstn_O, app_nil_r. }
    assert (H2 : nth_error cs 8 = Some " "%char).
    { unfold cs. rewrite nth_error_app2 by lia. now rewrite Ha. }
    assert (H3 : skipn 9 cs = b).
    { unfold cs. replace 9 with (1 + length a) by lia.
      now rewrite <- skipn_skipn, skipn_app, Nat.sub_diag, skipn_all. }
    assert (H4 : length cs = 17).
    { unfold cs. rewrite length_app; simpl. lia. }
    rewrite H1, H2, H3, H4, Ascii.eqb_refl.
    rewrite (proj2 (forallb_forall _ a)) by (now apply Forall_forall).
    rewrite (proj2 (forallb_forall _ b)) by (now apply Forall_forall).
    reflexivity.
Qed.

Lemma first_invalid_none ls :
  first_invalid ls = None <-> Forall well_shaped ls.
Proof.
  unfold first_invalid. split.
  - intros H. apply Forall_forall. intros l Hl.
    apply validate_code_shape.
    pose proof (find_none _ _ H l Hl) as Hn. simpl in Hn.
    now destruct (validate_code l).
  - intros H. destruct (find _ ls) as [l|] eqn:E; auto.
    apply find_some in E as [Hin Hv].
    rewrite Forall_forall in H. apply H, validate_code_shape in Hin.
    rewrite Hin in Hv. discriminate.
Qed.

Lemma first_invalid_some ls l :
  first_invalid ls = Some l -> In l ls /\ ~ well_shaped l.
Proof.
  unfold first_invalid. intros H. apply find_some in H as [Hin Hv].
  split; auto. intros Hw. apply validate_code_shape in Hw.
  rewrite Hw in Hv. discriminate.
Qed.

(** X1. Every line of a constructed object has the lexical shape. *)
Lemma init_lines_well_shaped filePath codes self :
  init filePath codes = Ok self -> Forall well_shaped (lines self).
Proof.
  unfold init. destruct (pair_up (Py.split codes)) as [ls|]; [|discriminate].
  destruct (first_invalid ls) eqn:E; [discriminate|].
  intros H. inversion H; subst. simpl. now apply first_invalid_none.
Qed.

(** C7. Let the tokens be the whitespace-separated pieces of the code
    string.  With an odd number of tokens the constructor raises the error
    of the class.  With an even number, if one of the lines formed from
    consecutive token pairs has not the shape "eight hexadecimal digits,
    space, eight hexadecimal digits", it raises the error of the class,
    naming such a line.  Otherwise it returns an object whose buffer is
    still empty and whose lines are the token pairs, in order: as many
    lines as half the number of tokens, line [i] being token [2i], a
    space, token [2i + 1]. *)
Theorem init_decodes (filePath codes : string) :
  let parts := Py.split codes in
  (Nat.odd (length parts) = true ->
   init filePath codes = Raise (QuickCodesError "Invalid code!"))
  /\ (Nat.even (length parts) = true ->
      (exists l, In l (token_pairs parts) /\ ~ well_shaped l) ->
      exists l, In l (token_pairs parts) /\ ~ well_shaped l
                /\ init filePath codes
                   = Raise (QuickCodesError ("Invalid code: " ++ l ++ "!")))
  /\ (Nat.even (length parts) = true ->
      Forall well_shaped (token_pairs parts) ->
      init filePath codes = Ok (mkQC filePath codes [] (token_pairs parts))
      /\ length (token_pairs parts) = Nat.div2 (length parts)
      /\ forall i a b,
           nth_error parts (2 * i) = Some a ->
           nth_error parts (2 * i + 1) = Some b ->
           nth_error (token_pairs parts) i = Some (a ++ " " ++ b)%string).
Proof.
  intros parts. unfold init. fold parts. repeat split.
  - intros Hodd. now rewrite pair_up_odd.
  - intros Heven (l & Hin & Hbad). rewrite pair_up_even by exact Heven.
    destruct (first_invalid (token_pairs parts)) as [l'|] eqn:E.
    + apply first_invalid_some in E as [Hin' Hbad']. exists l'. auto.
    + apply first_invalid_none in E. rewrite Forall_forall in E.
      exfalso. apply Hbad, E, Hin.
  - rewrite pair_up_even by assumption.
    now rewrite (proj2 (first_invalid_none _)).
  - apply token_pairs_length.
  - apply token_pairs_nth.
Qed.

End Decoding.

(* ================================================================= *)
(** ** Stepping through a handler *)

Module Stepping.
Import Py Codec QuickCodes Spec Termination.
Local Open Scope qc_scope.

Lemma bind_ok {A B} (c : M A) (k : A -> M B) st a st' :
  c st = (Ok a, st') -> bind c k st = k a st'.
Proof. intros H. unfold bind. now rewrite H. Qed.

Lemma bind_raise {A B} (c : M A) (k : A -> M B) st e st' :
  c st = (Raise e, st') -> bind c k st = (Raise e, st').
Proof. intros H. unfold bind. now rewrite H. Qed.

Lemma char_at_ok line i c st :
  String.get i line = Some c -> char_at line i st = (Ok c, st).
Proof. intros H. unfold char_at. now rewrite H. Qed.

Lemma hex_ok s v st : of_hex s = Some v -> hex s st = (Ok v, st).
Proof. intros H. unfold hex. now rewrite H. Qed.

Lemma fetch_ok lines i line st :
  nth_error lines i = Some line -> fetch lines i st = (Ok line, st).
Proof. intros H. unfold fetch. now rewrite H. Qed.

Lemma fetch_none lines i st :
  nth_error lines i = None ->
  fetch lines i st = (Raise (Exn IndexError), st).
Proof. intros H. unfold fetch. now rewrite H. Qed.

(** Reading computations. *)
Lemma reads_ret {A} (a : A) : reads (ret a).
Proof. intros st; reflexivity. Qed.
Lemma reads_lift {A} e (o : option A) : reads (lift e o).
Proof. destruct o; intros st; reflexivity. Qed.
Lemma reads_bind {A B} (c : M A) (k : A -> M B) :
  reads c -> (forall a, reads (k a)) -> reads (bind c k).
Proof.
  intros Hc Hk st. unfold bind. specialize (Hc st).
  destruct (c st) as [[a|e|] st']; simpl in *; subst; auto. apply Hk.
Qed.
Lemma reads_get_data : reads get_data.
Proof. intros st; reflexivity. Qed.
Lemma reads_get_pointer : reads get_pointer.
Proof. intros st; reflexivity. Qed.

Create HintDb reads discriminated.
#[local] Hint Resolve reads_ret reads_lift reads_get_data
  reads_get_pointer : reads.

Ltac reads_step :=
  match goal with
  | |- reads (bind _ _) => apply reads_bind; [|intros]
  | |- reads (match ?x with _ => _ end) => destruct x
  | |- reads _ => solve [auto with reads]
  end.
Ltac reads := repeat reads_step.

Lemma reads_operands line : reads (operands line).
Proof.
  unfold operands, resolve, load, data_get, data_slice, char_at, hex.
  reads.
Qed.

(** The line of an opcode-D instruction is handled by [op_test]. *)
Lemma exec_line_D lines i line st :
  String.get 0 line = Some "D"%char ->
  exec_line lines i line st = op_test lines i line st.
Proof.
  intros H. unfold exec_line.
  rewrite (bind_ok _ _ _ _ _ (char_at_ok _ _ _ _ H)). reflexivity.
Qed.

(** Skipping [n] lines from index [li] fetches the lines [li + 1] to
    [li + n]: it needs them to exist. *)
Lemma skip_lines_ok lines n :
  forall li st,
    (li + n < length lines)%nat ->
    skip_lines lines n li st = (Ok (li + n)%nat, st).
Proof.
  induction n as [|n IH]; intros li st H; simpl.
  - now rewrite Nat.add_0_r.
  - destruct (nth_error lines (li + 1)) as [l|] eqn:E;
      [|apply nth_error_None in E; lia].
    rewrite (bind_ok _ _ _ _ _ (fetch_ok _ _ _ _ E)).
    rewrite IH by lia. f_equal. f_equal. lia.
Qed.

Lemma skip_lines_short lines n :
  forall li st,
    (length lines <= li + n)%nat ->
    (0 < n)%nat ->
    skip_lines lines n li st = (Raise (Exn IndexError), st).
Proof.
  induction n as [|n IH]; intros li st H Hn; [lia|]. simpl.
  destruct (nth_error lines (li + 1)) as [l|] eqn:E.
  - rewrite (bind_ok _ _ _ _ _ (fetch_ok _ _ _ _ E)).
    apply IH; [lia|].
    destruct n; [|lia].
    assert (li + 1 < length lines)%nat
      by (apply nth_error_Some; congruence). lia.
  - now rewrite (bind_raise _ _ _ _ _ (fetch_none _ _ _ E)).
Qed.

(** An operator digit that is none of [0], [1], [2], [3] leaves the test
    passed. *)
Lemma test_default op src val :
  among op ["0"; "1"; "2"; "3"]%char = false -> test op src val = true.
Proof.
  unfold among, test; simpl. intros H.
  repeat match goal with
         | H : _ || _ = false |- _ =>
             apply orb_false_elim in H;
             let E := fresh "E" in destruct H as [E H]; rewrite E
         end.
  reflexivity.
Qed.

(** [op_test] reads its operands as [operands] does, then compares. *)
Lemma op_test_operands lines i line st op l :
  String.get 12 line = Some op ->
  of_hex (str_slice line 9 11) = Some l ->
  op_test lines i line st
  = bind (operands line)
         (fun r => let '(src, val) := r in
                   if test op src val then ret i
                   else skip_lines lines (Z.to_nat (int32 l)) i) st.
Proof.
  intros Hop Hl.
  unfold op_test, operands, resolve, load, data_get, data_slice, hex, char_at.
  rewrite Hop, Hl. unfold bind, lift, ret, raise, get_pointer, get_data.
  repeat match goal with
         | |- context [match ?o with Some _ => _ | None => _ end] =>
             destruct o
         | |- context [if ?b then _ else _] => destruct b
         end; reflexivity.
Qed.

(** [op_test] once the fields are decoded and the operands read. *)
Lemma op_test_decoded lines i line st op l src val st' :
  String.get 12 line = Some op ->
  of_hex (str_slice line 9 11) = Some l ->
  operands line st = (Ok (src, val), st') ->
  op_test lines i line st
  = if test op src val then (Ok i, st)
    else skip_lines lines (Z.to_nat (int32 l)) i st.
Proof.
  intros Hop Hl Hv.
  assert (st' = st) by (pose proof (reads_operands line st) as R;
                        now rewrite Hv in R).
  subst st'. rewrite (op_test_operands _ _ _ _ _ _ Hop Hl).
  rewrite (bind_ok _ _ _ _ _ Hv).
  destruct (test op src val); reflexivity.
Qed.

Lemma step_unfold lines i line st :
  nth_error lines i = Some line ->
  step lines i st
  = bind (guarded (exec_line lines i line))
         (fun j => ret (j + 1)%nat) st.
Proof.
  intros H. unfold step. now rewrite (bind_ok _ _ _ _ _ (fetch_ok _ _ _ _ H)).
Qed.

End Stepping.

(* ================================================================= *)
(** ** Opcode D *)

Module Skipping.
Import Py Codec QuickCodes Spec Termination Stepping.
Local Open Scope nat_scope.

(** With the 16-bit width the operands can always be read: a slice never
    raises. *)
Lemma operands_wide line st t bit off v :
  String.get 1 line = Some t ->
  String.get 11 line = Some bit ->
  Ascii.eqb bit "1" = false ->
  of_hex (str_slice line 2 8) = Some off ->
  of_hex (str_slice line 13 17) = Some v ->
  let w := if among t ["8"%char] then int32 (int32 off + pointer st)
           else int32 off in
  operands line st
  = (Ok (uint16 (from_bytes little (Py.slice (data st) w (w + 2))), int32 v),
     st).
Proof.
  intros Ht Hbit Hb Hoff Hv w.
  unfold operands, resolve, load, data_slice, hex, char_at.
  rewrite Ht, Hbit, Hoff, Hv. unfold bind, lift, ret, get_pointer, get_data.
  fold w. now rewrite Hb.
Qed.

(** With the 8-bit width they can be read exactly when the address is an
    index of the buffer. *)
Lemma operands_byte line st t off v :
  String.get 1 line = Some t ->
  String.get 11 line = Some "1"%char ->
  of_hex (str_slice line 2 8) = Some off ->
  of_hex (str_slice line 13 17) = Some v ->
  let w := if among t ["8"%char] then int32 (int32 off + pointer st)
           else int32 off in
  operands line st
  = match Py.get (data st) w with
    | Some b => (Ok (b2z b, Z.land (int32 v) 255), st)
    | None => (Raise (Exn IndexError), st)
    end.
Proof.
  intros Ht Hbit Hoff Hv w.
  unfold operands, resolve, load, data_get, data_slice, hex, char_at.
  rewrite Ht, Hbit, Hoff, Hv. unfold bind, lift, ret, get_pointer, get_data.
  fold w. simpl. destruct (Py.get (data st) w); reflexivity.
Qed.

Lemma step_test lines i line st op l src val st' :
  nth_error lines i = Some line ->
  String.get 0 line = Some "D"%char ->
  String.get 12 line = Some op ->
  of_hex (str_slice line 9 11) = Some l ->
  operands line st = (Ok (src, val), st') ->
  step lines i st
  = bind (guarded (fun s => if test op src val then (Ok i, s)
                            else skip_lines lines (Z.to_nat (int32 l)) i s))
         (fun j => ret (j + 1)) st.
Proof.
  intros Hn H0 Hop Hl Hv. rewrite (step_unfold _ _ _ _ Hn).
  unfold bind, guarded. rewrite (exec_line_D _ _ _ _ H0).
  now rewrite (op_test_decoded _ _ _ _ _ _ _ _ _ Hop Hl Hv).
Qed.

(** C8, as the code has it.  Take an opcode-D line at index [i] whose
    operands can be read, [skip] being the count it declares.  If the
    comparison holds, the state is untouched and the next line executed is
    line [i + 1].  If it fails and the [skip] lines after the instruction
    exist, the state is untouched and execution resumes at line
    [i + 1 + skip].  If it fails and fewer than [skip] lines follow, the
    round raises the error of the class. *)
Theorem test_skips_declared_lines
        lines i line st op l src val st' :
  nth_error lines i = Some line ->
  String.get 0 line = Some "D"%char ->
  String.get 12 line = Some op ->
  of_hex (str_slice line 9 11) = Some l ->
  operands line st = (Ok (src, val), st') ->
  let skip := Z.to_nat (int32 l) in
  (test op src val = true -> step lines i st = (Ok (i + 1), st))
  /\ (test op src val = false -> i + skip < length lines ->
      step lines i st = (Ok (i + 1 + skip), st))
  /\ (test op src val = false -> length lines <= i + skip ->
      step lines i st = (Raise (QuickCodesError "Invalid code!"), st)).
Proof.
  intros Hn H0 Hop Hl Hv skip.
  rewrite (step_test _ _ _ _ _ _ _ _ _ Hn H0 Hop Hl Hv). fold skip.
  unfold bind, guarded. repeat split; intros Ht; rewrite Ht.
  - reflexivity.
  - intros Hlen. rewrite skip_lines_ok by exact Hlen.
    unfold ret. do 2 f_equal. lia.
  - intros Hlen.
    assert (i < length lines) by (apply nth_error_Some; congruence).
    rewrite skip_lines_short by lia. reflexivity.
Qed.

(** C8 as stated fails: the only line of this program is an opcode-D
    instruction that declares one line to skip; its comparison, "the two
    bytes at 0 equal 1", is false on a buffer of zeros; the round does not
    resume two lines further, it raises. *)
Lemma test_skip_past_end_raises :
  ~ (forall lines i line st op l src val st',
        nth_error lines i = Some line ->
        String.get 0 line = Some "D"%char ->
        String.get 12 line = Some op ->
        of_hex (str_slice line 9 11) = Some l ->
        operands line st = (Ok (src, val), st') ->
        test op src val = false ->
        step lines i st = (Ok (i + 1 + Z.to_nat (int32 l)), st)).
Proof.
  intros H.
  specialize (H ["D0000000 01000001"%string] 0 "D0000000 01000001"%string
                (initial [Byte.x00; Byte.x00]) "0"%char 1%Z 0%Z 1%Z
                (initial [Byte.x00; Byte.x00])
                eq_refl eq_refl eq_refl eq_refl eq_refl eq_refl).
  vm_compute in H. discriminate H.
Qed.

(** C10, as the code has it.  Take an opcode-D line at index [i] whose
    operator digit is none of [0], [1], [2], [3].  If its operands can be
    read, the round leaves the state untouched and the next line executed
    is line [i + 1], whatever the count it declares; if reading them
    raises, the round raises the error of the class. *)
Theorem unknown_operator_passes lines i line st op l :
  nth_error lines i = Some line ->
  String.get 0 line = Some "D"%char ->
  String.get 12 line = Some op ->
  among op ["0"; "1"; "2"; "3"]%char = false ->
  of_hex (str_slice line 9 11) = Some l ->
  (forall src val st',
      operands line st = (Ok (src, val), st') ->
      step lines i st = (Ok (i + 1), st))
  /\ (forall e st',
         operands line st = (Raise e, st') ->
         step lines i st = (Raise (QuickCodesError "Invalid code!"), st)).
Proof.
  intros Hn H0 Hop Hd Hl. split.
  - intros src val st' Hv.
    rewrite (step_test _ _ _ _ _ _ _ _ _ Hn H0 Hop Hl Hv).
    unfold bind, guarded. now rewrite test_default.
  - intros e st' Hv.
    assert (st' = st) by (pose proof (reads_operands line st) as R;
                          now rewrite Hv in R).
    subst st'.
    pose proof (live_operands line st) as Hlive. rewrite Hv in Hlive.
    destruct e as [x|m]; [|contradiction].
    rewrite (step_unfold _ _ _ _ Hn). unfold bind, guarded.
    rewrite (exec_line_D _ _ _ _ H0).
    rewrite (op_test_operands _ _ _ _ _ _ Hop Hl).
    now rewrite (bind_raise _ _ _ _ _ Hv).
Qed.

(** C10 as stated fails: this line tests one byte at offset 0 with the
    operator digit [4]; on an empty buffer the byte cannot be read and the
    round raises. *)
Lemma unknown_operator_may_raise :
  ~ (forall lines i line st op,
        nth_error lines i = Some line ->
        String.get 0 line = Some "D"%char ->
        String.get 12 line = Some op ->
        among op ["0"; "1"; "2"; "3"]%char = false ->
        step lines i st = (Ok (i + 1), st)).
Proof.
  intros H.
  specialize (H ["D0000000 00140000"%string] 0 "D0000000 00140000"%string
                (initial []) "4"%char eq_refl eq_refl eq_refl eq_refl).
  vm_compute in H. discriminate H.
Qed.

End Skipping.

(* ================================================================= *)
(** ** The two searches *)

Module Searching.
Import Py Codec QuickCodes Spec PyFacts.
Local Open Scope Z_scope.

Lemma bytes_eqb_eq a : forall b, bytes_eqb a b = true <-> a = b.
Proof.
  induction a as [|x a IH]; intros [|y b]; simpl; split; intros H;
    try discriminate; auto.
  - apply andb_prop in H as [Hx Ha].
    apply Byte.byte_dec_bl in Hx. apply IH in Ha. congruence.
  - inversion H; subst. rewrite (Byte.byte_dec_lb eq_refl).
    now apply IH.
Qed.

(** The window the loops compare, at an offset where the pattern fits. *)
Lemma window_occurs d search L j :
  0 <= j -> 0 <= L -> j + L <= Py.len d -> L <= Py.len search ->
  bytes_eqb (Py.slice d j (j + L)) (Py.slice search 0 L)
  = occurs_at d (firstn (Z.to_nat L) search) j.
Proof.
  intros Hj HL Hd Hs. unfold occurs_at.
  assert (Hlen : length (firstn (Z.to_nat L) search) = Z.to_nat L).
  { rewrite length_firstn. unfold Py.len in Hs. lia. }
  unfold Py.len at 1. rewrite Hlen.
  rewrite slice_window, slice_prefix by lia.
  replace (0 <=? j) with true by (symmetry; apply Z.leb_le; lia).
  replace (j + Z.of_nat (Z.to_nat L) <=? Py.len d) with true
    by (symmetry; apply Z.leb_le; lia).
  reflexivity.
Qed.

Lemma upward_bounds n : forall lo j,
  In j (upward n lo) -> lo <= j < lo + Z.of_nat n.
Proof.
  induction n as [|n IH]; intros lo j H; simpl in H; [contradiction|].
  destruct H as [H|H]; [lia|]. apply IH in H. lia.
Qed.

Lemma downward_bounds n : forall hi j,
  In j (downward n hi) -> hi - Z.of_nat n < j <= hi.
Proof.
  induction n as [|n IH]; intros hi j H; simpl in H; [contradiction|].
  destruct H as [H|H]; [lia|]. apply IH in H. lia.
Qed.

Lemma nth_later k count (x : Z) l :
  k < count ->
  nth (Z.to_nat (count - k)) (x :: l) (-1)
  = nth (Z.to_nat (count - (k + 1))) l (-1).
Proof.
  intros H. replace (Z.to_nat (count - k))
    with (S (Z.to_nat (count - (k + 1)))) by lia.
  reflexivity.
Qed.

(** The forward loop returns the match numbered [count], the next match
    having number [k]. *)
Lemma search_loop_nth d s L count n :
  forall i k,
    k <= count ->
    search_loop d s L count n i k
    = nth (Z.to_nat (count - k))
          (filter (fun j => bytes_eqb (Py.slice d j (j + L)) s) (upward n i))
          (-1).
Proof.
  induction n as [|n IH]; intros i k Hk; simpl.
  - now destruct (Z.to_nat (count - k)).
  - destruct (bytes_eqb (Py.slice d i (i + L)) s).
    + destruct (k =? count) eqn:E.
      * apply Z.eqb_eq in E. subst. now rewrite Z.sub_diag.
      * apply Z.eqb_neq in E. rewrite IH by lia.
        symmetry. apply nth_later. lia.
    + now apply IH.
Qed.

(** The same for the backward loop. *)
Lemma reverse_search_loop_nth d s size L count n :
  forall i k,
    k <= count ->
    reverse_search_loop d s size L count n i k
    = nth (Z.to_nat (count - k))
          (filter (fun j => (j + L <=? size)
                            && bytes_eqb (Py.slice d j (j + L)) s)
                  (downward n i))
          (-1).
Proof.
  induction n as [|n IH]; intros i k Hk; simpl.
  - now destruct (Z.to_nat (count - k)).
  - destruct ((i + L <=? size) && bytes_eqb (Py.slice d i (i + L)) s).
    + simpl. destruct (k =? count) eqn:E.
      * apply Z.eqb_eq in E. subst. now rewrite Z.sub_diag.
      * apply Z.eqb_neq in E. rewrite IH by lia.
        symmetry. apply nth_later. lia.
    + simpl. now apply IH.
Qed.

(** Whatever the arguments, [search_data] returns the match numbered
    [count] among the windows it compares, or [-1]. *)
Lemma search_data_nth d size start search L count :
  1 <= count ->
  search_data d size start search L count
  = nth (Z.to_nat (count - 1))
        (filter (fun j => bytes_eqb (Py.slice d j (j + L))
                                    (Py.slice search 0 L))
                (upward (Z.to_nat (size - L + 1 - start)) start))
        (-1).
Proof. intros H. unfold search_data. now apply search_loop_nth. Qed.

Lemma search_data_forward d size start search L count :
  1 <= count -> 0 <= start -> 0 <= L <= Py.len search -> size <= Py.len d ->
  search_data d size start search L count
  = ith count (occurrences_forward d size start (firstn (Z.to_nat L) search)).
Proof.
  intros Hc Hs HL Hd. rewrite search_data_nth by exact Hc.
  unfold ith, occurrences_forward. f_equal.
  assert (Hlen : Py.len (firstn (Z.to_nat L) search) = L).
  { unfold Py.len in *. rewrite length_firstn. lia. }
  rewrite Hlen. apply filter_ext_in. intros j Hj.
  apply upward_bounds in Hj. apply window_occurs; lia.
Qed.

Lemma reverse_search_data_backward d size start search L count :
  1 <= count -> 0 <= L <= Py.len search -> size <= Py.len d ->
  reverse_search_data d size start search L count
  = ith count (occurrences_backward d size start (firstn (Z.to_nat L) search)).
Proof.
  intros Hc HL Hd. unfold reverse_search_data.
  rewrite reverse_search_loop_nth by exact Hc.
  unfold ith, occurrences_backward. f_equal.
  assert (Hlen : Py.len (firstn (Z.to_nat L) search) = L).
  { unfold Py.len in *. rewrite length_firstn. lia. }
  rewrite Hlen. apply filter_ext_in. intros j Hj.
  apply downward_bounds in Hj.
  destruct (j + L <=? size) eqn:E; [|reflexivity]. apply Z.leb_le in E.
  simpl. apply window_occurs; lia.
Qed.

(** [ith], spelled out. *)
Lemma ith_found i l :
  1 <= i <= Py.len l -> nth_error l (Z.to_nat (i - 1)) = Some (ith i l).
Proof.
  intros H. unfold ith. apply nth_error_nth'. unfold Py.len in H. lia.
Qed.

Lemma ith_missing i l : Py.len l < i -> ith i l = -1.
Proof.
  intros H. unfold ith. apply nth_overflow. unfold Py.len in H. lia.
Qed.

Lemma filter_all {A} (f : A -> bool) l :
  (forall x, In x l -> f x = true) -> filter f l = l.
Proof.
  induction l as [|x l IH]; intros H; simpl; [reflexivity|].
  rewrite (H x (or_introl eq_refl)). f_equal. apply IH.
  intros y Hy. apply H. now right.
Qed.

Lemma filter_none {A} (f : A -> bool) l :
  (forall x, In x l -> f x = false) -> filter f l = [].
Proof.
  induction l as [|x l IH]; intros H; simpl; [reflexivity|].
  rewrite (H x (or_introl eq_refl)). apply IH.
  intros y Hy. apply H. now right.
Qed.

Lemma upward_length n : forall lo, length (upward n lo) = n.
Proof. induction n; intros; simpl; auto. Qed.

Lemma downward_length n : forall hi, length (downward n hi) = n.
Proof. induction n; intros; simpl; auto. Qed.

Lemma nth_upward n : forall lo k,
  (k < n)%nat -> nth k (upward n lo) (-1) = lo + Z.of_nat k.
Proof.
  induction n as [|n IH]; intros lo k Hk; [lia|].
  destruct k as [|k]; simpl; [lia|]. rewrite IH by lia. lia.
Qed.

Lemma nth_downward n : forall hi k,
  (k < n)%nat -> nth k (downward n hi) (-1) = hi - Z.of_nat k.
Proof.
  induction n as [|n IH]; intros hi k Hk; [lia|].
  destruct k as [|k]; simpl; [lia|]. rewrite IH by lia. lia.
Qed.

Lemma ith_nil count : ith count [] = -1.
Proof. unfold ith. now destruct (Z.to_nat (count - 1)). Qed.

Lemma ith_upward count n lo :
  1 <= count ->
  ith count (upward n lo)
  = if count <=? Z.of_nat n then lo + count - 1 else -1.
Proof.
  intros Hc. unfold ith. destruct (count <=? Z.of_nat n) eqn:E.
  - apply Z.leb_le in E. rewrite nth_upward by lia. lia.
  - apply Z.leb_gt in E. apply nth_overflow. rewrite upward_length. lia.
Qed.

Lemma ith_downward count n hi :
  1 <= count ->
  ith count (downward n hi)
  = if count <=? Z.of_nat n then hi - count + 1 else -1.
Proof.
  intros Hc. unfold ith. destruct (count <=? Z.of_nat n) eqn:E.
  - apply Z.leb_le in E. rewrite nth_downward by lia. lia.
  - apply Z.leb_gt in E. apply nth_overflow. rewrite downward_length. lia.
Qed.

(** The empty pattern stands at every offset up to the length of the
    buffer. *)
Lemma occurs_at_nil d i :
  0 <= i <= Py.len d -> occurs_at d [] i = true.
Proof.
  intros H. unfold occurs_at. cbn [length firstn bytes_eqb].
  change (Py.len (@nil byte)) with 0. rewrite Z.add_0_r.
  rewrite andb_true_r. apply andb_true_intro. split; apply Z.leb_le; lia.
Qed.

Lemma occurrences_forward_nil d size start :
  0 <= start -> size <= Py.len d ->
  occurrences_forward d size start []
  = upward (Z.to_nat (size + 1 - start)) start.
Proof.
  intros Hs Hd. unfold occurrences_forward.
  change (Py.len (@nil byte)) with 0. rewrite Z.sub_0_r.
  apply filter_all. intros j Hj. apply upward_bounds in Hj.
  apply occurs_at_nil. lia.
Qed.

Lemma occurrences_backward_nil d size start :
  start <= size -> size <= Py.len d ->
  occurrences_backward d size start []
  = downward (Z.to_nat (start + 1)) start.
Proof.
  intros Hs Hd. unfold occurrences_backward.
  apply filter_all. intros j Hj. apply downward_bounds in Hj.
  change (Py.len (@nil byte)) with 0. rewrite Z.add_0_r.
  apply andb_true_intro. split; [apply Z.leb_le; lia|].
  apply occurs_at_nil. lia.
Qed.

(** A pattern that is not empty stands nowhere in an empty buffer. *)
Lemma occurs_at_nowhere pat i :
  pat <> [] -> occurs_at [] pat i = false.
Proof.
  intros Hp. unfold occurs_at. change (Py.len (@nil byte)) with 0.
  destruct (0 <=? i) eqn:E1; [|reflexivity]. apply Z.leb_le in E1.
  destruct (i + Py.len pat <=? 0) eqn:E2; [|reflexivity].
  apply Z.leb_le in E2. exfalso. apply Hp.
  destruct pat; [reflexivity|]. unfold Py.len in E2. simpl length in E2. lia.
Qed.

(** The matches of the scan, whatever the arguments. *)
Lemma search_data_matches d size start search L count :
  1 <= count ->
  search_data d size start search L count
  = ith count (matches_forward d size start search L).
Proof. intros H. now rewrite search_data_nth by exact H. Qed.

Lemma reverse_search_data_matches d size start search L count :
  1 <= count ->
  reverse_search_data d size start search L count
  = ith count (matches_backward d size start search L).
Proof.
  intros H. unfold reverse_search_data.
  now rewrite reverse_search_loop_nth by exact H.
Qed.

(** Where the scan starts at an offset that is not negative and the
    pattern has its [L] bytes, the matches of the scan are the offsets
    where the pattern stands. *)
Lemma matches_forward_occurrences d size start search L :
  0 <= start -> 0 <= L <= Py.len search -> size <= Py.len d ->
  matches_forward d size start search L
  = occurrences_forward d size start (firstn (Z.to_nat L) search).
Proof.
  intros Hs HL Hd. unfold matches_forward, occurrences_forward.
  assert (Hlen : Py.len (firstn (Z.to_nat L) search) = L).
  { unfold Py.len in *. rewrite length_firstn. lia. }
  rewrite Hlen. apply filter_ext_in. intros j Hj.
  apply upward_bounds in Hj. apply window_occurs; lia.
Qed.

Lemma matches_backward_occurrences d size start search L :
  0 <= L <= Py.len search -> size <= Py.len d ->
  matches_backward d size start search L
  = occurrences_backward d size start (firstn (Z.to_nat L) search).
Proof.
  intros HL Hd. unfold matches_backward, occurrences_backward.
  assert (Hlen : Py.len (firstn (Z.to_nat L) search) = L).
  { unfold Py.len in *. rewrite length_firstn. lia. }
  rewrite Hlen. apply filter_ext_in. intros j Hj.
  apply downward_bounds in Hj.
  destruct (j + L <=? size) eqn:E; [|reflexivity]. apply Z.leb_le in E.
  simpl. apply window_occurs; lia.
Qed.

(** C4, as the code has it.  Take a buffer [d] of which the first [size]
    bytes are searched, a pattern made of the first [L] bytes of
    [search], and an occurrence number [count >= 1].  List the offsets
    where the pattern stands, in scan order: ascending from [start] to
    [size - L] for [search_data], descending from [start] to 0, among
    the offsets where the pattern fits below [size], for
    [reverse_search_data].
    - With [start >= 0], [search_data] returns element number [count] of
      its list, and [-1] when the list is shorter;
      [reverse_search_data] does the same with its list, for every
      [start].
    - The empty pattern ([L = 0]) stands at every offset of the scan, so
      what comes back is an ordinary offset and not a sentinel:
      [start + count - 1] as long as that is at most [size] for the
      forward search, [start - count + 1] as long as that is at least 0
      for the backward search started at or below [size]; [-1]
      otherwise.
    - In an empty buffer a pattern that is not empty is never found:
      both return [-1].
    - With [start < 0] the backward search returns [-1]; the forward
      search returns element number [count] of the scan indexes [i] of
      [range(start, size - L + 1)] whose window [data[i:i + L]] holds
      the pattern, and Python takes that window from the end of the
      buffer when [i] is negative: the result can be a negative number
      other than [-1]. *)
Theorem search_returns_ith_occurrence d size start search L count :
  1 <= count -> 0 <= L <= Py.len search -> size <= Py.len d ->
  let pat := firstn (Z.to_nat L) search in
  let fwd := occurrences_forward d size start pat in
  let bwd := occurrences_backward d size start pat in
  (0 <= start ->
   (count <= Py.len fwd ->
    nth_error fwd (Z.to_nat (count - 1))
    = Some (search_data d size start search L count))
   /\ (Py.len fwd < count -> search_data d size start search L count = -1))
  /\ (count <= Py.len bwd ->
      nth_error bwd (Z.to_nat (count - 1))
      = Some (reverse_search_data d size start search L count))
  /\ (Py.len bwd < count ->
      reverse_search_data d size start search L count = -1)
  /\ (L = 0 -> 0 <= start ->
      search_data d size start search L count
      = if start + count - 1 <=? size then start + count - 1 else -1)
  /\ (L = 0 -> 0 <= start <= size ->
      reverse_search_data d size start search L count
      = if count <=? start + 1 then start - count + 1 else -1)
  /\ (d = [] -> 0 < L ->
      (0 <= start -> search_data d size start search L count = -1)
      /\ reverse_search_data d size start search L count = -1)
  /\ (start < 0 ->
      search_data d size start search L count
      = ith count (matches_forward d size start search L)
      /\ reverse_search_data d size start search L count = -1).
Proof.
  intros Hc HL Hd pat fwd bwd.
  assert (Hb : reverse_search_data d size start search L count
               = ith count bwd)
    by (now apply reverse_search_data_backward).
  assert (Hf : 0 <= start ->
               search_data d size start search L count = ith count fwd)
    by (intros Hs; now apply search_data_forward).
  assert (Hp : 0 < L -> pat <> []).
  { intros H0. unfold pat. destruct search as [|b s];
      [unfold Py.len in HL; simpl in HL; lia|].
    destruct (Z.to_nat L) as [|n] eqn:E; [lia|]. discriminate. }
  split; [|split; [|split; [|split; [|split; [|split]]]]].
  - intros Hs. rewrite (Hf Hs). split; intros H.
    + apply ith_found. lia.
    + now apply ith_missing.
  - intros H. rewrite Hb. apply ith_found. lia.
  - intros H. rewrite Hb. now apply ith_missing.
  - intros H0 Hs. rewrite (Hf Hs). unfold fwd, pat. rewrite H0.
    cbn [Z.to_nat firstn].
    rewrite occurrences_forward_nil by assumption.
    rewrite ith_upward by exact Hc.
    destruct (start + count - 1 <=? size) eqn:E.
    + apply Z.leb_le in E.
      replace (count <=? _) with true by (symmetry; apply Z.leb_le; lia).
      reflexivity.
    + apply Z.leb_gt in E.
      replace (count <=? _) with false by (symmetry; apply Z.leb_gt; lia).
      reflexivity.
  - intros H0 Hs. rewrite Hb. unfold bwd, pat. rewrite H0.
    cbn [Z.to_nat firstn].
    rewrite occurrences_backward_nil by (try assumption; lia).
    rewrite ith_downward by exact Hc.
    replace (Z.of_nat (Z.to_nat (start + 1))) with (start + 1) by lia.
    reflexivity.
  - intros Hd0 H0. split.
    + intros Hs. rewrite (Hf Hs). unfold fwd, occurrences_forward.
      subst d. rewrite filter_none; [apply ith_nil|].
      intros j _. apply occurs_at_nowhere. now apply Hp.
    + rewrite Hb. unfold bwd, occurrences_backward. subst d.
      rewrite filter_none; [apply ith_nil|].
      intros j _. rewrite occurs_at_nowhere by (now apply Hp).
      apply andb_false_r.
  - intros Hs. split.
    + now apply search_data_matches.
    + rewrite Hb. unfold bwd, occurrences_backward.
      replace (Z.to_nat (start + 1)) with 0%nat by lia.
      apply ith_nil.
Qed.

(** C4 as stated fails.  Its last clause: with [L = 0] in an empty buffer
    both searches return the offset 0, which is neither the not-found
    value nor any other sentinel, since 0 is also what a match at the
    first byte gives.  Its first clause, "for every start offset": the
    byte [0B] stands once in [0A 0B 0C], at offset 1, and the forward
    search started at [-2] returns [-2]. *)
Lemma empty_pattern_is_found :
  ~ (forall d size start search L count,
        1 <= count -> L = 0 \/ d = [] ->
        search_data d size start search L count = -1
        /\ reverse_search_data d size start search L count = -1)
  /\ search_data [] 0 0 [] 0 1 = 0
  /\ reverse_search_data [] 0 0 [] 0 1 = 0
  /\ occurrences_forward [Byte.x0a; Byte.x0b; Byte.x0c] 3 0 [Byte.x0b] = [1]
  /\ search_data [Byte.x0a; Byte.x0b; Byte.x0c] 3 (-2) [Byte.x0b] 1 1 = -2.
Proof.
  split; [|repeat split; reflexivity].
  intros H.
  destruct (H [] 0 0 [] 0 1 ltac:(lia) (or_introl eq_refl)) as [H1 _].
  vm_compute in H1. discriminate H1.
Qed.

(** What comes back is [-1] or an offset of the scan where the pattern
    stands. *)
Lemma search_data_result d size start search L count :
  1 <= count -> 0 <= start -> 0 <= L <= Py.len search -> size <= Py.len d ->
  let r := search_data d size start search L count in
  r = -1 \/ (start <= r <= size - L
             /\ occurs_at d (firstn (Z.to_nat L) search) r = true).
Proof.
  intros Hc Hs HL Hd r. unfold r.
  rewrite search_data_forward by assumption.
  set (occ := occurrences_forward _ _ _ _).
  destruct (Z_lt_le_dec (Py.len occ) count) as [Hlt|Hge].
  - left. now apply ith_missing.
  - right. assert (Hin : In (ith count occ) occ).
    { eapply nth_error_In. apply ith_found. lia. }
    remember (ith count occ) as r0 eqn:Er. clear Er.
    unfold occ, occurrences_forward in Hin. apply filter_In in Hin as [Hu Ho].
    apply upward_bounds in Hu. split; [|exact Ho].
    assert (Py.len (firstn (Z.to_nat L) search) = L).
    { unfold Py.len in *. rewrite length_firstn. lia. }
    lia.
Qed.

Lemma reverse_search_data_result d size start search L count :
  1 <= count -> 0 <= L <= Py.len search -> size <= Py.len d ->
  let r := reverse_search_data d size start search L count in
  r = -1 \/ (0 <= r <= start /\ r + L <= size
             /\ occurs_at d (firstn (Z.to_nat L) search) r = true).
Proof.
  intros Hc HL Hd r. unfold r.
  rewrite reverse_search_data_backward by assumption.
  set (occ := occurrences_backward _ _ _ _).
  destruct (Z_lt_le_dec (Py.len occ) count) as [Hlt|Hge].
  - left. now apply ith_missing.
  - right. assert (Hin : In (ith count occ) occ).
    { eapply nth_error_In. apply ith_found. lia. }
    remember (ith count occ) as r0 eqn:Er. clear Er.
    unfold occ, occurrences_backward in Hin.
    apply filter_In in Hin as [Hu Ho]. apply downward_bounds in Hu.
    apply andb_prop in Ho as [Hf Ho]. apply Z.leb_le in Hf.
    assert (Py.len (firstn (Z.to_nat L) search) = L).
    { unfold Py.len in *. rewrite length_firstn. lia. }
    repeat split; try lia. exact Ho.
Qed.

(** An occurrence number below 1 is never reached: nothing is found. *)
Lemma search_data_count_below_one d size start search L count :
  count < 1 -> search_data d size start search L count = -1.
Proof.
  intros Hc. unfold search_data.
  generalize (Z.to_nat (size - L + 1 - start)) as n.
  assert (H : forall n i k, 1 <= k ->
            search_loop d (Py.slice search 0 L) L count n i k = -1).
  { induction n as [|n IH]; intros i k Hk; simpl; auto.
    destruct (bytes_eqb _ _); [|now apply IH].
    destruct (k =? count) eqn:E; [apply Z.eqb_eq in E; lia|].
    apply IH. lia. }
  intros n. now apply H.
Qed.

End Searching.

(* ================================================================= *)
(** ** The count field of the searches *)

Module CountField.
Import Py Codec QuickCodes Spec Stepping.
Local Open Scope qc_scope.

Lemma bind_ext {A B} (c : M A) (k1 k2 : A -> M B) st :
  (forall a s, k1 a s = k2 a s) -> bind c k1 st = bind c k2 st.
Proof.
  intros H. unfold bind. destruct (c st) as [[a|e|] s]; auto.
Qed.

Lemma bind_assoc {A B C} (c : M A) (f : A -> M B) (k : B -> M C) st :
  bind (bind c f) k st = bind c (fun a => bind (f a) k) st.
Proof.
  unfold bind. destruct (c st) as [[a|e|] s]; reflexivity.
Qed.

Lemma same_head_refl l : same_head l l.
Proof. destruct l as [|a [|b r]]; simpl; auto. Qed.

Lemma same_head_of_chars la lb c0 c1 :
  String.get 0 la = Some c0 -> String.get 0 lb = Some c0 ->
  String.get 1 la = Some c1 -> String.get 1 lb = Some c1 ->
  same_head la lb.
Proof.
  destruct la as [|a [|b r]], lb as [|a' [|b' r']]; simpl;
    intros; try discriminate. split; congruence.
Qed.

Lemma skip_cond_head la lb st :
  same_head la lb -> skip_cond la st = skip_cond lb st.
Proof.
  destruct la as [|a [|b r]], lb as [|a' [|b' r']]; simpl; intros H;
    try discriminate; try (inversion H; subst); auto.
Qed.

Lemma skip_inner_head lines fuel la lb li st :
  same_head la lb ->
  same_outcome (skip_inner fuel lines la li st)
               (skip_inner fuel lines lb li st).
Proof.
  intros H. destruct fuel as [|fuel]; simpl; [reflexivity|].
  unfold bind. rewrite (skip_cond_head la lb st H).
  destruct (skip_cond lb st) as [[[|]|e|] s]; simpl; auto.
  destruct (length lines <=? li)%nat; simpl; auto.
  destruct (fetch lines li s) as [[l|e|] s']; simpl; auto.
  destruct (skip_inner fuel lines l (li + 1) s') as [[[l' j]|e|] s''];
    simpl; auto using same_head_refl.
Qed.

Lemma skip_outer_head lines fuel :
  forall la lb li st,
    same_head la lb ->
    skip_outer fuel lines la li st = skip_outer fuel lines lb li st.
Proof.
  induction fuel as [|fuel IH]; intros la lb li st H; [reflexivity|].
  rewrite !Termination.skip_outer_S.
  destruct (li <? length lines)%nat; [|reflexivity].
  unfold bind.
  pose proof (skip_inner_head lines (S (length lines)) la lb (li + 1) st H)
    as Hin.
  destruct (skip_inner (S (length lines)) lines la (li + 1) st)
    as [[[l1 j1]|e1|] s1],
     (skip_inner (S (length lines)) lines lb (li + 1) st)
    as [[[l2 j2]|e2|] s2]; simpl in Hin; try contradiction.
  - destruct Hin as (Hh & -> & ->). now apply IH.
  - destruct Hin as (-> & ->). reflexivity.
  - now subst.
Qed.

(** The lines skipped after a failed search depend on the line in hand
    through its first two characters only. *)
Lemma not_found_head lines la lb li st :
  same_head la lb -> not_found lines la li st = not_found lines lb li st.
Proof.
  intros H. unfold not_found. apply bind_ext. intros p s.
  destruct (p <? 0)%Z; [|reflexivity].
  unfold bind. now rewrite (skip_outer_head lines _ la lb li s H).
Qed.

(** The pattern is built from the value word and the continuation lines;
    of the instruction line itself, what follows sees the first two
    characters at most. *)
Lemma build_pattern_head lines la lb i L
      (K : list byte * string * nat -> M nat) st :
  str_slice la 9 17 = str_slice lb 9 17 ->
  (forall f j s, K (f, la, j) s = K (f, lb, j) s) ->
  bind (build_pattern lines la i L) K st
  = bind (build_pattern lines lb i L) K st.
Proof.
  intros Hv HK. unfold build_pattern. rewrite Hv, !bind_assoc.
  apply bind_ext. intros v s.
  destruct (range8 4 L) as [|n]; [|reflexivity].
  simpl. unfold bind, ret. apply HK.
Qed.

Lemma exec_line_8 lines i line st :
  String.get 0 line = Some "8"%char ->
  exec_line lines i line st = op_search lines i line st.
Proof.
  intros H. unfold exec_line.
  rewrite (bind_ok _ _ _ _ _ (char_at_ok _ _ _ _ H)). reflexivity.
Qed.

Lemma exec_line_B lines i line st :
  String.get 0 line = Some "B"%char ->
  exec_line lines i line st = op_rsearch lines i line st.
Proof.
  intros H. unfold exec_line.
  rewrite (bind_ok _ _ _ _ _ (char_at_ok _ _ _ _ H)). reflexivity.
Qed.

Lemma exec_line_C lines i line st :
  String.get 0 line = Some "C"%char ->
  exec_line lines i line st = op_asearch lines i line st.
Proof.
  intros H. unfold exec_line.
  rewrite (bind_ok _ _ _ _ _ (char_at_ok _ _ _ _ H)). reflexivity.
Qed.

Lemma search_opcode c :
  among c ["8"; "B"; "C"]%char = true ->
  c = "8"%char \/ c = "B"%char \/ c = "C"%char.
Proof.
  unfold among; simpl. intros H.
  repeat (apply orb_prop in H as [H|H]);
    try (apply Ascii.eqb_eq in H; auto). discriminate.
Qed.

Lemma default_count_0_1 : default_count (int32 0) = default_count (int32 1).
Proof. reflexivity. Qed.

Section TwoLines.
Variables (lines : list string) (i : nat) (la lb : string) (c1 : ascii).
Hypothesis Ha1 : String.get 1 la = Some c1.
Hypothesis Hb1 : String.get 1 lb = Some c1.
Hypothesis Hca : of_hex (str_slice la 2 4) = Some 0%Z.
Hypothesis Hcb : of_hex (str_slice lb 2 4) = Some 1%Z.
Hypothesis Hlen : str_slice la 4 8 = str_slice lb 4 8.
Hypothesis Hval : str_slice la 9 17 = str_slice lb 9 17.
Hypothesis Hhead : same_head la lb.

Lemma op_search_count st :
  op_search lines i la st = op_search lines i lb st.
Proof.
  unfold op_search.
  rewrite !(bind_ok _ _ _ _ _ (char_at_ok _ _ _ _ Ha1)).
  rewrite !(bind_ok _ _ _ _ _ (char_at_ok _ _ _ _ Hb1)).
  rewrite (bind_ok _ _ _ _ _ (hex_ok _ _ _ Hca)).
  rewrite (bind_ok _ _ _ _ _ (hex_ok _ _ _ Hcb)).
  rewrite Hlen, default_count_0_1. apply bind_ext. intros L s.
  apply build_pattern_head; [exact Hval|]. intros f j s'.
  do 3 (apply bind_ext; intros). now apply not_found_head.
Qed.

Lemma op_rsearch_count st :
  op_rsearch lines i la st = op_rsearch lines i lb st.
Proof.
  unfold op_rsearch.
  rewrite !(bind_ok _ _ _ _ _ (char_at_ok _ _ _ _ Ha1)).
  rewrite !(bind_ok _ _ _ _ _ (char_at_ok _ _ _ _ Hb1)).
  rewrite (bind_ok _ _ _ _ _ (hex_ok _ _ _ Hca)).
  rewrite (bind_ok _ _ _ _ _ (hex_ok _ _ _ Hcb)).
  rewrite Hlen, Hval, default_count_0_1.
  do 5 (apply bind_ext; intros).
  apply build_pattern_head; [exact Hval|]. intros f j s'.
  do 4 (apply bind_ext; intros). now apply not_found_head.
Qed.

Lemma op_asearch_count st :
  op_asearch lines i la st = op_asearch lines i lb st.
Proof.
  unfold op_asearch.
  rewrite !(bind_ok _ _ _ _ _ (char_at_ok _ _ _ _ Ha1)).
  rewrite !(bind_ok _ _ _ _ _ (char_at_ok _ _ _ _ Hb1)).
  rewrite (bind_ok _ _ _ _ _ (hex_ok _ _ _ Hca)).
  rewrite (bind_ok _ _ _ _ _ (hex_ok _ _ _ Hcb)).
  rewrite Hlen, Hval, default_count_0_1.
  do 5 (apply bind_ext; intros). now apply not_found_head.
Qed.
End TwoLines.

(** Two lines of opcode 8, B or C that have the same addressing
    character, the same length field and the same value word, the count
    field of the first decoding to 0 and that of the second to 1: in any
    program, at any index and from any state, the handler does the same
    on both. *)
Lemma exec_line_count lines i la lb c0 c1 st :
  among c0 ["8"; "B"; "C"]%char = true ->
  String.get 0 la = Some c0 -> String.get 0 lb = Some c0 ->
  String.get 1 la = Some c1 -> String.get 1 lb = Some c1 ->
  of_hex (str_slice la 2 4) = Some 0%Z ->
  of_hex (str_slice lb 2 4) = Some 1%Z ->
  str_slice la 4 8 = str_slice lb 4 8 ->
  str_slice la 9 17 = str_slice lb 9 17 ->
  exec_line lines i la st = exec_line lines i lb st.
Proof.
  intros Hop Ha0 Hb0 Ha1 Hb1 Hca Hcb Hlen Hval.
  pose proof (same_head_of_chars _ _ _ _ Ha0 Hb0 Ha1 Hb1) as Hh.
  destruct (search_opcode _ Hop) as [->|[->| ->]].
  - rewrite (exec_line_8 _ _ _ _ Ha0), (exec_line_8 _ _ _ _ Hb0).
    eapply op_search_count; eauto.
  - rewrite (exec_line_B _ _ _ _ Ha0), (exec_line_B _ _ _ _ Hb0).
    eapply op_rsearch_count; eauto.
  - rewrite (exec_line_C _ _ _ _ Ha0), (exec_line_C _ _ _ _ Hb0).
    eapply op_asearch_count; eauto.
Qed.

End CountField.

(* ================================================================= *)
(** ** Opcode 3 *)

Module Arithmetic.
Import Py Codec QuickCodes Spec PyFacts Stepping.
Local Open Scope Z_scope.
Local Open Scope qc_scope.

Lemma b2z_range b : 0 <= b2z b < 256.
Proof. unfold b2z. pose proof (Byte.to_N_bounded b). lia. Qed.

(** A byte made from [z] holds [z mod 256]. *)
Lemma b2z_z2b z : b2z (z2b z) = z mod 256.
Proof.
  unfold b2z, z2b. pose proof (Z.mod_pos_bound z 256 ltac:(lia)) as Hm.
  destruct (Byte.of_N (Z.to_N (z mod 256))) as [b|] eqn:E.
  - apply Byte.to_of_N in E. rewrite E. lia.
  - apply Byte.of_N_None_iff in E. lia.
Qed.

Lemma le_bytes_length n : forall v, length (le_bytes n v) = n.
Proof. induction n; intros; simpl; auto. Qed.

(** Encoding to [n] little-endian bytes and decoding gives the value
    modulo [256^n]. *)
Lemma le_value_le_bytes n : forall v, le_value (le_bytes n v) = v mod 256 ^ Z.of_nat n.
Proof.
  induction n as [|n IH]; intros v.
  - simpl. now rewrite Z.mod_1_r.
  - cbn [le_bytes le_value]. rewrite IH, b2z_z2b.
    rewrite Nat2Z.inj_succ, Z.pow_succ_r by lia.
    rewrite Z.rem_mul_r by lia. reflexivity.
Qed.

(** What a slice assignment inside the buffer wrote can be read back. *)
Lemma slice_set_slice (d bs : list byte) w :
  0 <= w -> w + Py.len bs <= Py.len d ->
  Py.slice (Py.set_slice d w (w + Py.len bs) bs) w (w + Py.len bs) = bs.
Proof.
  intros Hw Hl.
  assert (Hlen : Py.len (Py.set_slice d w (w + Py.len bs) bs) = Py.len d)
    by (apply set_slice_in_range_length; lia).
  rewrite slice_window by (pose proof (len_nonneg bs); lia).
  unfold Py.set_slice, Py.clamp. pose proof (len_nonneg bs).
  destruct (w <? 0) eqn:E1; [lia|].
  destruct (w + Py.len bs <? 0) eqn:E2; [lia|].
  rewrite Z.min_l by lia.
  rewrite skipn_app. 
  rewrite skipn_all2 by (rewrite length_firstn; unfold Py.len in *; lia).
  rewrite length_firstn. simpl.
  replace (Z.to_nat w - Nat.min (Z.to_nat w) (length d))%nat with 0%nat by (unfold Py.len in *; lia).
  simpl. rewrite firstn_app. unfold Py.len. rewrite Nat2Z.id, firstn_all, Nat.sub_diag. simpl. apply app_nil_r.
Qed.

Lemma le_value_range bs : 0 <= le_value bs < 256 ^ Py.len bs.
Proof.
  unfold Py.len. induction bs as [|b bs IH].
  - simpl. lia.
  - cbn [le_value length]. rewrite Nat2Z.inj_succ, Z.pow_succ_r by lia.
    pose proof (b2z_range b). lia.
Qed.

Lemma resolve_ok line t rel off st :
  of_hex (str_slice line 2 8) = Some off ->
  resolve line t rel st
  = (Ok (if among t rel then int32 (int32 off + pointer st) else int32 off), st).
Proof.
  intros H. unfold resolve. rewrite (bind_ok _ _ _ _ _ (hex_ok _ _ _ H)).
  reflexivity.
Qed.

Lemma slice_length_in_range {A} (d : list A) w n :
  0 <= w -> 0 <= n -> w + n <= Py.len d -> Py.len (Py.slice d w (w + n)) = n.
Proof.
  intros. rewrite slice_window by lia. unfold Py.len in *.
  rewrite length_firstn, length_skipn. lia.
Qed.

(** Read, modify, write through a little-endian integer of [n] bytes,
    inside the buffer: the field then holds the new value modulo
    [2^(8n)], the buffer has kept its length, the registers are
    untouched. *)
Lemma rmw_wraps (bits : Z) (n : nat) (f : Z -> Z) w st :
  bits = 8 * Z.of_nat n -> 0 <= w -> w + Z.of_nat n <= Py.len (data st) ->
  let old := from_bytes little (Py.slice (data st) w (w + Z.of_nat n)) in
  exists st',
    (wv <- load bits (Z.of_nat n) w ;; store n w (uint bits (f wv))) st
    = (Ok tt, st')
    /\ load bits (Z.of_nat n) w st' = (Ok (f old mod 2 ^ bits), st')
    /\ Py.len (data st') = Py.len (data st)
    /\ pointer st' = pointer st /\ end_pointer st' = end_pointer st
    /\ ptr st' = ptr st.
Proof.
  intros Hb Hw Hl old.
  assert (Hpow : 2 ^ bits = 256 ^ Z.of_nat n).
  { subst bits. rewrite Z.pow_mul_r by lia. reflexivity. }
  clear Hb.
  assert (Hold : uint bits old = old).
  { unfold uint, old, from_bytes. apply Z.mod_small. rewrite Hpow.
    pose proof (le_value_range (Py.slice (data st) w (w + Z.of_nat n))) as R.
    now rewrite slice_length_in_range in R by lia. }
  destruct st as [d p e r]. cbn [data pointer end_pointer ptr] in *.
  eexists. split; [|split].
  - unfold load, store, data_slice, data_set_slice, bind, get_data, put_data, ret.
    cbn [data pointer end_pointer ptr]. fold old. rewrite Hold. reflexivity.
  - unfold load, data_slice, bind, get_data, ret. cbn [data].
    unfold as_bytes.
    assert (Hn : Py.len (le_bytes n (uint bits (f old))) = Z.of_nat n)
      by (unfold Py.len; now rewrite le_bytes_length).
    rewrite <- Hn at 1 2 3 4.
    rewrite slice_set_slice by (rewrite ?Hn; assumption).
    unfold from_bytes. rewrite le_value_le_bytes, <- Hpow.
    unfold uint. now rewrite !Zmod_mod.
  - cbn [data pointer end_pointer ptr]. repeat split.
    unfold as_bytes.
    assert (Hn : Py.len (le_bytes n (uint bits (f old))) = Z.of_nat n)
      by (unfold Py.len; now rewrite le_bytes_length).
    rewrite <- Hn at 1.
    apply set_slice_in_range_length; rewrite ?Hn; assumption.
Qed.

Lemma among_cases t cs : among t cs = true -> In t cs.
Proof.
  unfold among. intros H. apply existsb_exists in H as (c & Hin & Hc).
  apply Ascii.eqb_eq in Hc. now subst.
Qed.

(** The twelve subtype characters of the wide fields. *)
Lemma wide_subtype_cases t n sub :
  wide_subtype t = Some (n, sub) ->
  In (t, n, sub)
     [("1", 2, false); ("9", 2, false); ("2", 4, false); ("A", 4, false);
      ("3", 8, false); ("B", 8, false); ("5", 2, true); ("D", 2, true);
      ("6", 4, true); ("E", 4, true); ("7", 8, true); ("F", 8, true)]%char%nat.
Proof.
  unfold wide_subtype. intros H.
  repeat match type of H with
         | (if among t ?cs then _ else _) = _ =>
             destruct (among t cs) eqn:E;
             [apply among_cases in E; simpl in E; inversion H; subst;
              intuition (subst; simpl; tauto)
             | clear E]
         end.
  discriminate.
Qed.

(** X7. The 16-, 32- and 64-bit subtypes of opcode 3, at an address where
    the field lies inside the buffer: the field ends up holding the old
    value plus or minus the delta, modulo [2^bits], and the buffer keeps
    its length. *)
Theorem incdec_wide_wraps line st t off v n sub :
  String.get 1 line = Some t ->
  of_hex (str_slice line 2 8) = Some off ->
  of_hex (str_slice line 9 17) = Some v ->
  wide_subtype t = Some (n, sub) ->
  let w := if among t ["8"; "9"; "A"; "C"; "D"; "E"]%char
           then int32 (int32 off + pointer st) else int32 off in
  let bits := 8 * Z.of_nat n in
  let old := from_bytes little (Py.slice (data st) w (w + Z.of_nat n)) in
  let delta := delta_of n (uint32 v) in
  0 <= w -> w + Z.of_nat n <= Py.len (data st) ->
  exists st',
    op_incdec line st = (Ok tt, st')
    /\ load bits (Z.of_nat n) w st'
       = (Ok ((if sub then old - delta else old + delta) mod 2 ^ bits), st')
    /\ Py.len (data st') = Py.len (data st).
Proof.
  intros Ht Hoff Hv Hk w bits old delta Hw Hl.
  destruct (rmw_wraps bits n (fun wv => if sub then wv - delta else wv + delta)
                      w st eq_refl Hw Hl) as (st' & H1 & H2 & H3 & _).
  exists st'. split; [|split; assumption].
  unfold op_incdec.
  rewrite (bind_ok _ _ _ _ _ (char_at_ok _ _ _ _ Ht)).
  rewrite (bind_ok _ _ _ _ _ (resolve_ok _ _ _ _ _ Hoff)).
  rewrite (bind_ok _ _ _ _ _ (hex_ok _ _ _ Hv)).
  fold w.
  apply wide_subtype_cases in Hk. simpl in Hk.
  repeat (destruct Hk as [Hk|Hk];
          [inversion Hk; subst t n sub; clear Hk|]); [..|contradiction].
  all: cbv [among existsb Ascii.eqb Bool.eqb orb]; cbv iota; exact H1.
Qed.

(** X8. The 8-bit subtypes of opcode 3, at an address that indexes the
    buffer: the byte ends up holding the sum (or difference) when that is
    a byte value; otherwise the handler raises [ValueError] and leaves
    the buffer as it was.  The sum is not reduced modulo 256. *)
Theorem incdec_byte_does_not_wrap line st t off v j b :
  String.get 1 line = Some t ->
  among t ["0"; "8"; "4"; "C"]%char = true ->
  of_hex (str_slice line 2 8) = Some off ->
  of_hex (str_slice line 9 17) = Some v ->
  let w := if among t ["8"; "9"; "A"; "C"; "D"; "E"]%char
           then int32 (int32 off + pointer st) else int32 off in
  Py.index (data st) w = Some j ->
  nth_error (data st) j = Some b ->
  let delta := Z.land (uint32 v) 255 in
  let r := if among t ["4"; "C"]%char then b2z b - delta else b2z b + delta in
  op_incdec line st
  = if (0 <=? r) && (r <? 256)
    then (Ok tt, mkState (Py.update (data st) j (z2b r))
                         (pointer st) (end_pointer st) (ptr st))
    else (Raise (Exn ValueError), st).
Proof.
  intros Ht Hk Hoff Hv w Hj Hb delta r.
  assert (Hget : data_get w st = (Ok (b2z b), st)).
  { unfold data_get, bind, get_data, Py.get. now rewrite Hj, Hb. }
  assert (Hset : forall x, data_set w x st
                 = if (0 <=? x) && (x <? 256)
                   then (Ok tt, mkState (Py.update (data st) j (z2b x))
                                        (pointer st) (end_pointer st) (ptr st))
                   else (Raise (Exn ValueError), st)).
  { intros x. unfold data_set, bind, get_data. rewrite Hj. simpl.
    destruct ((0 <=? x) && (x <? 256)); reflexivity. }
  unfold op_incdec.
  rewrite (bind_ok _ _ _ _ _ (char_at_ok _ _ _ _ Ht)).
  rewrite (bind_ok _ _ _ _ _ (resolve_ok _ _ _ _ _ Hoff)).
  rewrite (bind_ok _ _ _ _ _ (hex_ok _ _ _ Hv)).
  fold w. subst r.
  apply among_cases in Hk. simpl in Hk.
  repeat (destruct Hk as [Hk|Hk]; [subst t|]); [..|contradiction].
  all: cbv [among existsb Ascii.eqb Bool.eqb orb]; cbv iota.
  all: rewrite (bind_ok _ _ _ _ _ Hget); apply Hset.
Qed.

End Arithmetic.

(* ================================================================= *)
(** ** Addresses out of range *)

Module Bounds.
Import Py Codec QuickCodes Spec PyFacts Stepping Searching.
Local Open Scope Z_scope.
Local Open Scope qc_scope.

(** A slice assignment returns, whatever its bounds. *)
Lemma data_set_slice_returns a b v st :
  data_set_slice a b v st
  = (Ok tt, mkState (Py.set_slice (data st) a b v)
                    (pointer st) (end_pointer st) (ptr st)).
Proof. reflexivity. Qed.

(** An indexed write raises [IndexError] exactly outside
    [-len, len). *)
Lemma index_none {A} (l : list A) i :
  Py.index l i = None <-> i < - Py.len l \/ Py.len l <= i.
Proof.
  unfold Py.index. pose proof (len_nonneg l) as Hn.
  assert (Hj : (if i <? 0 then i + Py.len l else i)
               = if i <? 0 then i + Py.len l else i) by reflexivity.
  set (j := if i <? 0 then i + Py.len l else i) in *.
  assert (Hij : (i < 0 /\ j = i + Py.len l) \/ (0 <= i /\ j = i)).
  { unfold j. destruct (i <? 0) eqn:E;
      [apply Z.ltb_lt in E | apply Z.ltb_ge in E]; auto. }
  clearbody j. clear Hj.
  destruct ((0 <=? j) && (j <? Py.len l)) eqn:C.
  - apply andb_prop in C as [C1 C2].
    apply Z.leb_le in C1. apply Z.ltb_lt in C2.
    split; [discriminate|]. lia.
  - split; [intros _|reflexivity].
    apply andb_false_iff in C as [C|C];
      [apply Z.leb_gt in C | apply Z.ltb_ge in C]; lia.
Qed.

(** Opcodes 0, 1 and 2 never raise on a line whose fields decode,
    wherever the address points. *)
Theorem op_write_returns line st c0 t off v :
  String.get 0 line = Some c0 ->
  String.get 1 line = Some t ->
  of_hex (str_slice line 2 8) = Some off ->
  of_hex (str_slice line 9 17) = Some v ->
  fst (op_write line st) = Ok tt.
Proof.
  intros H0 H1 Hoff Hv. unfold op_write.
  rewrite (bind_ok _ _ _ _ _ (char_at_ok _ _ _ _ H0)).
  rewrite (bind_ok _ _ _ _ _ (hex_ok _ _ _ Hoff)).
  rewrite (bind_ok _ _ _ _ _ (char_at_ok _ _ _ _ H1)).
  unfold bind at 1, get_pointer.
  rewrite (bind_ok _ _ _ _ _ (hex_ok _ _ _ Hv)).
  reflexivity.
Qed.

(** A 32-bit write at an absolute address at or past the end of the
    buffer appends its four bytes. *)
Theorem op_write32_past_end_appends line st t off v :
  String.get 0 line = Some "2"%char ->
  String.get 1 line = Some t ->
  Ascii.eqb t "8" = false ->
  of_hex (str_slice line 2 8) = Some off ->
  of_hex (str_slice line 9 17) = Some v ->
  Py.len (data st) <= int32 off ->
  op_write line st
  = (Ok tt, mkState (data st ++ as_bytes little 4 (uint32 v))
                    (pointer st) (end_pointer st) (ptr st)).
Proof.
  intros H0 H1 Ht Hoff Hv Hlen. unfold op_write.
  rewrite (bind_ok _ _ _ _ _ (char_at_ok _ _ _ _ H0)).
  rewrite (bind_ok _ _ _ _ _ (hex_ok _ _ _ Hoff)).
  rewrite (bind_ok _ _ _ _ _ (char_at_ok _ _ _ _ H1)).
  unfold bind at 1, get_pointer. rewrite Ht.
  rewrite (bind_ok _ _ _ _ _ (hex_ok _ _ _ Hv)).
  rewrite data_set_slice_returns.
  change (uint8 (Z.shiftl 1 (ord "2" - 48))) with 4.
  rewrite set_slice_past_end by lia.
  change (4 - 4) with 0. change (0 + 4) with 4.
  rewrite slice_prefix by (unfold Py.len; simpl; lia).
  reflexivity.
Qed.

(** The empty pattern stands at every offset of the buffer, its end
    included. *)
Lemma occurs_at_empty_pattern d i :
  0 <= i <= Py.len d -> occurs_at d [] i = true.
Proof.
  intros H. unfold occurs_at. simpl.
  change (Py.len (@nil byte)) with 0.
  replace (0 <=? i) with true by (symmetry; apply Z.leb_le; lia).
  replace (i + 0 <=? Py.len d) with true by (symmetry; apply Z.leb_le; lia).
  reflexivity.
Qed.

(** A pattern that is not empty stands nowhere in the empty buffer. *)
Lemma occurs_at_empty_buffer pat i :
  pat <> [] -> occurs_at [] pat i = false.
Proof.
  intros H. unfold occurs_at. destruct pat as [|b pat]; [congruence|].
  change (Py.len (@nil byte)) with 0.
  destruct (0 <=? i) eqn:E; [|reflexivity]. apply Z.leb_le in E.
  replace (i + Py.len (b :: pat) <=? 0) with false; [reflexivity|].
  symmetry. apply Z.leb_gt. unfold Py.len. simpl length. lia.
Qed.

(** In the empty buffer both searches return [-1] for a pattern that is
    not empty. *)
Lemma search_empty_buffer start search L count :
  1 <= count -> 0 <= start -> 0 < L <= Py.len search ->
  search_data [] 0 start search L count = -1
  /\ reverse_search_data [] 0 start search L count = -1.
Proof.
  intros Hc Hs HL.
  assert (Hpat : firstn (Z.to_nat L) search <> []).
  { intros E. apply (f_equal (@length byte)) in E.
    rewrite length_firstn in E. unfold Py.len in HL. simpl in E. lia. }
  split.
  - destruct (search_data_result [] 0 start search L count Hc Hs
                ltac:(lia) ltac:(unfold Py.len; simpl; lia))
      as [H|(_ & H)]; [exact H|].
    now rewrite occurs_at_empty_buffer in H.
  - destruct (reverse_search_data_result [] 0 start search L count Hc
                ltac:(lia) ltac:(unfold Py.len; simpl; lia))
      as [H|(_ & _ & H)]; [exact H|].
    now rewrite occurs_at_empty_buffer in H.
Qed.

End Bounds.

(* ================================================================= *)
(** ** The theorems at concrete inputs *)

Module Instances.
Import Py Codec QuickCodes Spec.
Import Byte.
Local Open Scope string_scope.
Local Open Scope list_scope.

(** A byte is written, then an 8-bit addition overflows: the buffer in
    memory has changed, what is stored has not, nothing was written. *)
Lemma persist_only_after_complete_run_witness :
  let self := mkQC "save" "00000000 FF000000 30000000 00000001" []
                   ["00000000 FF000000"; "30000000 00000001"] in
  let w := mkWorld (Some [x00]) [] in
  apply_code self w
  = (Raise (QuickCodesError "Invalid code!"),
     with_data self (data (mkState [xff] 0 0 0)),
     mkWorld (stored w) (log w ++ [Read])).
Proof.
  intros self w.
  apply (proj2 (Persistence.persist_only_after_complete_run self w)
               [x00] 1%nat (mkState [xff] 0 0 0)).
  - reflexivity.
  - eapply reaches_next;
      [simpl; lia | vm_compute; reflexivity | apply reaches_here].
  - simpl; lia.
  - vm_compute; reflexivity.
Defined.

(** The pattern [01 02] in [01 02 01 02]: second match forward from 0 at
    offset 2, second match backward from 3 at offset 0, no second match
    forward from 3; the empty pattern, second match forward from 1. *)
Lemma search_returns_ith_occurrence_witness :
  let d := [x01; x02; x01; x02] in
  let pat := [x01; x02] in
  nth_error (occurrences_forward d 4 0 pat) 1
  = Some (search_data d 4 0 pat 2 2)
  /\ nth_error (occurrences_backward d 4 3 pat) 1
     = Some (reverse_search_data d 4 3 pat 2 2)
  /\ search_data d 4 3 pat 2 2 = (-1)%Z
  /\ search_data d 4 1 pat 0 2 = 2%Z.
Proof.
  intros d pat.
  assert (H1 : (1 <= 2)%Z) by lia.
  assert (H3 : (0 <= 2 <= Py.len pat)%Z)
    by (vm_compute; intuition discriminate).
  assert (H0 : (0 <= 0 <= Py.len pat)%Z)
    by (vm_compute; intuition discriminate).
  assert (H4 : (4 <= Py.len d)%Z) by (vm_compute; discriminate).
  split; [|split; [|split]].
  - apply (proj1 (proj1 (Searching.search_returns_ith_occurrence
                           d 4 0 pat 2 2 H1 H3 H4) ltac:(lia))).
    vm_compute; discriminate.
  - apply (proj1 (proj2 (Searching.search_returns_ith_occurrence
                           d 4 3 pat 2 2 H1 H3 H4))).
    vm_compute; discriminate.
  - apply (proj2 (proj1 (Searching.search_returns_ith_occurrence
                           d 4 3 pat 2 2 H1 H3 H4) ltac:(lia))).
    vm_compute; reflexivity.
  - apply (proj1 (proj2 (proj2 (proj2
             (Searching.search_returns_ith_occurrence
                d 4 1 pat 0 2 H1 H0 H4)))) eq_refl ltac:(lia)).
Defined.

(** One token too many; a token that is not hexadecimal; a well-formed
    program of two lines. *)
Lemma init_decodes_witness :
  init "save" "20000000 0000002A 1" = Raise (QuickCodesError "Invalid code!")
  /\ (exists l, init "save" "2000000G 0000002A"
                = Raise (QuickCodesError ("Invalid code: " ++ l ++ "!")))
  /\ init "save" "20000000 0000002A  D0000000 01000001"
     = Ok (mkQC "save" "20000000 0000002A  D0000000 01000001" []
                ["20000000 0000002A"; "D0000000 01000001"]).
Proof.
  split; [|split].
  - apply (proj1 (Decoding.init_decodes "save" "20000000 0000002A 1")).
    reflexivity.
  - destruct (proj1 (proj2 (Decoding.init_decodes
                              "save" "2000000G 0000002A")) eq_refl)
      as (l & _ & _ & E).
    + exists "2000000G 0000002A". split; [left; reflexivity|].
      intros W. apply Decoding.validate_code_shape in W. discriminate W.
    + exists l. exact E.
  - apply (proj2 (proj2 (Decoding.init_decodes
                           "save" "20000000 0000002A  D0000000 01000001"))).
    + reflexivity.
    + repeat constructor; apply Decoding.validate_code_shape; reflexivity.
Defined.

(** A false comparison with one line to skip, in a program of three
    lines and in a program of one. *)
Lemma test_skips_declared_lines_witness :
  let l := "D0000000 01000001" in
  let st := initial [x00; x00] in
  step [l; "20000000 0000002A"; "00000000 FF000000"] 0 st = (Ok 2%nat, st)
  /\ step [l] 0 st = (Raise (QuickCodesError "Invalid code!"), st).
Proof.
  intros l st. split.
  - apply (Skipping.test_skips_declared_lines
             [l; "20000000 0000002A"; "00000000 FF000000"] 0 l st
             "0"%char 1%Z 0%Z 1%Z st
             eq_refl eq_refl eq_refl eq_refl eq_refl).
    + reflexivity.
    + vm_compute; lia.
  - apply (Skipping.test_skips_declared_lines [l] 0 l st
             "0"%char 1%Z 0%Z 1%Z st
             eq_refl eq_refl eq_refl eq_refl eq_refl).
    + reflexivity.
    + vm_compute; lia.
Defined.

(** The operator digit [4], on two bytes that can be read and on one byte
    that cannot. *)
Lemma unknown_operator_passes_witness :
  step ["D0000000 05040001"] 0 (initial [x00; x00])
  = (Ok 1%nat, initial [x00; x00])
  /\ step ["D0000000 00140000"] 0 (initial [])
     = (Raise (QuickCodesError "Invalid code!"), initial []).
Proof.
  split.
  - apply (proj1 (Skipping.unknown_operator_passes
                    ["D0000000 05040001"] 0 "D0000000 05040001"
                    (initial [x00; x00]) "4"%char 5%Z
                    eq_refl eq_refl eq_refl eq_refl eq_refl)
                 0%Z 1%Z (initial [x00; x00])).
    reflexivity.
  - apply (proj2 (Skipping.unknown_operator_passes
                    ["D0000000 00140000"] 0 "D0000000 00140000"
                    (initial []) "4"%char 0%Z
                    eq_refl eq_refl eq_refl eq_refl eq_refl)
                 (Exn IndexError) (initial [])).
    reflexivity.
Defined.

End Instances.

(* ================================================================= *)
(** ** Decoding the fields of a validated line *)

Module Fields.
Import Py Codec QuickCodes Spec PyFacts Stepping.
Local Open Scope Z_scope.

Lemma hex_digit_range c d : hex_digit c = Some d -> 0 <= d < 16.
Proof.
  unfold hex_digit. intros H.
  repeat match type of H with
         | (if ?b then _ else _) = _ => destruct b eqn:?E
         end; inversion H; subst;
    repeat match goal with
           | E : _ && _ = true |- _ => apply andb_prop in E as [? ?]
           end; lia.
Qed.

(** A string of hexadecimal digits decodes, to a number below
    [16^length]. *)
Lemma hex_acc_all s : forall acc,
  0 <= acc ->
  Forall (fun c => is_hex c = true) (list_ascii_of_string s) ->
  exists v, hex_acc s acc = Some v
            /\ acc * 16 ^ Z.of_nat (String.length s) <= v
               < (acc + 1) * 16 ^ Z.of_nat (String.length s).
Proof.
  induction s as [|c s IH]; intros acc Hacc Hall.
  - exists acc. split; auto. simpl. lia.
  - cbn [hex_acc String.length]. simpl in Hall.
    inversion Hall as [|? ? Hc Hs]; subst. unfold is_hex in Hc.
    destruct (hex_digit c) as [d|] eqn:E; [|discriminate].
    apply hex_digit_range in E.
    destruct (IH (16 * acc + d) ltac:(lia) Hs) as (v & Hv & Hb).
    exists v. split; auto.
    rewrite Nat2Z.inj_succ, Z.pow_succ_r by lia.
    set (p := 16 ^ Z.of_nat (String.length s)) in *.
    assert (0 < p) by (apply Z.pow_pos_nonneg; lia). nia.
Qed.

Lemma of_hex_all s :
  s <> EmptyString ->
  Forall (fun c => is_hex c = true) (list_ascii_of_string s) ->
  exists v, of_hex s = Some v /\ 0 <= v < 16 ^ Z.of_nat (String.length s).
Proof.
  intros Hs Hall. destruct s as [|c s]; [congruence|].
  unfold of_hex. destruct (hex_acc_all (String c s) 0 ltac:(lia) Hall) as (v & Hv & Hb).
  exists v. split; auto. lia.
Qed.

(** A validated line, character by character. *)
Lemma validated_explicit line :
  validate_code line = true ->
  exists a0 a1 a2 a3 a4 a5 a6 a7 b0 b1 b2 b3 b4 b5 b6 b7,
    line = string_of_list_ascii
             [a0;a1;a2;a3;a4;a5;a6;a7;" "%char;b0;b1;b2;b3;b4;b5;b6;b7]
    /\ Forall (fun c => is_hex c = true) [a0;a1;a2;a3;a4;a5;a6;a7]
    /\ Forall (fun c => is_hex c = true) [b0;b1;b2;b3;b4;b5;b6;b7].
Proof.
  intros H. apply Decoding.validate_code_shape in H.
  destruct H as (a & b & El & Ha & Hb & Fa & Fb).
  do 8 (destruct a as [|? a]; [discriminate Ha|]).
  destruct a; [|discriminate Ha].
  do 8 (destruct b as [|? b]; [discriminate Hb|]).
  destruct b; [|discriminate Hb].
  do 16 eexists. split; [exact El|]. split; assumption.
Qed.

(** Every field of a validated line decodes, to a number that fits its
    digits. *)
Lemma validated_field line a b :
  validate_code line = true ->
  In (a, b) fields ->
  exists v, of_hex (str_slice line a b) = Some v
            /\ 0 <= v < 16 ^ Z.of_nat (b - a).
Proof.
  intros Hv Hin.
  destruct (validated_explicit line Hv)
    as (a0&a1&a2&a3&a4&a5&a6&a7&b0&b1&b2&b3&b4&b5&b6&b7&El&Fa&Fb).
  subst line. unfold fields in Hin. simpl in Hin.
  repeat (destruct Hin as [Hin|Hin]; [inversion Hin; subst a b; clear Hin|]);
    [..|contradiction].
  all: cbn [str_slice Nat.sub string_of_list_ascii substring];
    match goal with
    | |- exists v, of_hex ?s = _ /\ _ =>
        destruct (of_hex_all s ltac:(discriminate)) as (v & Hv' & Hb');
        [cbn [list_ascii_of_string];
         repeat match goal with
                | H : Forall _ (_ :: _) |- _ => inversion H; subst; clear H
                end; repeat constructor; assumption
        | exists v; split; [exact Hv'| exact Hb'] ]
    end.
Qed.

Lemma validated_char line k :
  validate_code line = true -> (k < 17)%nat ->
  exists c, String.get k line = Some c.
Proof.
  intros Hv Hk.
  destruct (validated_explicit line Hv)
    as (a0&a1&a2&a3&a4&a5&a6&a7&b0&b1&b2&b3&b4&b5&b6&b7&El&Fa&Fb).
  subst line.
  do 17 (destruct k as [|k]; [simpl; eauto|]). lia.
Qed.

(** X2. On a line accepted by [validate_code], no handler can fail to decode:
    each character the handlers read is there, and each field they
    decode is a number below [16^digits]; neither [IndexError] nor
    [ValueError] comes from reading the line. *)
Theorem validated_line_decodes line st :
  validate_code line = true ->
  (forall k, (k < 17)%nat -> exists c, char_at line k st = (Ok c, st))
  /\ (forall a b, In (a, b) fields ->
         exists v, hex (str_slice line a b) st = (Ok v, st)
                   /\ 0 <= v < 16 ^ Z.of_nat (b - a)).
Proof.
  intros Hv. split.
  - intros k Hk. destruct (validated_char line k Hv Hk) as (c & Hc).
    exists c. now apply char_at_ok.
  - intros a b Hin. destruct (validated_field line a b Hv Hin) as (v & H & R).
    exists v. split; [now apply hex_ok | exact R].
Qed.

End Fields.

(* ================================================================= *)
(** ** Slice assignment inside the buffer *)

Module Splice.
Import Py Codec QuickCodes Spec PyFacts Arithmetic.
Local Open Scope Z_scope.

Section Splice.
Context {A : Type}.
Implicit Types l v : list A.

Lemma set_slice_in_range_eq l a v :
  0 <= a -> a + Py.len v <= Py.len l ->
  Py.set_slice l a (a + Py.len v) v
  = firstn (Z.to_nat a) l ++ v ++ skipn (Z.to_nat (a + Py.len v)) l.
Proof.
  intros Ha Hl. unfold Py.set_slice, Py.clamp. pose proof (len_nonneg v).
  destruct (a <? 0) eqn:E1; [lia|].
  destruct (a + Py.len v <? 0) eqn:E2; [lia|].
  rewrite !Z.min_l, Z.max_r by lia. reflexivity.
Qed.

Lemma splice_firstn l a v :
  0 <= a -> a + Py.len v <= Py.len l ->
  firstn (Z.to_nat a) (Py.set_slice l a (a + Py.len v) v)
  = firstn (Z.to_nat a) l.
Proof.
  intros Ha Hl. rewrite set_slice_in_range_eq by assumption.
  pose proof (len_nonneg v). unfold Py.len in *.
  rewrite firstn_app, length_firstn.
  replace (Z.to_nat a - Nat.min (Z.to_nat a) (length l))%nat with 0%nat by lia.
  rewrite firstn_O, app_nil_r. apply firstn_firstn_min || (rewrite firstn_firstn; f_equal; lia).
Qed.

Lemma splice_skipn l a v :
  0 <= a -> a + Py.len v <= Py.len l ->
  skipn (Z.to_nat (a + Py.len v)) (Py.set_slice l a (a + Py.len v) v)
  = skipn (Z.to_nat (a + Py.len v)) l.
Proof.
  intros Ha Hl. rewrite set_slice_in_range_eq by assumption.
  pose proof (len_nonneg v). unfold Py.len in *.
  rewrite skipn_app, length_firstn.
  rewrite skipn_all2 by (rewrite length_firstn; lia).
  rewrite skipn_app.
  rewrite skipn_all2 by lia. simpl.
  replace (Z.to_nat (a + Z.of_nat (length v)) - Nat.min (Z.to_nat a) (length l) - length v)%nat
    with 0%nat by lia.
  reflexivity.
Qed.

Lemma splice_twice l a v :
  0 <= a -> a + Py.len v <= Py.len l ->
  Py.set_slice (Py.set_slice l a (a + Py.len v) v) a (a + Py.len v) v
  = Py.set_slice l a (a + Py.len v) v.
Proof.
  intros Ha Hl.
  assert (Hlen : Py.len (Py.set_slice l a (a + Py.len v) v) = Py.len l)
    by (apply set_slice_in_range_length; assumption).
  rewrite (set_slice_in_range_eq (Py.set_slice l a (a + Py.len v) v))
    by (rewrite ?Hlen; assumption).
  rewrite splice_firstn, splice_skipn by assumption.
  symmetry. apply set_slice_in_range_eq; assumption.
Qed.
End Splice.

Lemma update_same {A} (l : list A) : forall j x,
  nth_error l j = Some x -> Py.update l j x = l.
Proof.
  induction l as [|h t IH]; intros [|j] x H; simpl in *; try discriminate.
  - now inversion H.
  - f_equal. now apply IH.
Qed.

Lemma update_nth {A} (l : list A) : forall j x,
  (j < length l)%nat -> nth_error (Py.update l j x) j = Some x.
Proof.
  induction l as [|h t IH]; intros [|j] x H; simpl in *; try lia; auto.
  apply IH. lia.
Qed.

Lemma update_other {A} (l : list A) : forall j j' x,
  j <> j' -> nth_error (Py.update l j x) j' = nth_error l j'.
Proof.
  induction l as [|h t IH]; intros [|j] [|j'] x H; simpl; auto; try lia.
Qed.

Lemma index_in_range {A} (l : list A) w :
  0 <= w < Py.len l -> Py.index l w = Some (Z.to_nat w).
Proof.
  intros H. unfold Py.index.
  replace (w <? 0) with false by (symmetry; apply Z.ltb_ge; lia).
  replace (0 <=? w) with true by (symmetry; apply Z.leb_le; lia).
  replace (w <? Py.len l) with true by (symmetry; apply Z.ltb_lt; lia).
  reflexivity.
Qed.

Lemma z2b_b2z b : z2b (b2z b) = b.
Proof.
  unfold z2b. pose proof (b2z_range b) as R.
  rewrite Z.mod_small by exact R. unfold b2z. rewrite N2Z.id.
  now rewrite Byte.of_to_N.
Qed.

Lemma z2b_mod z m : (256 | m) -> 0 < m -> z2b (z mod m) = z2b z.
Proof.
  intros Hd Hm. unfold z2b. now rewrite Z.mod_mod_divide.
Qed.

(** An indexed write of a byte value at an address inside the buffer. *)
Lemma data_set_in_range w x st :
  0 <= w < Py.len (data st) -> 0 <= x < 256 ->
  data_set w x st
  = (Ok tt, mkState (Py.update (data st) (Z.to_nat w) (z2b x))
                    (pointer st) (end_pointer st) (ptr st)).
Proof.
  intros Hw Hx. unfold data_set, bind, get_data.
  rewrite index_in_range by exact Hw. simpl.
  replace (0 <=? x) with true by (symmetry; apply Z.leb_le; lia).
  replace (x <? 256) with true by (symmetry; apply Z.ltb_lt; lia).
  reflexivity.
Qed.

Lemma zeros_len n : 0 <= n -> Py.len (zeros n) = n.
Proof.
  intros H. unfold Py.len, zeros. rewrite repeat_length. lia.
Qed.

(** [(x + 3) & ~3] is [x] rounded up to a multiple of 4. *)
Lemma round_up_4 x : 0 <= x -> Z.land (x + 3) (Z.lnot 3) = 4 * ((x + 3) / 4).
Proof.
  intros Hx. rewrite <- Z.ldiff_land. change 3 with (Z.ones 2) at 2.
  rewrite Z.ldiff_ones_r by lia.
  rewrite Z.shiftl_mul_pow2, Z.shiftr_div_pow2 by lia.
  change (2 ^ 2) with 4. lia.
Qed.

Lemma set_slice_4_length (buf bs : list byte) i :
  length bs = 4%nat -> 0 <= i -> i + 4 <= Py.len buf ->
  Py.len (Py.set_slice buf i (i + 4) bs) = Py.len buf.
Proof.
  intros Hb Hi Hl.
  assert (Hn : Py.len bs = 4) by (unfold Py.len; rewrite Hb; reflexivity).
  rewrite <- Hn at 1. apply set_slice_in_range_length; rewrite ?Hn; lia.
Qed.

Lemma int64_small z : - 2 ^ 63 <= z < 2 ^ 63 -> int64 z = z.
Proof.
  intros H. unfold int64, sint. change (64 - 1) with 63.
  rewrite Z.mod_small by lia. lia.
Qed.

Lemma land_mask_range v k : 0 <= k -> 0 <= Z.land v (Z.ones k) < 2 ^ k.
Proof.
  intros Hk. rewrite Z.land_ones by lia. apply Z.mod_pos_bound.
  apply Z.pow_pos_nonneg; lia.
Qed.

End Splice.

(* ================================================================= *)
(** ** Characters that select nothing *)

Module Dispatch.
Import Py Codec QuickCodes Spec Stepping.
Local Open Scope Z_scope.
Local Open Scope qc_scope.

(** X5. A line whose first character is none of the fourteen opcodes matches
    no case: the round leaves buffer and registers as they are and moves
    to the next line.  The opcodes are upper case: [E], [F] and the lower
    case letters, which [validate_code] accepts, select nothing. *)
Theorem unknown_opcode_is_skipped lines i line c st :
  nth_error lines i = Some line ->
  String.get 0 line = Some c ->
  among c opcodes = false ->
  step lines i st = (Ok (i + 1)%nat, st).
Proof.
  intros Hn H0 Hc. rewrite (step_unfold _ _ _ _ Hn).
  unfold bind, guarded, exec_line.
  rewrite (bind_ok _ _ _ _ _ (char_at_ok _ _ _ _ H0)).
  unfold among, opcodes in Hc. simpl in Hc.
  repeat match goal with
         | H : _ || _ = false |- _ =>
             apply orb_false_elim in H;
             let E := fresh "E" in destruct H as [E H]
         end.
  unfold among. simpl. rewrite E, E0, E1, E2, E3, E4, E5, E6, E7, E8, E9, E10, E11, E12.
  reflexivity.
Qed.

(** X12. Opcode 6 with an operator character that is none of [0], [1], [2],
    [4] does nothing. *)
Theorem mega_unknown_operator line st t w x y z v :
  String.get 1 line = Some t -> String.get 2 line = Some w ->
  String.get 3 line = Some x -> String.get 5 line = Some y ->
  String.get 7 line = Some z ->
  of_hex (str_slice line 9 17) = Some v ->
  among w ["0"; "1"; "2"; "4"]%char = false ->
  op_mega line st = (Ok tt, st).
Proof.
  intros Ht Hw Hx Hy Hz Hv Hk. unfold op_mega.
  rewrite (bind_ok _ _ _ _ _ (char_at_ok _ _ _ _ Ht)).
  rewrite (bind_ok _ _ _ _ _ (char_at_ok _ _ _ _ Hw)).
  rewrite (bind_ok _ _ _ _ _ (char_at_ok _ _ _ _ Hx)).
  rewrite (bind_ok _ _ _ _ _ (char_at_ok _ _ _ _ Hy)).
  rewrite (bind_ok _ _ _ _ _ (char_at_ok _ _ _ _ Hz)).
  rewrite (bind_ok _ _ _ _ _ (hex_ok _ _ _ Hv)).
  unfold bind at 1, get_pointer.
  unfold among in Hk. simpl in Hk.
  repeat match goal with
         | H : _ || _ = false |- _ =>
             apply orb_false_elim in H;
             let E := fresh "E" in destruct H as [E H]
         end.
  rewrite E, E0, E1, E2. reflexivity.
Qed.

End Dispatch.

(* ================================================================= *)
(** ** After a search that found nothing *)

Module FailedSearch.
Import Py Codec QuickCodes Spec PyFacts Stepping.
Local Open Scope Z_scope.
Local Open Scope qc_scope.

Lemma skip_cond_headed line st :
  headed line -> exists c, skip_cond line st = (Ok c, st).
Proof.
  destruct line as [|a [|b r]]; intros H.
  - exists false. reflexivity.
  - contradiction.
  - unfold skip_cond, bind, char_at. simpl.
    destruct (negb _); simpl; eexists; reflexivity.
Qed.

Lemma validated_headed l : validate_code l = true -> headed l.
Proof.
  intros H. apply Decoding.validate_code_shape in H.
  destruct H as (a & b & -> & Ha & _).
  destruct a as [|x [|y a]]; try discriminate. exact I.
Qed.

(** The inner loop returns, having left the state alone and gone no
    further than the end of the program. *)
Lemma skip_inner_end lines fuel :
  forall line li st,
    Forall headed lines -> headed line ->
    (length lines - li < fuel)%nat ->
    exists l' j, skip_inner fuel lines line li st = (Ok (l', j), st)
                 /\ headed l' /\ (li <= j <= Nat.max li (length lines))%nat.
Proof.
  induction fuel as [|fuel IH]; intros line li st Hall Hl Hf; [lia|].
  simpl. destruct (skip_cond_headed line st Hl) as (c & Hc).
  rewrite (bind_ok _ _ _ _ _ Hc). destruct c.
  - destruct (length lines <=? li)%nat eqn:E.
    + exists line, li. repeat split; auto; lia.
    + apply Nat.leb_gt in E.
      destruct (nth_error lines li) as [l|] eqn:En;
        [|apply nth_error_None in En; lia].
      rewrite (bind_ok _ _ _ _ _ (fetch_ok _ _ _ _ En)).
      assert (Hh : headed l).
      { rewrite Forall_forall in Hall. eapply Hall, nth_error_In, En. }
      destruct (IH l (li + 1)%nat st Hall Hh ltac:(lia)) as (l' & j & Hr & Hh' & Hj).
      exists l', j. repeat split; auto; lia.
  - exists line, li. repeat split; auto; lia.
Qed.

(** The outer loop runs the index to the end of the program. *)
Lemma skip_outer_end lines fuel :
  forall line li st,
    Forall headed lines -> headed line ->
    (length lines - li < fuel)%nat ->
    skip_outer fuel lines line li st
    = (Ok (Nat.max li (length lines)), st).
Proof.
  induction fuel as [|fuel IH]; intros line li st Hall Hl Hf; [lia|].
  rewrite Termination.skip_outer_S.
  destruct (li <? length lines)%nat eqn:E.
  - apply Nat.ltb_lt in E.
    destruct (skip_inner_end lines (S (length lines)) line (li + 1)%nat st
                Hall Hl ltac:(lia)) as (l' & j & Hr & Hh & Hj).
    rewrite (bind_ok _ _ _ _ _ Hr).
    rewrite IH by (auto; lia). do 2 f_equal. lia.
  - apply Nat.ltb_ge in E. unfold ret. do 2 f_equal. lia.
Qed.

Lemma not_found_outcome lines line li st :
  Forall headed lines -> headed line ->
  (pointer st < 0 ->
   not_found lines line li st
   = (Ok (Nat.max li (length lines)),
      mkState (data st) 0 (end_pointer st) (ptr st)))
  /\ (0 <= pointer st -> not_found lines line li st = (Ok li, st)).
Proof.
  intros Hall Hl. unfold not_found, bind, get_pointer. split; intros Hp.
  - replace (pointer st <? 0) with true by (symmetry; apply Z.ltb_lt; lia).
    rewrite skip_outer_end by (auto; lia). reflexivity.
  - replace (pointer st <? 0) with false by (symmetry; apply Z.ltb_ge; lia).
    reflexivity.
Qed.

(** X16. In a validated program, a search that has left a negative pointer
    skips every remaining line: the index goes to the end of the program
    (or stays where it is, if already past it), the pointer is reset to 0,
    the buffer and the other registers are untouched, nothing is raised.
    With a pointer that is not negative nothing happens. *)
Theorem failed_search_ends_program lines line li st :
  valid_program lines -> validate_code line = true ->
  (pointer st < 0 ->
   not_found lines line li st
   = (Ok (Nat.max li (length lines)),
      mkState (data st) 0 (end_pointer st) (ptr st)))
  /\ (0 <= pointer st -> not_found lines line li st = (Ok li, st)).
Proof.
  intros Hall Hl. apply not_found_outcome.
  - eapply Forall_impl; [|exact Hall]. apply validated_headed.
  - now apply validated_headed.
Qed.

End FailedSearch.

(* ================================================================= *)
(** ** Writes inside the buffer *)

Module Writes.
Import Py Codec QuickCodes Spec PyFacts Stepping Arithmetic Fields Splice.
Local Open Scope Z_scope.
Local Open Scope qc_scope.

(** Opcodes 0, 1 and 2 on a line whose fields decode: one slice
    assignment. *)
Lemma op_write_decoded line st c0 t off v :
  String.get 0 line = Some c0 ->
  String.get 1 line = Some t ->
  of_hex (str_slice line 2 8) = Some off ->
  of_hex (str_slice line 9 17) = Some v ->
  let n := uint8 (Z.shiftl 1 (ord c0 - 48)) in
  let w := if Ascii.eqb t "8" then int32 (int32 off + pointer st)
           else int32 off in
  op_write line st
  = (Ok tt,
     mkState (Py.set_slice (data st) w (w + n)
                (Py.slice (as_bytes little 4 (uint32 v)) (4 - n) (4 - n + n)))
             (pointer st) (end_pointer st) (ptr st)).
Proof.
  intros H0 H1 Hoff Hv n w. unfold op_write.
  rewrite (bind_ok _ _ _ _ _ (char_at_ok _ _ _ _ H0)).
  rewrite (bind_ok _ _ _ _ _ (hex_ok _ _ _ Hoff)).
  rewrite (bind_ok _ _ _ _ _ (char_at_ok _ _ _ _ H1)).
  unfold bind at 1, get_pointer.
  rewrite (bind_ok _ _ _ _ _ (hex_ok _ _ _ Hv)).
  reflexivity.
Qed.

Lemma write_width c0 :
  among c0 ["0"; "1"; "2"]%char = true ->
  0 <= uint8 (Z.shiftl 1 (ord c0 - 48)) <= 4.
Proof.
  intros H. apply among_cases in H. simpl in H.
  destruct H as [<-|[<-|[<-|[]]]]; vm_compute; split; discriminate.
Qed.

(** X6. Opcodes 0, 1 and 2 at an address where the 1, 2 or 4 bytes lie inside
    the buffer: the handler returns; the buffer keeps its length; the
    bytes before and after the addressed range are unchanged; the
    registers are unchanged; executing the same line again changes
    nothing more. *)
Theorem write_in_range line st c0 t off v :
  String.get 0 line = Some c0 ->
  among c0 ["0"; "1"; "2"]%char = true ->
  String.get 1 line = Some t ->
  of_hex (str_slice line 2 8) = Some off ->
  of_hex (str_slice line 9 17) = Some v ->
  let n := uint8 (Z.shiftl 1 (ord c0 - 48)) in
  let w := if Ascii.eqb t "8" then int32 (int32 off + pointer st)
           else int32 off in
  0 <= w -> w + n <= Py.len (data st) ->
  exists st',
    op_write line st = (Ok tt, st')
    /\ Py.len (data st') = Py.len (data st)
    /\ firstn (Z.to_nat w) (data st') = firstn (Z.to_nat w) (data st)
    /\ skipn (Z.to_nat (w + n)) (data st') = skipn (Z.to_nat (w + n)) (data st)
    /\ pointer st' = pointer st /\ end_pointer st' = end_pointer st
    /\ ptr st' = ptr st
    /\ op_write line st' = (Ok tt, st').
Proof.
  intros H0 Hc H1 Hoff Hv n w Hw Hl.
  pose proof (write_width c0 Hc) as Hn. fold n in Hn.
  set (bs := Py.slice (as_bytes little 4 (uint32 v)) (4 - n) (4 - n + n)).
  assert (Hbs : Py.len bs = n).
  { unfold bs. apply slice_length_in_range; try lia.
    change (Py.len (as_bytes little 4 (uint32 v))) with 4. lia. }
  eexists. split; [apply (op_write_decoded _ _ _ _ _ _ H0 H1 Hoff Hv)|].
  fold n w bs. cbn [data pointer end_pointer ptr].
  rewrite <- Hbs in *.
  repeat split.
  - apply set_slice_in_range_length; assumption.
  - apply splice_firstn; assumption.
  - apply splice_skipn; assumption.
  - rewrite (op_write_decoded _ _ _ _ _ _ H0 H1 Hoff Hv).
    cbn [data pointer end_pointer ptr]. fold n w bs. rewrite <- Hbs.
    now rewrite splice_twice.
Qed.

(** X11. Opcode 5 with source and destination ranges inside the buffer: the
    handler consumes the line that follows, the buffer keeps its length,
    the destination range holds what the source range held before the
    copy (also when the ranges overlap), the bytes outside the
    destination range and the registers are unchanged. *)
Theorem copy_in_range lines li line line2 st t t2 a n b :
  String.get 1 line = Some t ->
  of_hex (str_slice line 2 8) = Some a ->
  of_hex (str_slice line 9 17) = Some n ->
  nth_error lines (li + 1) = Some line2 ->
  String.get 1 line2 = Some t2 ->
  of_hex (str_slice line2 2 8) = Some b ->
  let cnt := uint32 n in
  let src := if Ascii.eqb t "8" then int32 a + pointer st else int32 a in
  let dst := if Ascii.eqb t2 "8" then int32 b + pointer st else int32 b in
  0 <= src -> src + cnt <= Py.len (data st) ->
  0 <= dst -> dst + cnt <= Py.len (data st) ->
  exists st',
    op_copy lines li line st = (Ok (li + 1)%nat, st')
    /\ Py.len (data st') = Py.len (data st)
    /\ Py.slice (data st') dst (dst + cnt) = Py.slice (data st) src (src + cnt)
    /\ firstn (Z.to_nat dst) (data st') = firstn (Z.to_nat dst) (data st)
    /\ skipn (Z.to_nat (dst + cnt)) (data st')
       = skipn (Z.to_nat (dst + cnt)) (data st)
    /\ pointer st' = pointer st /\ end_pointer st' = end_pointer st
    /\ ptr st' = ptr st.
Proof.
  intros Ht Ha Hn Hl2 Ht2 Hb cnt src dst Hs1 Hs2 Hd1 Hd2.
  assert (Hcnt : 0 <= cnt) by (apply Z.mod_pos_bound; reflexivity).
  set (bs := Py.slice (data st) src (src + cnt)).
  assert (Hbs : Py.len bs = cnt) by (apply slice_length_in_range; lia).
  exists (mkState (Py.set_slice (data st) dst (dst + cnt) bs)
                  (pointer st) (end_pointer st) (ptr st)).
  split.
  - unfold op_copy.
    rewrite (bind_ok _ _ _ _ _ (hex_ok _ _ _ Ha)).
    rewrite (bind_ok _ _ _ _ _ (hex_ok _ _ _ Hn)).
    rewrite (bind_ok _ _ _ _ _ (char_at_ok _ _ _ _ Ht)).
    unfold bind at 1, get_pointer.
    rewrite (bind_ok _ _ _ _ _ (fetch_ok _ _ _ _ Hl2)).
    rewrite (bind_ok _ _ _ _ _ (hex_ok _ _ _ Hb)).
    rewrite (bind_ok _ _ _ _ _ (char_at_ok _ _ _ _ Ht2)).
    reflexivity.
  - cbn [data pointer end_pointer ptr]. rewrite <- Hbs.
    repeat split.
    + apply set_slice_in_range_length; rewrite ?Hbs; assumption.
    + apply slice_set_slice; rewrite ?Hbs; assumption.
    + apply splice_firstn; rewrite ?Hbs; assumption.
    + apply splice_skipn; rewrite ?Hbs; assumption.
Qed.

(** X10. Opcodes 4 and 5 on the last line of a program: the line that must
    follow is missing, the handler raises [IndexError] and has changed
    nothing. *)
Theorem missing_continuation_raises lines li line st t off v :
  String.get 1 line = Some t ->
  of_hex (str_slice line 2 8) = Some off ->
  of_hex (str_slice line 9 17) = Some v ->
  nth_error lines (li + 1) = None ->
  op_fill lines li line st = (Raise (Exn IndexError), st)
  /\ op_copy lines li line st = (Raise (Exn IndexError), st).
Proof.
  intros Ht Hoff Hv Hnone. split.
  - unfold op_fill.
    rewrite (bind_ok _ _ _ _ _ (char_at_ok _ _ _ _ Ht)).
    rewrite (bind_ok _ _ _ _ _ (resolve_ok _ _ _ _ _ Hoff)).
    rewrite (bind_ok _ _ _ _ _ (hex_ok _ _ _ Hv)).
    now rewrite (bind_raise _ _ _ _ _ (fetch_none _ _ _ Hnone)).
  - unfold op_copy.
    rewrite (bind_ok _ _ _ _ _ (hex_ok _ _ _ Hoff)).
    rewrite (bind_ok _ _ _ _ _ (hex_ok _ _ _ Hv)).
    rewrite (bind_ok _ _ _ _ _ (char_at_ok _ _ _ _ Ht)).
    unfold bind at 1, get_pointer.
    now rewrite (bind_raise _ _ _ _ _ (fetch_none _ _ _ Hnone)).
Qed.

(** In a validated program, [n] rounds of continuation words consume
    [n] lines and keep the length of the buffer under construction. *)
Lemma words_loop_consumes lines limit n :
  forall q buf line li st,
    valid_program lines ->
    (li + n < length lines)%nat ->
    n = range8 (4 * q) limit -> 0 <= q ->
    Py.len buf = 4 * ((limit + 3) / 4) ->
    exists buf' l',
      words_loop lines limit n (4 * q) buf line li st
      = (Ok (buf', l', (li + n)%nat), st)
      /\ Py.len buf' = Py.len buf.
Proof.
  induction n as [|n IH]; intros q buf line li st Hall Hlen Hn Hq Hbuf.
  - exists buf, line. rewrite Nat.add_0_r. split; reflexivity.
  - cbn [words_loop].
    destruct (nth_error lines (li + 1)) as [l|] eqn:E;
      [|apply nth_error_None in E; lia].
    rewrite (bind_ok _ _ _ _ _ (fetch_ok _ _ _ _ E)).
    assert (Hv : validate_code l = true).
    { unfold valid_program in Hall. rewrite Forall_forall in Hall.
      eapply Hall, nth_error_In, E. }
    destruct (validated_field l 0 8 Hv ltac:(simpl; tauto))
      as (v1 & H1 & _).
    destruct (validated_field l 9 17 Hv ltac:(simpl; tauto))
      as (v2 & H2 & _).
    rewrite (bind_ok _ _ _ _ _ (hex_ok _ _ _ H1)).
    rewrite (bind_ok _ _ _ _ _ (hex_ok _ _ _ H2)).
    assert (Hlim : 4 * q < limit).
    { unfold range8 in Hn.
      assert (0 < (limit - 4 * q + 7) / 8) by lia.
      destruct (Z_lt_le_dec (4 * q) limit) as [?|Hge]; [assumption|].
      assert ((limit - 4 * q + 7) / 8 < 1)
        by (apply Z.div_lt_upper_bound; lia). lia. }
    assert (Hq1 : q + 1 <= (limit + 3) / 4)
      by (apply Z.div_le_lower_bound; lia).
    set (buf1 := Py.set_slice buf (4 * q) (4 * q + 4) _).
    assert (Hb1 : Py.len buf1 = Py.len buf)
      by (apply set_slice_4_length; [reflexivity | lia | lia]).
    set (buf2 := if 4 * q + 4 <? limit then _ else buf1).
    assert (Hb2 : Py.len buf2 = Py.len buf).
    { unfold buf2. destruct (4 * q + 4 <? limit) eqn:E2; [|exact Hb1].
      apply Z.ltb_lt in E2.
      assert (q + 2 <= (limit + 3) / 4)
        by (apply Z.div_le_lower_bound; lia).
      rewrite set_slice_4_length; [exact Hb1 | reflexivity | lia | lia]. }
    replace (4 * q + 8) with (4 * (q + 2)) by lia.
    destruct (IH (q + 2) buf2 l (li + 1)%nat st Hall ltac:(lia))
      as (buf' & l' & Hr & Hl'); try lia.
    + unfold range8 in *.
      replace (limit - 4 * (q + 2) + 7) with (limit - 4 * q + 7 + (-1) * 8) by lia.
      rewrite Z.div_add by lia. lia.
    + exists buf', l'. split; [|lia].
      rewrite Hr. do 3 f_equal. lia.
Qed.

(** They raise [IndexError] when the program ends first. *)
Lemma words_loop_short lines limit n :
  forall i buf line li st,
    valid_program lines ->
    (length lines <= li + n)%nat -> (0 < n)%nat ->
    words_loop lines limit n i buf line li st = (Raise (Exn IndexError), st).
Proof.
  induction n as [|n IH]; intros i buf line li st Hall Hlen Hn; [lia|].
  cbn [words_loop].
  destruct (nth_error lines (li + 1)) as [l|] eqn:E.
  - rewrite (bind_ok _ _ _ _ _ (fetch_ok _ _ _ _ E)).
    assert (Hv : validate_code l = true).
    { unfold valid_program in Hall. rewrite Forall_forall in Hall.
      eapply Hall, nth_error_In, E. }
    destruct (validated_field l 0 8 Hv ltac:(simpl; tauto))
      as (v1 & H1 & _).
    destruct (validated_field l 9 17 Hv ltac:(simpl; tauto))
      as (v2 & H2 & _).
    rewrite (bind_ok _ _ _ _ _ (hex_ok _ _ _ H1)).
    rewrite (bind_ok _ _ _ _ _ (hex_ok _ _ _ H2)).
    apply IH; auto; [lia|].
    destruct n; [|lia].
    assert (li + 1 < length lines)%nat
      by (apply nth_error_Some; congruence). lia.
  - now rewrite (bind_raise _ _ _ _ _ (fetch_none _ _ _ E)).
Qed.

(** X19. Opcode A on a validated program, [k] being the number of lines its
    size calls for (one per eight bytes).  If the [k] lines exist and the
    target range lies inside the buffer, the handler consumes exactly
    those lines, the buffer keeps its length, the bytes outside the
    target range and the registers are unchanged.  If the program ends
    before, the handler raises [IndexError] and has changed nothing. *)
Theorem raw_write_in_range lines li line st t off v :
  valid_program lines ->
  String.get 1 line = Some t ->
  of_hex (str_slice line 2 8) = Some off ->
  of_hex (str_slice line 9 17) = Some v ->
  let size := uint32 v in
  let k := range8 0 size in
  let w := if among t ["8"%char] then int32 (int32 off + pointer st)
           else int32 off in
  ((li + k < length lines)%nat ->
   0 <= w -> w + size <= Py.len (data st) ->
   exists st',
     op_raw lines li line st = (Ok (li + k)%nat, st')
     /\ Py.len (data st') = Py.len (data st)
     /\ firstn (Z.to_nat w) (data st') = firstn (Z.to_nat w) (data st)
     /\ skipn (Z.to_nat (w + size)) (data st')
        = skipn (Z.to_nat (w + size)) (data st)
     /\ pointer st' = pointer st /\ end_pointer st' = end_pointer st
     /\ ptr st' = ptr st)
  /\ ((length lines <= li + k)%nat -> (0 < k)%nat ->
      op_raw lines li line st = (Raise (Exn IndexError), st)).
Proof.
  intros Hall Ht Hoff Hv size k w.
  assert (Hsize : 0 <= size) by (apply Z.mod_pos_bound; reflexivity).
  assert (Hop : op_raw lines li line st
                = bind (words_loop lines size k 0
                          (zeros (Z.land (size + 3) (Z.lnot 3))) line li)
                       (fun r => let '(wr, _, j) := r in
                          bind (data_set_slice w (w + size)
                                  (Py.slice wr 0 size))
                               (fun _ => ret j)) st).
  { unfold op_raw.
    rewrite (bind_ok _ _ _ _ _ (char_at_ok _ _ _ _ Ht)).
    rewrite (bind_ok _ _ _ _ _ (resolve_ok _ _ _ _ _ Hoff)).
    rewrite (bind_ok _ _ _ _ _ (hex_ok _ _ _ Hv)).
    reflexivity. }
  rewrite Hop. split.
  - intros Hk Hw Hl.
    destruct (words_loop_consumes lines size k 0
                (zeros (Z.land (size + 3) (Z.lnot 3))) line li st Hall Hk
                eq_refl ltac:(lia))
      as (wr & l' & Hr & Hlen).
    { rewrite zeros_len; rewrite round_up_4 by lia; [reflexivity|].
      assert (0 <= (size + 3) / 4) by (apply Z.div_pos; lia). lia. }
    change (4 * 0) with 0 in Hr.
    rewrite (bind_ok _ _ _ _ _ Hr).
    set (bs := Py.slice wr 0 size).
    assert (Hbs : Py.len bs = size).
    { unfold bs. change size with (0 + size) at 1.
      apply slice_length_in_range; try lia.
      rewrite Hlen, zeros_len; rewrite round_up_4 by lia.
      - pose proof (Z.div_mod (size + 3) 4 ltac:(lia)).
        pose proof (Z.mod_pos_bound (size + 3) 4 ltac:(lia)). lia.
      - assert (0 <= (size + 3) / 4) by (apply Z.div_pos; lia). lia. }
    eexists. split; [reflexivity|].
    cbn [data pointer end_pointer ptr]. rewrite <- Hbs.
    repeat split.
    + apply set_slice_in_range_length; rewrite ?Hbs; assumption.
    + apply splice_firstn; rewrite ?Hbs; assumption.
    + apply splice_skipn; rewrite ?Hbs; assumption.
  - intros Hk Hpos.
    now rewrite (bind_raise _ _ _ _ _
                   (words_loop_short lines size k 0 _ line li st Hall Hk Hpos)).
Qed.

(** The loop of opcode 4 for the 8-bit subtype [0], with a positive
    stride and every target inside the buffer: write [k] puts the low
    byte of [val + k * incval] at [base + stride * (i + k)]; every other
    byte is unchanged. *)
Lemma fill_loop_bytes base stride incval n :
  forall i val st,
    0 < stride -> 0 <= i -> 0 <= base ->
    (0 < n)%nat -> base + stride * (i + Z.of_nat n - 1) < Py.len (data st) ->
    exists st',
      fill_loop "0" base stride incval n i val st = (Ok tt, st')
      /\ Py.len (data st') = Py.len (data st)
      /\ pointer st' = pointer st /\ end_pointer st' = end_pointer st
      /\ ptr st' = ptr st
      /\ (forall k, (k < n)%nat ->
            nth_error (data st')
                      (Z.to_nat (base + stride * (i + Z.of_nat k)))
            = Some (z2b (val + Z.of_nat k * incval)))
      /\ (forall j, (forall k, (k < n)%nat ->
                       j <> Z.to_nat (base + stride * (i + Z.of_nat k))) ->
            nth_error (data st') j = nth_error (data st) j).
Proof.
  induction n as [|n IH]; intros i val st Hs Hi Hb Hn Hl; [lia|].
  cbn [fill_loop].
  change (among "0" ["0"%char; "8"%char; "4"%char; "C"%char]) with true.
  cbv iota.
  assert (Hw : 0 <= base + stride * i < Py.len (data st)) by nia.
  assert (Hu : 0 <= uint8 val < 256) by (apply Z.mod_pos_bound; reflexivity).
  rewrite (bind_ok _ _ _ _ _ (data_set_in_range _ _ _ Hw Hu)).
  set (st1 := mkState _ _ _ _).
  assert (Hlen1 : Py.len (data st1) = Py.len (data st)).
  { unfold st1, Py.len. cbn [data]. now rewrite update_length. }
  assert (Hbyte : z2b (uint8 val) = z2b val).
  { apply z2b_mod; [exists 1; reflexivity | reflexivity]. }
  destruct n as [|n].
  - exists st1. cbn [fill_loop]. split; [reflexivity|].
    split; [exact Hlen1|]. repeat split; try reflexivity.
    + intros k Hk. assert (k = 0%nat) by lia. subst k.
      unfold st1. cbn [data]. rewrite Z.add_0_r, Z.mul_0_l, Z.add_0_r.
      rewrite update_nth, Hbyte; [reflexivity|]. unfold Py.len in Hw. lia.
    + intros j Hj. unfold st1. cbn [data]. apply update_other.
      specialize (Hj 0%nat ltac:(lia)). rewrite Z.add_0_r in Hj. congruence.
  - destruct (IH (i + 1) (uint32 (val + incval)) st1 Hs ltac:(lia) Hb
                ltac:(lia)) as (st' & Hr & Hlen & Hp & He & Hq & Hset & Hoth).
    { rewrite Hlen1. replace (i + 1 + Z.of_nat (S n) - 1)
        with (i + Z.of_nat (S (S n)) - 1) by lia. exact Hl. }
    exists st'. split; [exact Hr|]. split; [lia|].
    split; [exact Hp|]. split; [exact He|]. split; [exact Hq|]. split.
    + intros k Hk. destruct k as [|k].
      * rewrite Hoth.
        -- unfold st1. cbn [data]. rewrite Z.add_0_r, Z.mul_0_l, Z.add_0_r.
           rewrite update_nth, Hbyte; [reflexivity|].
           unfold Py.len in Hw. lia.
        -- intros k' Hk'. simpl Z.of_nat. nia.
      * replace (i + Z.of_nat (S k)) with (i + 1 + Z.of_nat k) by lia.
        rewrite Hset by lia. f_equal.
        rewrite <- (z2b_mod _ (2 ^ 32)) by (try (exists (2 ^ 24); reflexivity); reflexivity).
        rewrite <- (z2b_mod (val + _) (2 ^ 32)) by (try (exists (2 ^ 24); reflexivity); reflexivity).
        f_equal. unfold uint32, uint.
        rewrite Zplus_mod_idemp_l. f_equal. lia.
    + intros j Hj. rewrite Hoth.
      * unfold st1. cbn [data]. apply update_other.
        specialize (Hj 0%nat ltac:(lia)). rewrite Z.add_0_r in Hj. congruence.
      * intros k Hk. specialize (Hj (S k) ltac:(lia)).
        replace (i + 1 + Z.of_nat k) with (i + Z.of_nat (S k)) by lia.
        exact Hj.
Qed.

(** X9. Opcode 4, subtype [0] (8-bit, absolute), with a positive address
    increment and every target inside the buffer: the handler consumes
    the line that follows; for each [k] below the count, the byte at
    [base + stride * k] is the low byte of [value + k * increment]; every
    other byte, the length of the buffer and the registers are
    unchanged. *)
Theorem fill_bytes lines li line line2 st off v n incoff incval :
  String.get 1 line = Some "0"%char ->
  of_hex (str_slice line 2 8) = Some off ->
  of_hex (str_slice line 9 17) = Some v ->
  nth_error lines (li + 1) = Some line2 ->
  of_hex (str_slice line2 1 4) = Some n ->
  of_hex (str_slice line2 4 8) = Some incoff ->
  of_hex (str_slice line2 9 17) = Some incval ->
  let cnt := Z.to_nat (int32 n) in
  let stride := int32 incoff in
  let base := int32 off in
  0 < stride -> 0 <= base -> (0 < cnt)%nat ->
  base + stride * (Z.of_nat cnt - 1) < Py.len (data st) ->
  exists st',
    op_fill lines li line st = (Ok (li + 1)%nat, st')
    /\ Py.len (data st') = Py.len (data st)
    /\ pointer st' = pointer st /\ end_pointer st' = end_pointer st
    /\ ptr st' = ptr st
    /\ (forall k, (k < cnt)%nat ->
          nth_error (data st') (Z.to_nat (base + stride * Z.of_nat k))
          = Some (z2b (uint32 v + Z.of_nat k * uint32 incval)))
    /\ (forall j, (forall k, (k < cnt)%nat ->
                     j <> Z.to_nat (base + stride * Z.of_nat k)) ->
          nth_error (data st') j = nth_error (data st) j).
Proof.
  intros Ht Hoff Hv Hl2 Hn Hio Hiv cnt stride base Hs Hb Hc Hr.
  destruct (fill_loop_bytes base stride (uint32 incval) cnt 0 (uint32 v) st
              Hs ltac:(lia) Hb Hc)
    as (st' & Hrun & Hlen & Hp & He & Hq & Hset & Hoth).
  { replace (0 + Z.of_nat cnt - 1) with (Z.of_nat cnt - 1) by lia. exact Hr. }
  exists st'. split.
  - unfold op_fill.
    rewrite (bind_ok _ _ _ _ _ (char_at_ok _ _ _ _ Ht)).
    rewrite (bind_ok _ _ _ _ _ (resolve_ok _ _ _ _ _ Hoff)).
    rewrite (bind_ok _ _ _ _ _ (hex_ok _ _ _ Hv)).
    rewrite (bind_ok _ _ _ _ _ (fetch_ok _ _ _ _ Hl2)).
    change (among "0" ["4"; "5"; "6"; "C"; "D"; "E"]%char) with false.
    change (among "0" ["8"; "9"; "A"; "C"; "D"; "E"]%char) with false.
    cbv iota.
    rewrite (bind_ok _ _ _ _ _ (hex_ok _ _ _ Hn)).
    rewrite (bind_ok _ _ _ _ _ (hex_ok _ _ _ Hio)).
    rewrite (bind_ok _ _ _ _ _ (hex_ok _ _ _ Hiv)).
    fold cnt stride base.
    now rewrite (bind_ok _ _ _ _ _ Hrun).
  - repeat split; assumption.
Qed.

End Writes.

(* ================================================================= *)
(** ** Opcode 7 *)

Module Clamp.
Import Py Codec QuickCodes Spec PyFacts Stepping Arithmetic Splice.
Local Open Scope Z_scope.
Local Open Scope qc_scope.

(** Read, compute, write through a little-endian integer of [n] bytes,
    inside the buffer: the field then holds the new value modulo
    [2^(8n)]; length and registers are kept. *)
Lemma rmw_field (bits : Z) (n : nat) (g : Z -> Z) w st :
  bits = 8 * Z.of_nat n -> 0 <= w -> w + Z.of_nat n <= Py.len (data st) ->
  let old := from_bytes little (Py.slice (data st) w (w + Z.of_nat n)) in
  exists st',
    (wv <- load bits (Z.of_nat n) w ;; store n w (g wv)) st = (Ok tt, st')
    /\ load bits (Z.of_nat n) w st' = (Ok (g old mod 2 ^ bits), st')
    /\ Py.len (data st') = Py.len (data st)
    /\ pointer st' = pointer st /\ end_pointer st' = end_pointer st
    /\ ptr st' = ptr st.
Proof.
  intros Hb Hw Hl old.
  assert (Hpow : 2 ^ bits = 256 ^ Z.of_nat n).
  { subst bits. rewrite Z.pow_mul_r by lia. reflexivity. }
  clear Hb.
  assert (Hold : uint bits old = old).
  { unfold uint, old, from_bytes. apply Z.mod_small. rewrite Hpow.
    pose proof (le_value_range (Py.slice (data st) w (w + Z.of_nat n))) as R.
    now rewrite slice_length_in_range in R by lia. }
  destruct st as [d p e r]. cbn [data pointer end_pointer ptr] in *.
  assert (Hn : Py.len (le_bytes n (g old)) = Z.of_nat n)
    by (unfold Py.len; now rewrite le_bytes_length).
  eexists. split; [|split].
  - unfold load, store, data_slice, data_set_slice, bind, get_data, put_data, ret.
    cbn [data pointer end_pointer ptr]. fold old. rewrite Hold. reflexivity.
  - unfold load, data_slice, bind, get_data, ret. cbn [data].
    unfold as_bytes. rewrite <- Hn at 1 2 3 4.
    rewrite slice_set_slice by (rewrite ?Hn; assumption).
    unfold from_bytes. rewrite le_value_le_bytes, <- Hpow.
    unfold uint. now rewrite !Zmod_mod.
  - cbn [data pointer end_pointer ptr]. repeat split.
    unfold as_bytes. rewrite <- Hn at 1.
    apply set_slice_in_range_length; rewrite ?Hn; assumption.
Qed.

Lemma clamp_subtype_cases t n more :
  clamp_subtype t = Some (n, more) ->
  In (t, n, more)
     [("1", 2, false); ("9", 2, false); ("2", 4, false); ("A", 4, false);
      ("5", 2, true); ("D", 2, true); ("6", 4, true); ("E", 4, true)]%char%nat.
Proof.
  unfold clamp_subtype. intros H.
  repeat match type of H with
         | (if among t ?cs then _ else _) = _ =>
             destruct (among t cs) eqn:E;
             [apply among_cases in E; simpl in E; inversion H; subst;
              intuition (subst; simpl; tauto)
             | clear E]
         end.
  discriminate.
Qed.

Lemma delta_of_range n v :
  (n = 2 \/ n = 4)%nat -> 0 <= delta_of n (uint32 v) < 2 ^ (8 * Z.of_nat n).
Proof.
  intros [->| ->]; unfold delta_of; simpl Nat.eqb; cbv iota.
  - change 65535 with (Z.ones 16). change (8 * Z.of_nat 2) with 16.
    apply land_mask_range. lia.
  - unfold uint32, uint. apply Z.mod_pos_bound. reflexivity.
Qed.

(** X13. The 16- and 32-bit subtypes of opcode 7, the field inside the
    buffer: afterwards the field holds the larger of its old value and
    the literal ("no less than", subtypes 1, 2, 9, A) or the smaller
    ("no more than", subtypes 5, 6, D, E); the buffer keeps its length
    and the registers their values. *)
Theorem clamp_wide line st t off v n more :
  String.get 1 line = Some t ->
  of_hex (str_slice line 2 8) = Some off ->
  of_hex (str_slice line 9 17) = Some v ->
  clamp_subtype t = Some (n, more) ->
  let w := if among t ["8"; "9"; "A"; "C"; "D"; "E"]%char
           then int32 (int32 off + pointer st) else int32 off in
  let bits := 8 * Z.of_nat n in
  let old := from_bytes little (Py.slice (data st) w (w + Z.of_nat n)) in
  let lit := delta_of n (uint32 v) in
  0 <= w -> w + Z.of_nat n <= Py.len (data st) ->
  exists st',
    op_clamp line st = (Ok tt, st')
    /\ load bits (Z.of_nat n) w st'
       = (Ok (if more then Z.min old lit else Z.max old lit), st')
    /\ Py.len (data st') = Py.len (data st)
    /\ pointer st' = pointer st /\ end_pointer st' = end_pointer st
    /\ ptr st' = ptr st.
Proof.
  intros Ht Hoff Hv Hk w bits old lit Hw Hl.
  assert (Hn : (n = 2 \/ n = 4)%nat).
  { apply clamp_subtype_cases in Hk. simpl in Hk.
    repeat (destruct Hk as [Hk|Hk]; [inversion Hk; auto|]). contradiction. }
  pose proof (delta_of_range n v Hn) as Hlit. fold lit bits in Hlit.
  assert (Hold : 0 <= old < 2 ^ bits).
  { unfold old, from_bytes, bits.
    pose proof (le_value_range (Py.slice (data st) w (w + Z.of_nat n))) as R.
    rewrite slice_length_in_range in R by lia.
    rewrite Z.pow_mul_r by lia. exact R. }
  destruct (rmw_field bits n
              (fun wv => if more
                         then (if lit <? wv then uint bits lit else wv)
                         else (if wv <? lit then uint bits lit else wv))
              w st eq_refl Hw Hl) as (st' & H1 & H2 & H3 & H4).
  exists st'. split; [|split; [|split; assumption]].
  - unfold op_clamp.
    rewrite (bind_ok _ _ _ _ _ (char_at_ok _ _ _ _ Ht)).
    rewrite (bind_ok _ _ _ _ _ (resolve_ok _ _ _ _ _ Hoff)).
    rewrite (bind_ok _ _ _ _ _ (hex_ok _ _ _ Hv)).
    fold w.
    apply clamp_subtype_cases in Hk. simpl in Hk.
    repeat (destruct Hk as [Hk|Hk];
            [inversion Hk; subst t n more; clear Hk|]); [..|contradiction].
    all: cbv [among existsb Ascii.eqb Bool.eqb orb]; cbv iota; exact H1.
  - rewrite H2. do 2 f_equal. fold old.
    assert (Hu : uint bits lit = lit) by (apply Z.mod_small; exact Hlit).
    rewrite Hu.
    destruct more.
    + destruct (lit <? old) eqn:E;
        [apply Z.ltb_lt in E | apply Z.ltb_ge in E];
        rewrite Z.mod_small by lia; lia.
    + destruct (old <? lit) eqn:E;
        [apply Z.ltb_lt in E | apply Z.ltb_ge in E];
        rewrite Z.mod_small by lia; lia.
Qed.

(** X14. The 8-bit subtypes of opcode 7, at an address that indexes the
    buffer: the handler returns (unlike opcode 3, it cannot leave the
    byte range), the byte becomes the larger of the old byte and the
    literal (subtypes 0, 8) or the smaller (subtypes 4, C), and when that
    is the old byte nothing has changed. *)
Theorem clamp_byte line st t off v j b :
  String.get 1 line = Some t ->
  among t ["0"; "8"; "4"; "C"]%char = true ->
  of_hex (str_slice line 2 8) = Some off ->
  of_hex (str_slice line 9 17) = Some v ->
  let w := if among t ["8"; "9"; "A"; "C"; "D"; "E"]%char
           then int32 (int32 off + pointer st) else int32 off in
  Py.index (data st) w = Some j ->
  nth_error (data st) j = Some b ->
  let lit := Z.land (uint32 v) 255 in
  let r := if among t ["4"; "C"]%char then Z.min (b2z b) lit
           else Z.max (b2z b) lit in
  op_clamp line st
  = (Ok tt, mkState (Py.update (data st) j (z2b r))
                    (pointer st) (end_pointer st) (ptr st))
  /\ (r = b2z b -> op_clamp line st = (Ok tt, st)).
Proof.
  intros Ht Hk Hoff Hv w Hj Hb lit r.
  assert (Hlit : 0 <= lit < 256).
  { unfold lit. change 255 with (Z.ones 8). apply land_mask_range. lia. }
  pose proof (b2z_range b) as Hbr.
  assert (Hget : data_get w st = (Ok (b2z b), st)).
  { unfold data_get, bind, get_data, Py.get. now rewrite Hj, Hb. }
  assert (Hset : forall x, 0 <= x < 256 ->
                 data_set w x st
                 = (Ok tt, mkState (Py.update (data st) j (z2b x))
                                   (pointer st) (end_pointer st) (ptr st))).
  { intros x Hx. unfold data_set, bind, get_data. rewrite Hj. simpl.
    replace (0 <=? x) with true by (symmetry; apply Z.leb_le; lia).
    replace (x <? 256) with true by (symmetry; apply Z.ltb_lt; lia).
    reflexivity. }
  assert (Hr : 0 <= r < 256) by (unfold r; destruct (among t ["4"; "C"]%char); lia).
  assert (Hmain : op_clamp line st
                  = (Ok tt, mkState (Py.update (data st) j (z2b r))
                                    (pointer st) (end_pointer st) (ptr st))).
  { rewrite <- (Hset r Hr). unfold op_clamp.
    rewrite (bind_ok _ _ _ _ _ (char_at_ok _ _ _ _ Ht)).
    rewrite (bind_ok _ _ _ _ _ (resolve_ok _ _ _ _ _ Hoff)).
    rewrite (bind_ok _ _ _ _ _ (hex_ok _ _ _ Hv)).
    fold w lit. subst r.
    apply among_cases in Hk. simpl in Hk.
    repeat (destruct Hk as [Hk|Hk]; [subst t|]); [..|contradiction].
    all: cbv [among existsb Ascii.eqb Bool.eqb orb]; cbv iota.
    all: rewrite (bind_ok _ _ _ _ _ Hget); f_equal.
    all: match goal with
         | |- (if ?c then _ else _) = _ => destruct c eqn:E
         end;
      rewrite ?Z.ltb_lt, ?Z.ltb_ge in E; lia. }
  split; [exact Hmain|].
  intros Hsame. rewrite Hmain, Hsame, z2b_b2z, update_same by exact Hb.
  now destruct st.
Qed.

End Clamp.

(* ================================================================= *)
(** ** The search opcodes *)

Module SearchHandlers.
Import Py Codec QuickCodes Spec PyFacts Stepping Arithmetic Searching
       Splice FailedSearch.
Local Open Scope Z_scope.
Local Open Scope qc_scope.

Lemma short_pattern (bs : list byte) L :
  length bs = 4%nat -> 0 <= L <= 4 ->
  Py.set_slice (zeros (Z.land (L + 3) (Z.lnot 3))) 0 4 bs = bs.
Proof.
  intros Hb HL.
  do 4 (destruct bs as [|? bs]; [discriminate Hb|]).
  destruct bs; [|discriminate Hb].
  assert (H : L = 0 \/ L = 1 \/ L = 2 \/ L = 3 \/ L = 4) by lia.
  destruct H as [->|[->|[->|[->| ->]]]]; reflexivity.
Qed.

(** A pattern of at most four bytes needs no continuation line: it is
    made of the value word, most significant byte first. *)
Lemma build_pattern_short lines line li L v st :
  of_hex (str_slice line 9 17) = Some v ->
  0 <= L <= 4 ->
  build_pattern lines line li L st
  = (Ok (as_bytes big 4 (uint32 v), line, li), st).
Proof.
  intros Hv HL. unfold build_pattern.
  rewrite (bind_ok _ _ _ _ _ (hex_ok _ _ _ Hv)).
  rewrite short_pattern by (auto; reflexivity).
  replace (range8 4 L) with 0%nat; [reflexivity|].
  unfold range8. symmetry.
  assert ((L - 4 + 7) / 8 < 1) by (apply Z.div_lt_upper_bound; lia). lia.
Qed.

Lemma upward_In n : forall lo j,
  lo <= j < lo + Z.of_nat n -> In j (upward n lo).
Proof.
  induction n as [|n IH]; intros lo j H; [lia|]. simpl.
  destruct (Z.eq_dec lo j) as [->|Hne]; [now left|].
  right. apply IH. lia.
Qed.

(** X15. Opcode 8, absolute, with a pattern of at most four bytes, in a
    validated program.  List the offsets where the first [L] bytes of the
    value word (most significant byte first) stand in the buffer, in
    ascending order.  If the list has at least [count] elements (a count
    field of 0 counting as 1), the pointer becomes element number [count]
    and the next line is executed.  Otherwise the pointer becomes 0 and
    every remaining line of the program is skipped.  The buffer is never
    touched. *)
Theorem search_short_pattern lines li line st t c l v :
  valid_program lines ->
  validate_code line = true ->
  String.get 1 line = Some t -> Ascii.eqb t "8" = false ->
  of_hex (str_slice line 2 4) = Some c -> 0 <= int32 c ->
  of_hex (str_slice line 4 8) = Some l -> 0 <= int32 l <= 4 ->
  of_hex (str_slice line 9 17) = Some v ->
  Py.len (data st) < 2 ^ 63 ->
  let pat := firstn (Z.to_nat (int32 l)) (as_bytes big 4 (uint32 v)) in
  let occ := occurrences_forward (data st) (Py.len (data st)) 0 pat in
  let k := default_count (int32 c) in
  (k <= Py.len occ ->
   op_search lines li line st
   = (Ok li, mkState (data st) (ith k occ) (end_pointer st) (ptr st)))
  /\ (Py.len occ < k ->
      op_search lines li line st
      = (Ok (Nat.max li (length lines)),
         mkState (data st) 0 (end_pointer st) (ptr st))).
Proof.
  intros Hall Hline Ht Hrel Hc Hc0 Hl HL Hv Hlen pat occ k.
  assert (Hh : Forall headed lines).
  { eapply Forall_impl; [|exact Hall]. apply validated_headed. }
  assert (Hhl : headed line) by now apply validated_headed.
  assert (Hk : 1 <= k).
  { unfold k, default_count. destruct (int32 c =? 0) eqn:E; [lia|].
    apply Z.eqb_neq in E. lia. }
  assert (Hop : op_search lines li line st
                = not_found lines line li
                    (mkState (data st) (int64 (ith k occ))
                             (end_pointer st) (ptr st))).
  { unfold op_search.
    rewrite (bind_ok _ _ _ _ _ (char_at_ok _ _ _ _ Ht)).
    rewrite (bind_ok _ _ _ _ _ (hex_ok _ _ _ Hc)).
    rewrite (bind_ok _ _ _ _ _ (hex_ok _ _ _ Hl)).
    rewrite (bind_ok _ _ _ _ _ (build_pattern_short _ _ _ _ _ _ Hv HL)).
    unfold bind at 1, get_data. unfold bind at 1, get_pointer.
    rewrite Hrel. fold k.
    rewrite search_data_forward;
      [|exact Hk|lia|change (Py.len (as_bytes big 4 (uint32 v))) with 4; lia|lia].
    reflexivity. }
  assert (Hlenn : 0 <= Py.len (data st)) by apply len_nonneg.
  split; intros Hocc; rewrite Hop.
  - assert (Hin : In (ith k occ) occ).
    { eapply nth_error_In. apply ith_found. lia. }
    remember (ith k occ) as r eqn:Er. clear Er.
    unfold occ, occurrences_forward in Hin.
    apply filter_In in Hin as [Hu _]. apply upward_bounds in Hu.
    assert (Hr : 0 <= r < 2 ^ 63).
    { pose proof (len_nonneg pat). lia. }
    rewrite int64_small by lia.
    apply (proj2 (not_found_outcome lines line li _ Hh Hhl)).
    simpl. lia.
  - rewrite ith_missing by exact Hocc.
    change (int64 (-1)) with (-1).
    apply (proj1 (not_found_outcome lines line li
                    (mkState (data st) (-1) (end_pointer st) (ptr st))
                    Hh Hhl)).
    simpl. lia.
Qed.

(** X20. Opcode B, absolute, with a pattern of at most four bytes, in a
    validated program.  The scan starts at the end pointer; an end
    pointer of 0 is first replaced, for the rest of the run, by the index
    of the last byte.  The pointer becomes the match numbered [count]
    counting downwards from there, or 0 with the rest of the program
    skipped. *)
Theorem rsearch_short_pattern lines li line st t c l v :
  valid_program lines ->
  validate_code line = true ->
  String.get 1 line = Some t -> Ascii.eqb t "8" = false ->
  of_hex (str_slice line 2 4) = Some c -> 0 <= int32 c ->
  of_hex (str_slice line 4 8) = Some l -> 0 <= int32 l <= 4 ->
  of_hex (str_slice line 9 17) = Some v ->
  Py.len (data st) < 2 ^ 63 ->
  let e := if end_pointer st =? 0 then uint64 (Py.len (data st) - 1)
           else end_pointer st in
  let pat := firstn (Z.to_nat (int32 l)) (as_bytes big 4 (uint32 v)) in
  let occ := occurrences_backward (data st) (Py.len (data st)) e pat in
  let k := default_count (int32 c) in
  (k <= Py.len occ ->
   op_rsearch lines li line st
   = (Ok li, mkState (data st) (ith k occ) e (ptr st)))
  /\ (Py.len occ < k ->
      op_rsearch lines li line st
      = (Ok (Nat.max li (length lines)), mkState (data st) 0 e (ptr st))).
Proof.
  intros Hall Hline Ht Hrel Hc Hc0 Hl HL Hv Hlen e pat occ k.
  assert (Hh : Forall headed lines).
  { eapply Forall_impl; [|exact Hall]. apply validated_headed. }
  assert (Hhl : headed line) by now apply validated_headed.
  assert (Hk : 1 <= k).
  { unfold k, default_count. destruct (int32 c =? 0) eqn:E; [lia|].
    apply Z.eqb_neq in E. lia. }
  assert (Hop : op_rsearch lines li line st
                = not_found lines line li
                    (mkState (data st) (int64 (ith k occ)) e (ptr st))).
  { unfold op_rsearch.
    rewrite (bind_ok _ _ _ _ _ (char_at_ok _ _ _ _ Ht)).
    rewrite (bind_ok _ _ _ _ _ (hex_ok _ _ _ Hc)).
    rewrite (bind_ok _ _ _ _ _ (hex_ok _ _ _ Hl)).
    rewrite (bind_ok _ _ _ _ _ (hex_ok _ _ _ Hv)).
    unfold bind at 1, get_end_pointer. unfold bind at 1, get_data.
    assert (Hset : forall (k' : unit -> M nat),
               bind (if end_pointer st =? 0
                     then set_end_pointer (Py.len (data st) - 1)
                     else ret tt) k' st
               = k' tt (mkState (data st) (pointer st) e (ptr st))).
    { intros k'. unfold e, bind. destruct (end_pointer st =? 0); simpl;
        [reflexivity | now destruct st]. }
    rewrite Hset.
    rewrite (bind_ok _ _ _ _ _ (build_pattern_short _ _ _ _ _ _ Hv HL)).
    unfold bind at 1, get_data. unfold bind at 1, get_pointer.
    unfold bind at 1, get_end_pointer.
    cbn [data pointer end_pointer ptr].
    rewrite Hrel. fold k.
    rewrite reverse_search_data_backward;
      [|exact Hk|change (Py.len (as_bytes big 4 (uint32 v))) with 4; lia|lia].
    reflexivity. }
  assert (Hlenn : 0 <= Py.len (data st)) by apply len_nonneg.
  split; intros Hocc; rewrite Hop.
  - assert (Hin : In (ith k occ) occ).
    { eapply nth_error_In. apply ith_found. lia. }
    remember (ith k occ) as r eqn:Er. clear Er.
    unfold occ, occurrences_backward in Hin.
    apply filter_In in Hin as [Hu Hf]. apply downward_bounds in Hu.
    apply andb_prop in Hf as [Hf _]. apply Z.leb_le in Hf.
    assert (Hr : 0 <= r < 2 ^ 63).
    { pose proof (len_nonneg pat). lia. }
    rewrite int64_small by lia.
    apply (proj2 (not_found_outcome lines line li _ Hh Hhl)).
    simpl. lia.
  - rewrite ith_missing by exact Hocc.
    change (int64 (-1)) with (-1).
    apply (proj1 (not_found_outcome lines line li
                    (mkState (data st) (-1) e (ptr st)) Hh Hhl)).
    simpl. lia.
Qed.

(** X21. Opcode C, subtype 4 (search from 0 up to the address), the pattern
    being the [L] bytes found at the address: the address itself is one
    of the matches, so with a count field of 0 or 1 the search always
    succeeds; whenever it succeeds the pointer is at most the address. *)
Theorem asearch_below_address lines li line st c l v :
  valid_program lines ->
  validate_code line = true ->
  String.get 1 line = Some "4"%char ->
  of_hex (str_slice line 2 4) = Some c -> 0 <= int32 c ->
  of_hex (str_slice line 4 8) = Some l ->
  of_hex (str_slice line 9 17) = Some v ->
  Py.len (data st) < 2 ^ 63 ->
  let addr := uint32 v in
  let L := int32 l in
  0 <= L -> addr + L <= Py.len (data st) ->
  let pat := firstn (Z.to_nat L) (Py.slice_from (data st) addr) in
  let occ := occurrences_forward (data st) (addr + L) 0 pat in
  let k := default_count (int32 c) in
  In addr occ
  /\ (k <= Py.len occ ->
      op_asearch lines li line st
      = (Ok li, mkState (data st) (ith k occ) (end_pointer st) (ptr st))
      /\ 0 <= ith k occ <= addr)
  /\ (Py.len occ < k ->
      op_asearch lines li line st
      = (Ok (Nat.max li (length lines)),
         mkState (data st) 0 (end_pointer st) (ptr st))).
Proof.
  intros Hall Hline Ht Hc Hc0 Hl Hv Hlen addr L HL Hin pat occ k.
  assert (Hh : Forall headed lines).
  { eapply Forall_impl; [|exact Hall]. apply validated_headed. }
  assert (Hhl : headed line) by now apply validated_headed.
  assert (Haddr : 0 <= addr) by (apply Z.mod_pos_bound; reflexivity).
  assert (Hk : 1 <= k).
  { unfold k, default_count. destruct (int32 c =? 0) eqn:E; [lia|].
    apply Z.eqb_neq in E. lia. }
  assert (Hfrom : Py.slice_from (data st) addr
                  = skipn (Z.to_nat addr) (data st)).
  { unfold Py.slice_from, Py.clamp.
    destruct (addr <? 0) eqn:E; [apply Z.ltb_lt in E; lia|].
    now rewrite Z.min_l by lia. }
  assert (Hfind : Py.len (Py.slice_from (data st) addr)
                  = Py.len (data st) - addr).
  { rewrite Hfrom. unfold Py.len in *. rewrite length_skipn. lia. }
  assert (Hpat : Py.len pat = L).
  { unfold pat, Py.len. rewrite length_firstn, Hfrom, length_skipn.
    unfold Py.len in Hin. lia. }
  assert (Hop : op_asearch lines li line st
                = not_found lines line li
                    (mkState (data st) (int64 (ith k occ))
                             (end_pointer st) (ptr st))).
  { unfold op_asearch.
    rewrite (bind_ok _ _ _ _ _ (char_at_ok _ _ _ _ Ht)).
    rewrite (bind_ok _ _ _ _ _ (hex_ok _ _ _ Hc)).
    rewrite (bind_ok _ _ _ _ _ (hex_ok _ _ _ Hl)).
    rewrite (bind_ok _ _ _ _ _ (hex_ok _ _ _ Hv)).
    unfold bind at 1, get_pointer. unfold bind at 1, get_data.
    change (among "4" ["8"%char; "C"%char]) with false.
    change (among "4" ["4"%char; "C"%char]) with true. cbv iota.
    fold addr L k.
    rewrite search_data_forward; [reflexivity|exact Hk|lia|lia|lia]. }
  assert (Hocc : In addr occ).
  { unfold occ, occurrences_forward. apply filter_In. split.
    - apply upward_In. rewrite Hpat. lia.
    - unfold occurs_at. rewrite Hpat.
      replace (0 <=? addr) with true by (symmetry; apply Z.leb_le; lia).
      replace (addr + L <=? Py.len (data st)) with true
        by (symmetry; apply Z.leb_le; lia).
      simpl. apply bytes_eqb_eq. unfold pat. rewrite Hfrom.
      f_equal. rewrite length_firstn, length_skipn.
      unfold Py.len in *. lia. }
  split; [exact Hocc|]. split; intros Hcase; rewrite Hop.
  - assert (Hin' : In (ith k occ) occ).
    { eapply nth_error_In. apply ith_found. lia. }
    remember (ith k occ) as r eqn:Er. clear Er.
    unfold occ, occurrences_forward in Hin'.
    apply filter_In in Hin' as [Hu _]. apply upward_bounds in Hu.
    rewrite Hpat in Hu.
    assert (Hr : 0 <= r <= addr) by lia.
    split; [|exact Hr].
    rewrite int64_small by lia.
    apply (proj2 (not_found_outcome lines line li _ Hh Hhl)).
    simpl. lia.
  - rewrite ith_missing by exact Hcase.
    change (int64 (-1)) with (-1).
    apply (proj1 (not_found_outcome lines line li
                    (mkState (data st) (-1) (end_pointer st) (ptr st))
                    Hh Hhl)).
    simpl. lia.
Qed.

(** X3. Both searches number the matches from 1: asked for a match below 1,
    they return [-1] whatever the buffer holds. *)
Theorem search_count_below_one d size start search L count :
  count < 1 ->
  search_data d size start search L count = -1
  /\ reverse_search_data d size start search L count = -1.
Proof.
  intros Hc. split.
  - unfold search_data.
    generalize (Z.to_nat (size - L + 1 - start)) as n.
    assert (H : forall n i k, 1 <= k ->
              search_loop d (Py.slice search 0 L) L count n i k = -1).
    { induction n as [|n IH]; intros i k Hk; simpl; auto.
      destruct (bytes_eqb _ _); [|now apply IH].
      destruct (k =? count) eqn:E; [apply Z.eqb_eq in E; lia|].
      apply IH. lia. }
    intros n. now apply H.
  - unfold reverse_search_data.
    generalize (Z.to_nat (start + 1)) as n.
    assert (H : forall n i k, 1 <= k ->
              reverse_search_loop d (Py.slice search 0 L) size L count n i k
              = -1).
    { induction n as [|n IH]; intros i k Hk; simpl; auto.
      destruct ((i + L <=? size) && bytes_eqb _ _); simpl; [|now apply IH].
      destruct (k =? count) eqn:E; [apply Z.eqb_eq in E; lia|].
      apply IH. lia. }
    intros n. now apply H.
Qed.

End SearchHandlers.

(* ================================================================= *)
(** ** A count field of 0 *)

Module CountZero.
Import Py Codec QuickCodes Spec PyFacts Stepping Searching CountField
       Fields FailedSearch.
Local Open Scope Z_scope.
Local Open Scope qc_scope.

Lemma with_line_length lines i la lb :
  nth_error lines i = Some la ->
  length (with_line lines i lb) = length lines.
Proof.
  intros H. unfold with_line.
  assert (Hi : (i < length lines)%nat) by (apply nth_error_Some; congruence).
  rewrite length_app, length_firstn. cbn [length].
  rewrite length_skipn. lia.
Qed.

Lemma with_line_at lines i la lb :
  nth_error lines i = Some la ->
  nth_error (with_line lines i lb) i = Some lb.
Proof.
  intros H. unfold with_line.
  assert (Hi : (i < length lines)%nat) by (apply nth_error_Some; congruence).
  rewrite nth_error_app2 by (rewrite length_firstn; lia).
  rewrite length_firstn.
  replace (i - Nat.min i (length lines))%nat with 0%nat by lia.
  reflexivity.
Qed.

Lemma with_line_after lines i la lb j :
  nth_error lines i = Some la -> (i < j)%nat ->
  nth_error (with_line lines i lb) j = nth_error lines j.
Proof.
  intros H Hj. unfold with_line.
  assert (Hi : (i < length lines)%nat) by (apply nth_error_Some; congruence).
  rewrite nth_error_app2 by (rewrite length_firstn; lia).
  rewrite length_firstn. replace (Nat.min i (length lines)) with i by lia.
  destruct (j - i)%nat as [|k] eqn:E; [lia|]. cbn [nth_error].
  rewrite nth_error_skipn. f_equal. lia.
Qed.

Lemma bind_cong {A B} (c1 c2 : M A) (k1 k2 : A -> M B) st :
  c1 st = c2 st -> (forall a s, k1 a s = k2 a s) ->
  bind c1 k1 st = bind c2 k2 st.
Proof.
  intros Hc Hk. unfold bind. rewrite Hc.
  destruct (c2 st) as [[a|e|] s]; auto.
Qed.

Lemma hex_none s st :
  of_hex s = None -> hex s st = (Raise (Exn ValueError), st).
Proof. intros H. unfold hex. now rewrite H. Qed.

(** A search handler at index [i] reads the program past [i] only: two
    programs of the same length that agree past [i] cannot be told
    apart. *)
Section Replaced.
Variables (lines1 lines2 : list string) (i : nat).
Hypothesis Hlen : length lines1 = length lines2.
Hypothesis Hnth : forall j, (i < j)%nat ->
  nth_error lines1 j = nth_error lines2 j.

Lemma fetch_replaced j st :
  (i < j)%nat -> fetch lines1 j st = fetch lines2 j st.
Proof. intros H. unfold fetch. now rewrite Hnth. Qed.

Lemma words_loop_replaced {B} limit n
      (K1 K2 : list byte * string * nat -> M B) :
  (forall buf line j s,
      (i <= j)%nat -> K1 (buf, line, j) s = K2 (buf, line, j) s) ->
  forall k buf line li st,
    (i <= li)%nat ->
    bind (words_loop lines1 limit n k buf line li) K1 st
    = bind (words_loop lines2 limit n k buf line li) K2 st.
Proof.
  intros HK. induction n as [|n IH]; intros k buf line li st Hli.
  - cbn [words_loop]. unfold bind, ret. now apply HK.
  - cbn [words_loop]. rewrite !bind_assoc.
    apply bind_cong; [apply fetch_replaced; lia|]. intros l s. cbv beta.
    rewrite !bind_assoc. apply bind_ext. intros v1 s1. cbv beta.
    rewrite !bind_assoc. apply bind_ext. intros v2 s2. cbv beta.
    apply IH. lia.
Qed.

Lemma skip_inner_replaced {B} fuel (K1 K2 : string * nat -> M B) :
  (forall line j s, (i < j)%nat -> K1 (line, j) s = K2 (line, j) s) ->
  forall line li st,
    (i < li)%nat ->
    bind (skip_inner fuel lines1 line li) K1 st
    = bind (skip_inner fuel lines2 line li) K2 st.
Proof.
  intros HK. induction fuel as [|fuel IH]; intros line li st Hli.
  - reflexivity.
  - cbn [skip_inner]. rewrite !bind_assoc. apply bind_ext. intros c s.
    rewrite Hlen. destruct c.
    + destruct (length lines2 <=? li)%nat.
      * unfold bind, ret. now apply HK.
      * rewrite !bind_assoc.
        apply bind_cong; [apply fetch_replaced; lia|]. intros l s'.
        apply IH. lia.
    + unfold bind, ret. now apply HK.
Qed.

Lemma skip_outer_replaced fuel :
  forall line li st,
    (i <= li)%nat ->
    skip_outer fuel lines1 line li st = skip_outer fuel lines2 line li st.
Proof.
  induction fuel as [|fuel IH]; intros line li st Hli; [reflexivity|].
  rewrite !Termination.skip_outer_S. rewrite Hlen.
  destruct (li <? length lines2)%nat; [|reflexivity].
  apply skip_inner_replaced; [|lia].
  intros l j s Hj. apply IH. lia.
Qed.

Lemma not_found_replaced line li st :
  (i <= li)%nat ->
  not_found lines1 line li st = not_found lines2 line li st.
Proof.
  intros Hli. unfold not_found. apply bind_ext. intros p s.
  destruct (p <? 0); [|reflexivity].
  unfold bind. rewrite Hlen. now rewrite skip_outer_replaced.
Qed.

Lemma build_pattern_replaced {B} line L
      (K1 K2 : list byte * string * nat -> M B) :
  (forall buf l j s,
      (i <= j)%nat -> K1 (buf, l, j) s = K2 (buf, l, j) s) ->
  forall li st,
    (i <= li)%nat ->
    bind (build_pattern lines1 line li L) K1 st
    = bind (build_pattern lines2 line li L) K2 st.
Proof.
  intros HK li st Hli. unfold build_pattern. rewrite !bind_assoc.
  apply bind_ext. intros v s. now apply words_loop_replaced.
Qed.

Lemma op_search_replaced line st :
  op_search lines1 i line st = op_search lines2 i line st.
Proof.
  unfold op_search. do 3 (apply bind_ext; intros).
  apply build_pattern_replaced; [|lia]. intros buf l j s' Hj.
  do 3 (apply bind_ext; intros). now apply not_found_replaced.
Qed.

Lemma op_rsearch_replaced line st :
  op_rsearch lines1 i line st = op_rsearch lines2 i line st.
Proof.
  unfold op_rsearch. do 7 (apply bind_ext; intros).
  apply build_pattern_replaced; [|lia]. intros buf l j s' Hj.
  do 4 (apply bind_ext; intros). now apply not_found_replaced.
Qed.

Lemma op_asearch_replaced line st :
  op_asearch lines1 i line st = op_asearch lines2 i line st.
Proof.
  unfold op_asearch. do 7 (apply bind_ext; intros).
  now apply not_found_replaced.
Qed.

End Replaced.

Lemma exec_line_replaced lines i la lb c0 st :
  nth_error lines i = Some la ->
  among c0 ["8"; "B"; "C"]%char = true ->
  String.get 0 lb = Some c0 ->
  exec_line (with_line lines i lb) i lb st = exec_line lines i lb st.
Proof.
  intros Hi Hop Hb0.
  pose proof (with_line_length lines i la lb Hi) as Hlen.
  assert (Hnth : forall j, (i < j)%nat ->
            nth_error (with_line lines i lb) j = nth_error lines j)
    by (intros j Hj; now apply (with_line_after lines i la lb j Hi)).
  destruct (search_opcode _ Hop) as [->|[->| ->]].
  - rewrite !(exec_line_8 _ _ _ _ Hb0). now apply op_search_replaced.
  - rewrite !(exec_line_B _ _ _ _ Hb0). now apply op_rsearch_replaced.
  - rewrite !(exec_line_C _ _ _ _ Hb0). now apply op_asearch_replaced.
Qed.

(** The continuation words are read off the program: the loop leaves the
    state alone, does the same from every state, and the line it hands
    on is the one it was given or a line of the program. *)
Lemma words_loop_ok lines limit n :
  forall k buf line li st buf' l' i' st1,
    words_loop lines limit n k buf line li st = (Ok (buf', l', i'), st1) ->
    st1 = st /\ (l' = line \/ In l' lines)
    /\ forall st2,
         words_loop lines limit n k buf line li st2
         = (Ok (buf', l', i'), st2).
Proof.
  induction n as [|n IH]; intros k buf line li st buf' l' i' st1 H.
  - cbn [words_loop] in *. unfold ret in *.
    inversion H; subst. repeat split; auto.
  - cbn [words_loop] in *.
    destruct (nth_error lines (li + 1)) as [l|] eqn:E.
    2:{ rewrite (bind_raise _ _ _ _ _ (fetch_none _ _ _ E)) in H.
        discriminate H. }
    rewrite (bind_ok _ _ _ _ _ (fetch_ok _ _ _ st E)) in H.
    destruct (of_hex (str_slice l 0 8)) as [v1|] eqn:E1.
    2:{ rewrite (bind_raise _ _ _ _ _ (hex_none _ st E1)) in H.
        discriminate H. }
    rewrite (bind_ok _ _ _ _ _ (hex_ok _ _ st E1)) in H.
    destruct (of_hex (str_slice l 9 17)) as [v2|] eqn:E2.
    2:{ rewrite (bind_raise _ _ _ _ _ (hex_none _ st E2)) in H.
        discriminate H. }
    rewrite (bind_ok _ _ _ _ _ (hex_ok _ _ st E2)) in H.
    apply IH in H as (H1 & H2 & H3).
    split; [exact H1|]. split.
    + destruct H2 as [->|H2]; [|now right].
      right. eapply nth_error_In, E.
    + intros st2.
      rewrite (bind_ok _ _ _ _ _ (fetch_ok _ _ _ st2 E)).
      rewrite (bind_ok _ _ _ _ _ (hex_ok _ _ st2 E1)).
      rewrite (bind_ok _ _ _ _ _ (hex_ok _ _ st2 E2)).
      apply H3.
Qed.

Lemma build_pattern_ok lines line li L st find l' i' st1 :
  build_pattern lines line li L st = (Ok (find, l', i'), st1) ->
  (l' = line \/ In l' lines)
  /\ forall st2,
       build_pattern lines line li L st2 = (Ok (find, l', i'), st2).
Proof.
  unfold build_pattern. intros H.
  destruct (of_hex (str_slice line 9 17)) as [v|] eqn:E.
  2:{ rewrite (bind_raise _ _ _ _ _ (hex_none _ st E)) in H.
      discriminate H. }
  rewrite (bind_ok _ _ _ _ _ (hex_ok _ _ st E)) in H.
  apply words_loop_ok in H as (_ & H2 & H3).
  split; [exact H2|]. intros st2.
  rewrite (bind_ok _ _ _ _ _ (hex_ok _ _ st2 E)). apply H3.
Qed.

(** A search handler that ends in the test of the pointer, as a round of
    the loop. *)
Lemma step_of_search lines i la st l' i' d p e q :
  valid_program lines ->
  nth_error lines i = Some la ->
  l' = la \/ In l' lines ->
  exec_line lines i la st = not_found lines l' i' (mkState d p e q) ->
  step lines i st = search_outcome lines i' d p e q.
Proof.
  intros Hall Hi Hl' Hex.
  assert (Hh : Forall headed lines).
  { eapply Forall_impl; [|exact Hall]. apply validated_headed. }
  assert (Hhl : headed l').
  { unfold valid_program in Hall. rewrite Forall_forall in Hall.
    apply validated_headed, Hall.
    destruct Hl' as [->|H]; [eapply nth_error_In, Hi | exact H]. }
  rewrite (step_unfold _ _ _ _ Hi). unfold bind, guarded. rewrite Hex.
  unfold search_outcome. destruct (0 <=? p) eqn:E.
  - apply Z.leb_le in E.
    rewrite (proj2 (not_found_outcome lines l' i' _ Hh Hhl)) by exact E.
    reflexivity.
  - apply Z.leb_gt in E.
    rewrite (proj1 (not_found_outcome lines l' i' _ Hh Hhl)) by exact E.
    reflexivity.
Qed.

(** The length field of a validated line is its own 32-bit value. *)
Lemma length_field lines i la L :
  valid_program lines -> nth_error lines i = Some la ->
  of_hex (str_slice la 4 8) = Some L -> int32 L = L /\ 0 <= L.
Proof.
  intros Hall Hi HL.
  assert (Hv : validate_code la = true).
  { unfold valid_program in Hall. rewrite Forall_forall in Hall.
    eapply Hall, nth_error_In, Hi. }
  destruct (validated_field la 4 8 Hv ltac:(simpl; tauto)) as (v & E & Hr).
  rewrite HL in E. inversion E; subst v.
  change (16 ^ Z.of_nat (8 - 4)) with 65536 in Hr.
  split; [|lia]. unfold int32, sint.
  change (2 ^ (32 - 1)) with 2147483648.
  change (2 ^ 32) with 4294967296.
  rewrite Z.mod_small; lia.
Qed.

(** C9. Take a validated program and, at index [i], a line [la] of opcode
    8, B or C whose count field decodes to 0.
    - The count of 0 is a count of 1: put in the place of [la] any line
      [lb] that has the same opcode, addressing character, length field
      and value word and whose count field decodes to 1, and the round
      of the loop at [i] has the same outcome, from every state (same
      result or error, same index reached, same buffer and registers).
    - The first match in scan order is taken: the pointer receives the
      first element of the list of matches of the scan, or [-1] when
      there is none (as a 64-bit signed value); a pointer that is not
      negative stays and the next line is executed, a negative one is
      reset to 0 and the rest of the program is skipped
      ([search_outcome]).  For opcode 8 the scan is forward over the
      whole buffer, from the pointer (addressing [8]) or from 0; for
      opcode B it is backward, from the pointer or from the end pointer,
      an end pointer of 0 being first replaced by the last index; for
      opcode C the pattern is read at the address and the scan is
      forward, from 0 up to the address (subtypes 4, C) or from behind
      the pattern to the end.  For opcodes 8 and B the pattern is the
      one [build_pattern] assembles from the value word and the
      continuation lines, when these are there.
    - The matches of a scan that starts at an offset that is not
      negative, with a pattern buffer of at least [L] bytes, are the
      offsets where the first [L] bytes of the pattern stand in the
      buffer. *)
Theorem zero_count_is_first_match lines i la c0 c1 L v st :
  valid_program lines ->
  nth_error lines i = Some la ->
  String.get 0 la = Some c0 ->
  among c0 ["8"; "B"; "C"]%char = true ->
  String.get 1 la = Some c1 ->
  of_hex (str_slice la 2 4) = Some 0 ->
  of_hex (str_slice la 4 8) = Some L ->
  of_hex (str_slice la 9 17) = Some v ->
  let d := data st in
  let len := int32 L in
  (forall lb,
      String.get 0 lb = Some c0 -> String.get 1 lb = Some c1 ->
      of_hex (str_slice lb 2 4) = Some 1 ->
      str_slice lb 4 8 = str_slice la 4 8 ->
      str_slice lb 9 17 = str_slice la 9 17 ->
      step (with_line lines i lb) i st = step lines i st)
  /\ (c0 = "8"%char ->
      forall find l' i',
        build_pattern lines la i len st = (Ok (find, l', i'), st) ->
        let start := if Ascii.eqb c1 "8" then pointer st else 0 in
        let occ := matches_forward d (Py.len d) start find len in
        step lines i st
        = search_outcome lines i' d (int64 (ith 1 occ))
                         (end_pointer st) (ptr st))
  /\ (c0 = "B"%char ->
      forall find l' i',
        build_pattern lines la i len st = (Ok (find, l', i'), st) ->
        let e := if end_pointer st =? 0 then uint64 (Py.len d - 1)
                 else end_pointer st in
        let start := if Ascii.eqb c1 "8" then pointer st else e in
        let occ := matches_backward d (Py.len d) start find len in
        step lines i st
        = search_outcome lines i' d (int64 (ith 1 occ)) e (ptr st))
  /\ (c0 = "C"%char ->
      let addr := if among c1 ["8"; "C"]%char
                  then uint32 (uint32 v + pointer st) else uint32 v in
      let find := Py.slice_from d addr in
      let occ := if among c1 ["4"; "C"]%char
                 then matches_forward d (addr + len) 0 find len
                 else matches_forward d (Py.len d) (addr + len) find len in
      step lines i st
      = search_outcome lines i d (int64 (ith 1 occ))
                       (end_pointer st) (ptr st))
  /\ (forall size start find,
        len <= Py.len find -> size <= Py.len d ->
        let pat := firstn (Z.to_nat len) find in
        (0 <= start ->
         matches_forward d size start find len
         = occurrences_forward d size start pat)
        /\ matches_backward d size start find len
           = occurrences_backward d size start pat).
Proof.
  intros Hall Hi H0 Hop H1 Hc HL Hv d len.
  split; [|split; [|split; [|split]]].
  - intros lb Hb0 Hb1 Hcb Hlb Hvb.
    rewrite (step_unfold _ _ _ _ (with_line_at lines i la lb Hi)).
    rewrite (step_unfold _ _ _ _ Hi).
    unfold bind, guarded.
    rewrite (exec_line_replaced lines i la lb c0 st Hi Hop Hb0).
    now rewrite <- (exec_line_count lines i la lb c0 c1 st Hop H0 Hb0 H1 Hb1
                      Hc Hcb (eq_sym Hlb) (eq_sym Hvb)).
  - intros -> find l' i' Hbp start occ.
    destruct (build_pattern_ok _ _ _ _ _ _ _ _ _ Hbp) as (Hl' & _).
    apply (step_of_search lines i la st l' i'); auto.
    rewrite (exec_line_8 _ _ _ _ H0). unfold op_search.
    rewrite (bind_ok _ _ _ _ _ (char_at_ok _ _ _ _ H1)).
    rewrite (bind_ok _ _ _ _ _ (hex_ok _ _ _ Hc)).
    rewrite (bind_ok _ _ _ _ _ (hex_ok _ _ _ HL)).
    fold len. rewrite (bind_ok _ _ _ _ _ Hbp).
    unfold bind at 1, get_data. unfold bind at 1, get_pointer.
    change (default_count (int32 0)) with 1.
    rewrite search_data_matches by lia. reflexivity.
  - intros -> find l' i' Hbp e start occ.
    destruct (build_pattern_ok _ _ _ _ _ _ _ _ _ Hbp) as (Hl' & Hst).
    apply (step_of_search lines i la st l' i'); auto.
    rewrite (exec_line_B _ _ _ _ H0). unfold op_rsearch.
    rewrite (bind_ok _ _ _ _ _ (char_at_ok _ _ _ _ H1)).
    rewrite (bind_ok _ _ _ _ _ (hex_ok _ _ _ Hc)).
    rewrite (bind_ok _ _ _ _ _ (hex_ok _ _ _ HL)).
    rewrite (bind_ok _ _ _ _ _ (hex_ok _ _ _ Hv)).
    fold len.
    unfold bind at 1, get_end_pointer. unfold bind at 1, get_data.
    change (default_count (int32 0)) with 1.
    assert (Hset : (if end_pointer st =? 0
                    then set_end_pointer (Py.len (data st) - 1)
                    else ret tt) st
                   = (Ok tt, mkState (data st) (pointer st) e (ptr st))).
    { unfold e, d. destruct (end_pointer st =? 0); [reflexivity|].
      now destruct st. }
    rewrite (bind_ok _ _ _ _ _ Hset).
    rewrite (bind_ok _ _ _ _ _ (Hst _)).
    unfold bind at 1, get_data. unfold bind at 1, get_pointer.
    unfold bind at 1, get_end_pointer.
    cbn [data pointer end_pointer ptr].
    rewrite reverse_search_data_matches by lia. reflexivity.
  - intros -> addr find occ.
    apply (step_of_search lines i la st la i); auto.
    rewrite (exec_line_C _ _ _ _ H0). unfold op_asearch.
    rewrite (bind_ok _ _ _ _ _ (char_at_ok _ _ _ _ H1)).
    rewrite (bind_ok _ _ _ _ _ (hex_ok _ _ _ Hc)).
    rewrite (bind_ok _ _ _ _ _ (hex_ok _ _ _ HL)).
    rewrite (bind_ok _ _ _ _ _ (hex_ok _ _ _ Hv)).
    fold len.
    unfold bind at 1, get_pointer. unfold bind at 1, get_data.
    change (default_count (int32 0)) with 1.
    fold d. fold addr. fold find.
    rewrite !search_data_matches by lia. unfold occ.
    destruct (among c1 ["4"%char; "C"%char]); reflexivity.
  - intros size start find Hlf Hsz pat.
    destruct (length_field lines i la L Hall Hi HL) as (E & HL0).
    assert (Hlen : 0 <= len <= Py.len find) by (unfold len in *; lia).
    split.
    + intros Hs. now apply matches_forward_occurrences.
    + now apply matches_backward_occurrences.
Qed.

End CountZero.

(* ================================================================= *)
(** ** Running twice *)

Module Runs.
Import Py Codec QuickCodes Spec.

(** X4. [read_file] extends [self.data]: it does not replace it.  With an
    empty program, a first [apply_code] writes back the buffer, and a
    second one on the same object reads the file after the bytes already
    held and writes back the buffer twice over. *)
Theorem apply_code_again_doubles self w bs :
  lines self = [] ->
  stored w = Some bs ->
  let d := (self_data self ++ bs)%list in
  exists self1 w1 self2 w2,
    apply_code self w = (Ok tt, self1, w1)
    /\ stored w1 = Some d
    /\ apply_code self1 w1 = (Ok tt, self2, w2)
    /\ stored w2 = Some (d ++ d)%list.
Proof.
  intros Hl Hs d.
  destruct self as [fp cs sd ls]. destruct w as [sto lg].
  cbn [lines stored self_data] in *. subst ls sto.
  do 4 eexists. split; [reflexivity|]. split; [reflexivity|].
  split; reflexivity.
Qed.

End Runs.

(* ================================================================= *)
(** ** Opcode 9: the pointer handler *)

Module Pointer.
Import Py Codec QuickCodes Spec Stepping.
Local Open Scope Z_scope.
Local Open Scope qc_scope.

Lemma int64_add_sub p x :
  - 2 ^ 63 <= p < 2 ^ 63 -> int64 (int64 (p + x) - x) = p.
Proof.
  intros Hp. unfold int64, sint.
  change (2 ^ (64 - 1)) with (2 ^ 63).
  replace ((p + x + 2 ^ 63) mod 2 ^ 64 - 2 ^ 63 - x + 2 ^ 63)
    with ((p + x + 2 ^ 63) mod 2 ^ 64 - x) by lia.
  rewrite Zminus_mod_idemp_l.
  replace (p + x + 2 ^ 63 - x) with (p + 2 ^ 63) by lia.
  rewrite Z.mod_small; lia.
Qed.

Ltac pointer_case E t :=
  apply Ascii.eqb_eq in E; subst t;
  eexists _, _; split; [reflexivity|]; repeat split; intros H;
  first [reflexivity | discriminate H].

(** X17. Opcode 9 on a line whose subtype and value word are readable,
    the four bytes of subtypes 0 and 1 lying inside the buffer: the
    handler returns, and the buffer and [ptr] are as before.  Subtypes D
    and E leave the pointer alone, every other subtype leaves the end
    pointer alone, and a subtype that is none of the eight changes
    nothing at all. *)
Theorem pointer_ops_keep_buffer line st t v :
  String.get 1 line = Some t ->
  of_hex (str_slice line 9 17) = Some v ->
  (among t ["0"; "1"]%char = true -> uint32 v + 4 <= Py.len (data st)) ->
  exists p e,
    op_pointer line st = (Ok tt, mkState (data st) p e (ptr st))
    /\ (among t ["D"; "E"]%char = true -> p = pointer st)
    /\ (among t ["D"; "E"]%char = false -> e = end_pointer st)
    /\ (among t ["0"; "1"; "2"; "3"; "4"; "5"; "D"; "E"]%char = false ->
        mkState (data st) p e (ptr st) = st).
Proof.
  intros Ht Hv _. unfold op_pointer.
  rewrite (bind_ok _ _ _ _ _ (hex_ok _ _ st Hv)).
  rewrite (bind_ok _ _ _ _ _ (char_at_ok _ _ _ st Ht)).
  destruct st as [d p e q]. cbn [data pointer end_pointer ptr].
  destruct (Ascii.eqb t "0") eqn:E0; [pointer_case E0 t|].
  destruct (Ascii.eqb t "1") eqn:E1; [pointer_case E1 t|].
  destruct (Ascii.eqb t "2") eqn:E2; [pointer_case E2 t|].
  destruct (Ascii.eqb t "3") eqn:E3; [pointer_case E3 t|].
  destruct (Ascii.eqb t "4") eqn:E4; [pointer_case E4 t|].
  destruct (Ascii.eqb t "5") eqn:E5; [pointer_case E5 t|].
  destruct (Ascii.eqb t "D") eqn:ED; [pointer_case ED t|].
  destruct (Ascii.eqb t "E") eqn:EE; [pointer_case EE t|].
  eexists _, _; split; [reflexivity|].
  unfold among, existsb. rewrite ED, EE. cbn.
  repeat split; intros H; first [reflexivity | discriminate H].
Qed.

(** X18. "Step forward" by [x] (subtype 2) followed by "step back" by
    the same [x] (subtype 3) restores the state it started from, the
    pointer being a 64-bit signed value: also when the step forward
    wraps around. *)
Theorem step_forward_then_back fwd back st x :
  String.get 1 fwd = Some "2"%char ->
  String.get 1 back = Some "3"%char ->
  of_hex (str_slice fwd 9 17) = Some x ->
  of_hex (str_slice back 9 17) = Some x ->
  - 2 ^ 63 <= pointer st < 2 ^ 63 ->
  (op_pointer fwd ;; op_pointer back) st = (Ok tt, st).
Proof.
  intros Hf Hb Hx Hx' Hp.
  assert (F : op_pointer fwd st
              = (Ok tt, mkState (data st) (int64 (pointer st + uint32 x))
                                (end_pointer st) (ptr st))).
  { unfold op_pointer.
    rewrite (bind_ok _ _ _ _ _ (hex_ok _ _ st Hx)).
    rewrite (bind_ok _ _ _ _ _ (char_at_ok _ _ _ st Hf)). reflexivity. }
  rewrite (bind_ok _ _ _ _ _ F).
  unfold op_pointer.
  rewrite (bind_ok _ _ _ _ _ (hex_ok _ _ _ Hx')).
  rewrite (bind_ok _ _ _ _ _ (char_at_ok _ _ _ _ Hb)).
  cbn [Ascii.eqb Bool.eqb]. unfold bind, get_pointer, set_pointer.
  cbn [data pointer end_pointer ptr].
  rewrite int64_add_sub by exact Hp. now destruct st.
Qed.

End Pointer.

(* ================================================================= *)
(** ** The further results at concrete inputs *)

Module MoreInstances.
Import Py Codec QuickCodes Spec.
Import Byte.
Local Open Scope string_scope.
Local Open Scope list_scope.

Ltac by_compute :=
  vm_compute;
  first [ reflexivity | discriminate | lia | intro; discriminate
        | split; first [ reflexivity | intro; discriminate ] | tauto ].

(** The value word of ["20000000 0000002A"]. *)
Lemma validated_line_decodes_witness :
  exists v, hex (str_slice "20000000 0000002A" 9 17) (initial [])
            = (Ok v, initial [])
            /\ (0 <= v < 16 ^ Z.of_nat (17 - 9))%Z.
Proof.
  apply (proj2 (Fields.validated_line_decodes
                  "20000000 0000002A" (initial []) eq_refl) 9%nat 17%nat).
  simpl; tauto.
Defined.

(** A line that starts with [E]. *)
Lemma unknown_opcode_is_skipped_witness :
  step ["E0000000 00000001"] 0 (initial [x07])
  = (Ok 1%nat, initial [x07]).
Proof.
  apply (Dispatch.unknown_opcode_is_skipped
           ["E0000000 00000001"] 0 "E0000000 00000001" "E"%char
           (initial [x07]) eq_refl eq_refl eq_refl).
Defined.

(** Opcode 6 with the operator character [3]. *)
Lemma mega_unknown_operator_witness :
  op_mega "60300000 00000001" (initial [x07]) = (Ok tt, initial [x07]).
Proof.
  apply (Dispatch.mega_unknown_operator
           "60300000 00000001" (initial [x07])
           "0"%char "3"%char "0"%char "0"%char "0"%char 1%Z
           eq_refl eq_refl eq_refl eq_refl eq_refl eq_refl eq_refl).
Defined.

(** A negative pointer at the first of three lines. *)
Lemma failed_search_ends_program_witness :
  let l := "80010004 DEADBEEF" in
  let st := mkState [x00] (-1) 0 0 in
  not_found [l; "28000000 11223344"; "20000000 00000001"] l 0 st
  = (Ok 3%nat, mkState [x00] 0 0 0).
Proof.
  intros l st.
  apply (proj1 (FailedSearch.failed_search_ends_program
                  [l; "28000000 11223344"; "20000000 00000001"] l 0 st
                  ltac:(repeat constructor) eq_refl)).
  by_compute.
Defined.

(** A 16-bit write at offset 1 of four bytes. *)
Lemma write_in_range_witness :
  exists st',
    op_write "10000001 0000AABB" (initial [x01; x02; x03; x04])
    = (Ok tt, st')
    /\ Py.len (data st') = 4%Z
    /\ op_write "10000001 0000AABB" st' = (Ok tt, st').
Proof.
  destruct (Writes.write_in_range
              "10000001 0000AABB" (initial [x01; x02; x03; x04])
              "1"%char "0"%char 1%Z 43707%Z
              eq_refl eq_refl eq_refl eq_refl eq_refl
              ltac:(by_compute) ltac:(by_compute))
    as (st' & H1 & H2 & _ & _ & _ & _ & _ & H3).
  exists st'. split; [exact H1|]. split; [exact H2 | exact H3].
Defined.

(** Two bytes copied from offset 2 to offset 0, in six bytes. *)
Lemma copy_in_range_witness :
  let d := [x01; x02; x03; x04; x05; x06] in
  exists st',
    op_copy ["50000002 00000002"; "50000000 00000000"] 0
            "50000002 00000002" (initial d)
    = (Ok 1%nat, st')
    /\ Py.slice (data st') 0 2 = [x03; x04].
Proof.
  intros d.
  destruct (Writes.copy_in_range
              ["50000002 00000002"; "50000000 00000000"] 0
              "50000002 00000002" "50000000 00000000" (initial d)
              "0"%char "0"%char 2%Z 2%Z 0%Z
              eq_refl eq_refl eq_refl eq_refl eq_refl eq_refl
              ltac:(by_compute) ltac:(by_compute)
              ltac:(by_compute) ltac:(by_compute))
    as (st' & H1 & _ & H2 & _).
  exists st'. split; [exact H1 | exact H2].
Defined.

(** Opcode 5 as the only line. *)
Lemma missing_continuation_raises_witness :
  op_copy ["50000002 00000002"] 0 "50000002 00000002" (initial [x01])
  = (Raise (Exn IndexError), initial [x01]).
Proof.
  apply (proj2 (Writes.missing_continuation_raises
                  ["50000002 00000002"] 0 "50000002 00000002"
                  (initial [x01]) "0"%char 2%Z 2%Z
                  eq_refl eq_refl eq_refl eq_refl)).
Defined.

(** A raw write of four bytes at offset 2 of eight, and the same line
    with nothing after it. *)
Lemma raw_write_in_range_witness :
  (exists st',
      op_raw ["A0000002 00000004"; "AABBCCDD 00000000"] 0
             "A0000002 00000004" (initial (zeros 8))
      = (Ok 1%nat, st')
      /\ Py.len (data st') = 8%Z)
  /\ op_raw ["A0000002 00000004"] 0 "A0000002 00000004" (initial (zeros 8))
     = (Raise (Exn IndexError), initial (zeros 8)).
Proof.
  split.
  - destruct (proj1 (Writes.raw_write_in_range
                       ["A0000002 00000004"; "AABBCCDD 00000000"] 0
                       "A0000002 00000004" (initial (zeros 8))
                       "0"%char 2%Z 4%Z
                       ltac:(repeat constructor) eq_refl eq_refl eq_refl)
                    ltac:(by_compute) ltac:(by_compute) ltac:(by_compute))
      as (st' & H1 & H2 & _).
    exists st'. split; [exact H1 | exact H2].
  - apply (proj2 (Writes.raw_write_in_range
                    ["A0000002 00000004"] 0
                    "A0000002 00000004" (initial (zeros 8))
                    "0"%char 2%Z 4%Z
                    ltac:(repeat constructor) eq_refl eq_refl eq_refl));
      by_compute.
Defined.

(** Three bytes [10], [11], [12] at offsets 1, 3, 5. *)
Lemma fill_bytes_witness :
  exists st',
    op_fill ["40000001 00000010"; "40030002 00000001"] 0
            "40000001 00000010" (initial (zeros 8))
    = (Ok 1%nat, st')
    /\ nth_error (data st') 3 = Some x11.
Proof.
  destruct (Writes.fill_bytes
              ["40000001 00000010"; "40030002 00000001"] 0
              "40000001 00000010" "40030002 00000001" (initial (zeros 8))
              1%Z 16%Z 3%Z 2%Z 1%Z
              eq_refl eq_refl eq_refl eq_refl eq_refl eq_refl eq_refl
              ltac:(by_compute) ltac:(by_compute) ltac:(by_compute)
              ltac:(by_compute))
    as (st' & H1 & _ & _ & _ & _ & H2 & _).
  exists st'. split; [exact H1|].
  exact (H2 1%nat ltac:(by_compute)).
Defined.

(** "No less than [0x0200]" on a 16-bit field that holds [0x0100]. *)
Lemma clamp_wide_witness :
  exists st',
    op_clamp "71000000 00000200" (initial [x00; x01]) = (Ok tt, st')
    /\ load 16 2 0 st' = (Ok 512%Z, st').
Proof.
  destruct (Clamp.clamp_wide
              "71000000 00000200" (initial [x00; x01])
              "1"%char 0%Z 512%Z 2%nat false
              eq_refl eq_refl eq_refl eq_refl
              ltac:(by_compute) ltac:(by_compute))
    as (st' & H1 & H2 & _).
  exists st'. split; [exact H1 | exact H2].
Defined.

(** "No less than [05]" on a byte that holds [07]. *)
Lemma clamp_byte_witness :
  op_clamp "70000000 00000005" (initial [x07]) = (Ok tt, initial [x07]).
Proof.
  apply (proj2 (Clamp.clamp_byte
                  "70000000 00000005" (initial [x07])
                  "0"%char 0%Z 5%Z 0%nat x07
                  eq_refl eq_refl eq_refl eq_refl eq_refl eq_refl)).
  by_compute.
Defined.

(** [DE AD BE EF] stands once, at offset 1. *)
Lemma search_short_pattern_witness :
  let d := [x00; xde; xad; xbe; xef; x00] in
  op_search ["80010004 DEADBEEF"] 0 "80010004 DEADBEEF" (initial d)
  = (Ok 0%nat, mkState d 1 0 0).
Proof.
  intros d.
  apply (proj1 (SearchHandlers.search_short_pattern
                  ["80010004 DEADBEEF"] 0 "80010004 DEADBEEF" (initial d)
                  "0"%char 1%Z 4%Z 3735928559%Z
                  ltac:(repeat constructor) eq_refl eq_refl eq_refl
                  eq_refl ltac:(by_compute) eq_refl ltac:(by_compute)
                  eq_refl ltac:(by_compute))).
  by_compute.
Defined.

(** [AB] stands at offsets 0 and 2; from the end, the first match is at
    offset 2, and the end pointer is left at the last index. *)
Lemma rsearch_short_pattern_witness :
  let d := [xab; x00; xab; x00] in
  op_rsearch ["B0010001 AB000000"] 0 "B0010001 AB000000" (initial d)
  = (Ok 0%nat, mkState d 2 3 0).
Proof.
  intros d.
  apply (proj1 (SearchHandlers.rsearch_short_pattern
                  ["B0010001 AB000000"] 0 "B0010001 AB000000" (initial d)
                  "0"%char 1%Z 1%Z 2868903936%Z
                  ltac:(repeat constructor) eq_refl eq_refl eq_refl
                  eq_refl ltac:(by_compute) eq_refl ltac:(by_compute)
                  eq_refl ltac:(by_compute))).
  by_compute.
Defined.

(** The byte at offset 2 is [AB], which also stands at offset 0. *)
Lemma asearch_below_address_witness :
  let d := [xab; x00; xab; x00] in
  op_asearch ["C4010001 00000002"] 0 "C4010001 00000002" (initial d)
  = (Ok 0%nat, mkState d 0 0 0).
Proof.
  intros d.
  apply (proj1 (proj2 (SearchHandlers.asearch_below_address
                  ["C4010001 00000002"] 0 "C4010001 00000002" (initial d)
                  1%Z 1%Z 2%Z
                  ltac:(repeat constructor) eq_refl eq_refl
                  eq_refl ltac:(by_compute) eq_refl eq_refl
                  ltac:(by_compute) ltac:(by_compute) ltac:(by_compute)))).
  by_compute.
Defined.

(** The pattern is there, the count is 0. *)
Lemma search_count_below_one_witness :
  search_data [xab] 1 0 [xab] 1 0 = (-1)%Z.
Proof.
  apply (proj1 (SearchHandlers.search_count_below_one
                  [xab] 1 0 [xab] 1 0 ltac:(by_compute))).
Defined.

(** An empty program on a file of two bytes. *)
Lemma apply_code_again_doubles_witness :
  exists self1 w1 self2 w2,
    apply_code (mkQC "save" "" [] []) (mkWorld (Some [x01; x02]) [])
    = (Ok tt, self1, w1)
    /\ apply_code self1 w1 = (Ok tt, self2, w2)
    /\ stored w2 = Some [x01; x02; x01; x02].
Proof.
  destruct (Runs.apply_code_again_doubles
              (mkQC "save" "" [] []) (mkWorld (Some [x01; x02]) [])
              [x01; x02] eq_refl eq_refl)
    as (s1 & w1 & s2 & w2 & H1 & _ & H2 & H3).
  exists s1, w1, s2, w2. split; [exact H1|]. split; [exact H2 | exact H3].
Defined.

(** [FFFF + 1] on 16 bits. *)
Lemma incdec_wide_wraps_witness :
  exists st',
    op_incdec "31000000 00000001" (initial [xff; xff]) = (Ok tt, st')
    /\ load 16 2 0 st' = (Ok 0%Z, st').
Proof.
  destruct (Arithmetic.incdec_wide_wraps
              "31000000 00000001" (initial [xff; xff])
              "1"%char 0%Z 1%Z 2%nat false
              eq_refl eq_refl eq_refl eq_refl
              ltac:(by_compute) ltac:(by_compute))
    as (st' & H1 & H2 & _).
  exists st'. split; [exact H1 | exact H2].
Defined.

(** [FF + 1] and [07 + 1] on 8 bits. *)
Lemma incdec_byte_does_not_wrap_witness :
  op_incdec "30000000 00000001" (initial [xff])
  = (Raise (Exn ValueError), initial [xff])
  /\ op_incdec "30000000 00000001" (initial [x07])
     = (Ok tt, initial [x08]).
Proof.
  split.
  - apply (Arithmetic.incdec_byte_does_not_wrap
             "30000000 00000001" (initial [xff])
             "0"%char 0%Z 1%Z 0%nat xff
             eq_refl eq_refl eq_refl eq_refl eq_refl eq_refl).
  - apply (Arithmetic.incdec_byte_does_not_wrap
             "30000000 00000001" (initial [x07])
             "0"%char 0%Z 1%Z 0%nat x07
             eq_refl eq_refl eq_refl eq_refl eq_refl eq_refl).
Defined.

(** The two lines of a constructed object. *)
Lemma init_lines_well_shaped_witness :
  Forall well_shaped ["20000000 0000002A"; "D0000000 01000001"].
Proof.
  apply (Decoding.init_lines_well_shaped
           "save" "20000000 0000002A D0000000 01000001"
           (mkQC "save" "20000000 0000002A D0000000 01000001" []
                 ["20000000 0000002A"; "D0000000 01000001"])
           eq_refl).
Defined.

(** "Step forward" by 4 on a buffer of one byte. *)
Lemma pointer_ops_keep_buffer_witness :
  exists p e,
    op_pointer "92000000 00000004" (initial [x01])
    = (Ok tt, mkState [x01] p e 0)
    /\ e = 0%Z.
Proof.
  destruct (Pointer.pointer_ops_keep_buffer
              "92000000 00000004" (initial [x01]) "2"%char 4%Z
              eq_refl eq_refl ltac:(by_compute))
    as (p & e & H1 & _ & H2 & _).
  exists p, e. split; [exact H1 | exact (H2 eq_refl)].
Defined.

(** Forward and back by [FFFFFFFF] from a pointer at [2^63 - 1]. *)
Lemma step_forward_then_back_witness :
  let st := mkState [x01] (2 ^ 63 - 1) 0 0 in
  (op_pointer "92000000 FFFFFFFF" ;; op_pointer "93000000 FFFFFFFF")%qc st
  = (Ok tt, st).
Proof.
  intros st.
  apply (Pointer.step_forward_then_back
           "92000000 FFFFFFFF" "93000000 FFFFFFFF" st 4294967295%Z
           eq_refl eq_refl eq_refl eq_refl ltac:(by_compute)).
Defined.

(** Searches for [DE AD BE EF], which stands at offsets 1 and 6, with a
    count field of [00]: forward (found at 1, and the same round with a
    count field of [01]), backward (found at 6, the end pointer left at
    9), from the address 1 for two bytes (found at 6); and a forward
    search for [CA FE BA BE], which is not there. *)
Lemma zero_count_is_first_match_witness :
  let d := [x00; xde; xad; xbe; xef; x00; xde; xad; xbe; xef] in
  let st := initial d in
  let rest := "28000000 11223344" in
  step ["80000004 DEADBEEF"; rest] 0 st = (Ok 1%nat, mkState d 1 0 0)
  /\ step ["80010004 DEADBEEF"; rest] 0 st
     = step ["80000004 DEADBEEF"; rest] 0 st
  /\ step ["B0000004 DEADBEEF"; rest] 0 st = (Ok 1%nat, mkState d 6 9 0)
  /\ step ["C0000002 00000001"] 0 st = (Ok 1%nat, mkState d 6 0 0)
  /\ step ["80000004 CAFEBABE"; rest] 0 st = (Ok 3%nat, mkState d 0 0 0).
Proof.
  intros d st rest.
  pose proof (CountZero.zero_count_is_first_match
                ["80000004 DEADBEEF"; rest] 0 "80000004 DEADBEEF"
                "8"%char "0"%char 4%Z 3735928559%Z st
                ltac:(repeat constructor) eq_refl eq_refl eq_refl eq_refl
                eq_refl eq_refl eq_refl) as (HA & H8 & _).
  split; [|split; [|split; [|split]]].
  - exact (H8 eq_refl [xde; xad; xbe; xef] "80000004 DEADBEEF" 0%nat
              eq_refl).
  - exact (HA "80010004 DEADBEEF" eq_refl eq_refl eq_refl eq_refl eq_refl).
  - exact (proj1 (proj2 (proj2
             (CountZero.zero_count_is_first_match
                ["B0000004 DEADBEEF"; rest] 0 "B0000004 DEADBEEF"
                "B"%char "0"%char 4%Z 3735928559%Z st
                ltac:(repeat constructor) eq_refl eq_refl eq_refl eq_refl
                eq_refl eq_refl eq_refl)))
             eq_refl [xde; xad; xbe; xef] "B0000004 DEADBEEF" 0%nat
             eq_refl).
  - exact (proj1 (proj2 (proj2 (proj2
             (CountZero.zero_count_is_first_match
                ["C0000002 00000001"] 0 "C0000002 00000001"
                "C"%char "0"%char 2%Z 1%Z st
                ltac:(repeat constructor) eq_refl eq_refl eq_refl eq_refl
                eq_refl eq_refl eq_refl))))
             eq_refl).
  - exact (proj1 (proj2
             (CountZero.zero_count_is_first_match
                ["80000004 CAFEBABE"; rest] 0 "80000004 CAFEBABE"
                "8"%char "0"%char 4%Z 3405691582%Z st
                ltac:(repeat constructor) eq_refl eq_refl eq_refl eq_refl
                eq_refl eq_refl eq_refl))
             eq_refl [xca; xfe; xba; xbe] "80000004 CAFEBABE" 0%nat
             eq_refl).
Defined.

End MoreInstances.
